(** * Micro-CDN: index server, monitor and content server request handling

    A shallow embedding of the coordination core of the Micro-CDN daemons
    ([index_server.py], [monitor_server.py], [content_server.py]) and the
    properties of its natural-language specification.

    Conventions of the embedding.
    - A Python [str] received from the wire is a [string]. The protocol is
      ASCII: the character classes below are Python's [str.isspace] and
      decimal digits restricted to code points below 128, and a handler is
      given its chunk decoded. What is proved about the handling of a
      received chunk is therefore stated for chunks of ASCII bytes
      ([is_ascii]), on which [decode('utf-8')] succeeds and changes nothing
      and the character classes are Python's.
    - A Python [int] is a [Z]. A [time.time()] reading is an exact rational
      [Qc]: the only arithmetic done on readings is one subtraction of two
      nearby readings, which is exact on floats, and one comparison with the
      timeout.
    - A Python [dict] is an insertion-ordered association list with unique
      keys, because the handlers iterate [dict.items()].
    - Every critical section runs under its lock, so a handler iteration is
      one atomic step. A step returns the new store together with what it
      wrote to its connection (for the monitor: the trace of its log lines
      and calls as well) and says whether an exception escaped to the
      enclosing [except] clause. Writing to the peer that sent the request
      is taken to succeed. *)

From Stdlib Require Import Ascii String ZArith QArith Qcanon.
From stdpp Require Import base tactics option list strings numbers pretty.

Local Open Scope string_scope.
Local Open Scope Z_scope.
Local Open Scope list_scope.

(** ** Python string primitives *)

Module PyStr.

(** The line feed, and a string followed by one. *)
Definition LF : string := String "010"%char EmptyString.

Definition line (s : string) : string := s +:+ LF.

(** [str.isspace] on ASCII: TAB, LF, VT, FF, CR, FS, GS, RS, US and SPACE. *)
Definition is_space (c : ascii) : bool :=
  let n := nat_of_ascii c in
  ((9 <=? n)%nat && (n <=? 13)%nat) || ((28 <=? n)%nat && (n <=? 32)%nat).

Definition is_digit (c : ascii) : bool :=
  let n := nat_of_ascii c in (48 <=? n)%nat && (n <=? 57)%nat.

Definition digit_val (c : ascii) : Z := Z.of_nat (nat_of_ascii c) - 48.

(** [s.lstrip()] *)
Fixpoint lstrip (s : string) : string :=
  match s with
  | String c s' => if is_space c then lstrip s' else s
  | EmptyString => EmptyString
  end.

(** [s.rstrip()]: a trailing run of whitespace is dropped. *)
Fixpoint rstrip (s : string) : string :=
  match s with
  | String c s' =>
      match rstrip s' with
      | EmptyString => if is_space c then EmptyString else String c EmptyString
      | r => String c r
      end
  | EmptyString => EmptyString
  end.

(** [s.strip()] *)
Definition strip (s : string) : string := rstrip (lstrip s).

(** [s.split()] with no argument: the maximal runs of non-whitespace
    characters, in order. [cur] is the token being read. *)
Fixpoint split_from (cur : string) (s : string) : list string :=
  match s with
  | String c s' =>
      if is_space c
      then match cur with
           | EmptyString => split_from EmptyString s'
           | _ => cur :: split_from EmptyString s'
           end
      else split_from (cur +:+ String c EmptyString) s'
  | EmptyString =>
      match cur with
      | EmptyString => []
      | _ => [cur]
      end
  end.

Definition split (s : string) : list string := split_from EmptyString s.

(** [s.split('\n')]: the pieces between line feeds, empty pieces kept. *)
Fixpoint split_nl_from (cur : string) (s : string) : list string :=
  match s with
  | String c s' =>
      if Ascii.eqb c "010"%char
      then cur :: split_nl_from EmptyString s'
      else split_nl_from (cur +:+ String c EmptyString) s'
  | EmptyString => [cur]
  end.

Definition split_nl (s : string) : list string := split_nl_from EmptyString s.

(** No character of [s] is whitespace. *)
Fixpoint no_space (s : string) : bool :=
  match s with
  | String c s' => negb (is_space c) && no_space s'
  | EmptyString => true
  end.

(** [s.startswith(p)] *)
Definition startswith (s p : string) : bool := String.prefix p s.

(** The digits of a decimal literal: digits with single underscores allowed
    between two digits. [seen] says that the previous character was a
    digit. *)
Fixpoint int_digits (acc : Z) (seen : bool) (s : string) : option Z :=
  match s with
  | String c s' =>
      if is_digit c then int_digits (10 * acc + digit_val c) true s'
      else if Ascii.eqb c "_"%char
           then (if seen then int_digits acc false s' else None)
           else None
  | EmptyString => if seen then Some acc else None
  end.

(** [int(s)]: surrounding whitespace is ignored, then an optional sign and
    the digits. [None] stands for the [ValueError] Python raises. The
    interpreter's limit on the number of digits (4300) is above what one
    [recv] of at most 4096 bytes can carry. *)
Definition int (s : string) : option Z :=
  match strip s with
  | String "+" r => int_digits 0 false r
  | String "-" r => Z.opp <$> int_digits 0 false r
  | r => int_digits 0 false r
  end.

(** [str(n)] and [f"{n}"] for an integer. *)
Definition of_int (n : Z) : string := pretty n.

End PyStr.

(** ** Python dictionaries with string keys

    Insertion ordered: assigning to a key that is present keeps its place,
    assigning to a new key appends it. *)

Module PyDict.

Definition dict (V : Type) : Type := list (string * V).

(** [d.get(k)], with [None] when [k not in d]. *)
Fixpoint get {V} (k : string) (d : dict V) : option V :=
  match d with
  | [] => None
  | (k', v) :: d' => if decide (k' = k) then Some v else get k d'
  end.

(** [k in d] *)
Definition mem {V} (k : string) (d : dict V) : bool :=
  match get k d with Some _ => true | None => false end.

(** [d[k] = v] *)
Fixpoint assign {V} (k : string) (v : V) (d : dict V) : dict V :=
  match d with
  | [] => [(k, v)]
  | (k', v') :: d' =>
      if decide (k' = k) then (k, v) :: d' else (k', v') :: assign k v d'
  end.

(** The keys in iteration order. *)
Definition keys {V} (d : dict V) : list string := d.*1.

(** A dictionary holds a key once. *)
Definition wf {V} (d : dict V) : Prop := NoDup (keys d).

End PyDict.

Import PyDict.

(** How a handler step ends: it falls through to the next iteration of the
    loop around it, or an exception leaves the [try] block. *)
Inductive outcome : Type :=
  | Continues
  | Raises.

#[global] Instance outcome_eq_dec : EqDecision outcome.
Proof. solve_decision. Defined.

(** ** The index server ([index_server.py]) *)

Module Index.

(** One value of [content_servers]. *)
Record ServerRecord : Type := {
  ip : string;
  tcp_port : Z;
  udp_port : Z;
  load : Z;
  last_update : Qc;
  status : string
}.

#[global] Instance ServerRecord_eq_dec : EqDecision ServerRecord.
Proof. solve_decision. Defined.

Definition set_load (n : Z) (r : ServerRecord) : ServerRecord :=
  {| ip := ip r; tcp_port := tcp_port r; udp_port := udp_port r;
     load := n; last_update := last_update r; status := status r |}.

Definition set_status (s : string) (r : ServerRecord) : ServerRecord :=
  {| ip := ip r; tcp_port := tcp_port r; udp_port := udp_port r;
     load := load r; last_update := last_update r; status := s |}.

Definition set_last_update (t : Qc) (r : ServerRecord) : ServerRecord :=
  {| ip := ip r; tcp_port := tcp_port r; udp_port := udp_port r;
     load := load r; last_update := t; status := status r |}.

(** The two global maps guarded by [data_lock]. *)
Record Store : Type := {
  content_servers : dict ServerRecord;
  file_index : dict (list (string * Z))
}.

Definition empty : Store := {| content_servers := []; file_index := [] |}.

Definition with_servers (cs : dict ServerRecord) (st : Store) : Store :=
  {| content_servers := cs; file_index := file_index st |}.

Definition with_files (fi : dict (list (string * Z))) (st : Store) : Store :=
  {| content_servers := content_servers st; file_index := fi |}.

(** What the exchange with the Monitor gave: an exception from [connect],
    [sendall] or [recv], or the text that the reading loop accumulated
    before it stopped (the loop itself is [read_response] below). *)
Inductive monitor_io : Type :=
  | Unreachable
  | Response (text : string).

(** The body of the parsing loop of [get_server_health_from_monitor] for one
    line. [int(load)] is evaluated before the first assignment, so a line
    that raises changes nothing. *)
Definition merge_line (l : string) (cs : dict ServerRecord)
  : dict ServerRecord * outcome :=
  if PyStr.startswith l "SERVER" then
    match PyStr.split l with
    | _ :: server_id :: _ :: _ :: load_s :: status_s :: _ =>
        match get server_id cs with
        | Some r =>
            match PyStr.int load_s with
            | Some n =>
                (assign server_id (set_status status_s (set_load n r)) cs,
                 Continues)
            | None => (cs, Raises)
            end
        | None => (cs, Continues)
        end
    | _ => (cs, Continues)
    end
  else (cs, Continues).

Fixpoint merge_lines (ls : list string) (cs : dict ServerRecord)
  : dict ServerRecord * outcome :=
  match ls with
  | [] => (cs, Continues)
  | l :: ls' =>
      match merge_line l cs with
      | (cs', Continues) => merge_lines ls' cs'
      | (cs', Raises) => (cs', Raises)
      end
  end.

(** [get_server_health_from_monitor()]: the registry afterwards and the
    boolean returned. Every exception is caught and turned into [False]. *)
Definition get_server_health_from_monitor (io : monitor_io)
    (cs : dict ServerRecord) : dict ServerRecord * bool :=
  match io with
  | Unreachable => (cs, false)
  | Response text =>
      match merge_lines (PyStr.split_nl (PyStr.strip text)) cs with
      | (cs', Continues) => (cs', true)
      | (cs', Raises) => (cs', false)
      end
  end.

(** An element of [candidates]: server id, server record, file size. *)
Definition candidate : Type := string * ServerRecord * Z.

Definition cand_load (c : candidate) : Z := load (c.1.2).

(** [candidates.sort(key=lambda x: x[1]['load'])]. Python's sort is stable;
    so is this insertion sort, which therefore returns the same list. *)
Fixpoint insert_by_load (c : candidate) (l : list candidate) : list candidate :=
  match l with
  | [] => [c]
  | d :: l' =>
      if cand_load c <=? cand_load d then c :: d :: l'
      else d :: insert_by_load c l'
  end.

Definition sort_by_load (l : list candidate) : list candidate :=
  foldr insert_by_load [] l.

(** The loop that fills [candidates]. *)
Definition candidate_of (cs : dict ServerRecord) (h : string * Z)
  : option candidate :=
  match get h.1 cs with
  | Some server =>
      if decide (status server = "alive") then Some (h.1, server, h.2)
      else None
  | None => None
  end.

Definition candidates (cs : dict ServerRecord) (hosts : list (string * Z))
  : list candidate :=
  omap (candidate_of cs) hosts.

(** [select_best_server(file_name)]; [None] is the pair [(None, None)]. *)
Definition select_best_server (file_name : string) (st : Store)
  : option (ServerRecord * Z) :=
  match get file_name (file_index st) with
  | None => None
  | Some hosts =>
      match sort_by_load (candidates (content_servers st) hosts) with
      | [] => None
      | best :: _ => Some (best.1.2, best.2)
      end
  end.

(** The replies a handler sends are strings ending in a line feed. Sending
    is taken to succeed: the peer that issued the request is connected. *)
Definition OK_REGISTERED : string := PyStr.line "OK REGISTERED".
Definition OK_FILES_ADDED : string := PyStr.line "OK FILES_ADDED".
Definition OK : string := PyStr.line "OK".
Definition WELCOME : string := PyStr.line "WELCOME MICRO-CDN".
Definition ERROR_INVALID_FORMAT : string := PyStr.line "ERROR INVALID_FORMAT".
Definition ERROR_FILE_NOT_FOUND : string := PyStr.line "ERROR FILE_NOT_FOUND".
Definition ERROR_UNKNOWN_COMMAND : string := PyStr.line "ERROR UNKNOWN_COMMAND".

(** The [REGISTER] branch of [handle_content_server], under the lock: the
    dictionary literal is built first ([int] may raise), then stored. *)
Definition register (server_id addr_ip tcp_port_s udp_port_s : string)
    (now : Qc) (cs : dict ServerRecord) : dict ServerRecord * outcome :=
  match PyStr.int tcp_port_s with
  | Some tp =>
      match PyStr.int udp_port_s with
      | Some up =>
          (assign server_id
             {| ip := addr_ip; tcp_port := tp; udp_port := up; load := 0;
                last_update := now; status := "alive" |} cs,
           Continues)
      | None => (cs, Raises)
      end
  | None => (cs, Raises)
  end.

(** The [ADD_FILE] branch of [handle_content_server], under the lock. The
    list for a new file name is created before [int(file_size)] is
    evaluated, and [int(file_size)] is evaluated only when the server has no
    entry for the file yet. *)
Definition add_file (sid file_name file_size : string)
    (fi : dict (list (string * Z))) : dict (list (string * Z)) * outcome :=
  let fi1 := if mem file_name fi then fi else assign file_name [] fi in
  let hosts := default [] (get file_name fi1) in
  match filter (fun h : string * Z => h.1 = sid) hosts with
  | _ :: _ => (fi1, Continues)
  | [] =>
      match PyStr.int file_size with
      | Some n => (assign file_name (hosts ++ [(sid, n)]) fi1, Continues)
      | None => (fi1, Raises)
      end
  end.

(** The [UPDATE_LOAD] branch, under the lock. *)
Definition update_load (sid load_s : string) (now : Qc)
    (cs : dict ServerRecord) : dict ServerRecord * outcome :=
  match get sid cs with
  | Some r =>
      match PyStr.int load_s with
      | Some n => (assign sid (set_last_update now (set_load n r)) cs, Continues)
      | None => (cs, Raises)
      end
  | None => (cs, Continues)
  end.

(** One iteration of [for line in lines] in [handle_content_server], for a
    peer at address [addr_ip] and the clock reading [now]: the store, the
    replies sent and how the iteration ends. The local [server_id] only
    feeds a log line and is left out, as are the log lines. *)
Definition content_server_line (addr_ip : string) (now : Qc) (raw : string)
    (st : Store) : Store * list string * outcome :=
  let l := PyStr.strip raw in
  if decide (l = "") then (st, [], Continues)
  else if PyStr.startswith l "REGISTER" then
    match PyStr.split l with
    | _ :: server_id :: tcp_port_s :: udp_port_s :: _ =>
        match register server_id addr_ip tcp_port_s udp_port_s now
                (content_servers st) with
        | (cs', Continues) => (with_servers cs' st, [OK_REGISTERED], Continues)
        | (cs', Raises) => (with_servers cs' st, [], Raises)
        end
    | _ => (st, [ERROR_INVALID_FORMAT], Continues)
    end
  else if PyStr.startswith l "ADD_FILE" then
    match PyStr.split l with
    | _ :: sid :: file_name :: file_size :: _ =>
        let r := add_file sid file_name file_size (file_index st) in
        (with_files r.1 st, [], r.2)
    | _ => (st, [], Continues)
    end
  else if decide (l = "DONE_FILES") then (st, [OK_FILES_ADDED], Continues)
  else if PyStr.startswith l "UPDATE_LOAD" then
    match PyStr.split l with
    | _ :: sid :: load_s :: _ =>
        match update_load sid load_s now (content_servers st) with
        | (cs', Continues) => (with_servers cs' st, [OK], Continues)
        | (cs', Raises) => (with_servers cs' st, [], Raises)
        end
    | _ => (st, [], Continues)
    end
  else (st, [], Continues).

(** The lines of one received chunk: [data.decode().strip().split('\n')]. *)
Definition lines_of (data : string) : list string :=
  PyStr.split_nl (PyStr.strip data).

(** The [for line in lines] loop for one chunk; [clock i] is the clock
    reading while the line of index [i] is handled. An exception leaves the
    loop. *)
Fixpoint handle_lines (addr_ip : string) (clock : nat → Qc) (i : nat)
    (lines : list string) (st : Store) : Store * list string * outcome :=
  match lines with
  | [] => (st, [], Continues)
  | raw :: lines' =>
      match content_server_line addr_ip (clock i) raw st with
      | (st', out, Continues) =>
          let r := handle_lines addr_ip clock (S i) lines' st' in
          (r.1.1, out ++ r.1.2, r.2)
      | (st', out, Raises) => (st', out, Raises)
      end
  end.

(** [handle_content_server]: the chunks received on one connection, each
    with its clock. An empty chunk ends the loop (the peer closed); an
    exception leaves both loops and the connection is closed. *)
Fixpoint handle_content_server (addr_ip : string)
    (input : list (string * (nat → Qc))) (st : Store)
  : Store * list string * outcome :=
  match input with
  | [] => (st, [], Continues)
  | (data, clock) :: input' =>
      if decide (data = "") then (st, [], Continues)
      else
        match handle_lines addr_ip clock 0 (lines_of data) st with
        | (st', out, Continues) =>
            let r := handle_content_server addr_ip input' st' in
            (r.1.1, out ++ r.1.2, r.2)
        | (st', out, Raises) => (st', out, Raises)
        end
  end.

(** The server id written into the [SERVER] reply: the first key of
    [content_servers] whose record equals the selected one. *)
Definition server_id_of (server : ServerRecord) (cs : dict ServerRecord)
  : string :=
  match List.find (fun kv : string * ServerRecord => bool_decide (kv.2 = server)) cs with
  | Some kv => kv.1
  | None => "unknown"
  end.

Definition server_reply (server : ServerRecord) (sid : string) (file_size : Z)
  : string :=
  PyStr.line ("SERVER " +:+ ip server +:+ " " +:+ PyStr.of_int (tcp_port server)
              +:+ " " +:+ sid +:+ " " +:+ PyStr.of_int file_size).

(** The [LIST_FILES] reply: one line per file with an alive host. *)
Definition alive_in (cs : dict ServerRecord) (h : string * Z) : bool :=
  match get h.1 cs with
  | Some r => bool_decide (status r = "alive")
  | None => false
  end.

Definition file_line (cs : dict ServerRecord)
    (entry : string * list (string * Z)) : string :=
  match List.find (alive_in cs) entry.2 with
  | Some h => PyStr.line ("FILE " +:+ entry.1 +:+ " " +:+ PyStr.of_int h.2)
  | None => ""
  end.

Definition list_files (st : Store) : string :=
  foldr (fun e acc => file_line (content_servers st) e +:+ acc)
        (PyStr.line "END") (file_index st).

(** The [LIST_SERVERS] reply. *)
Definition server_line (kv : string * ServerRecord) : string :=
  PyStr.line ("SERVER " +:+ kv.1 +:+ " " +:+ ip kv.2 +:+ " "
              +:+ PyStr.of_int (tcp_port kv.2) +:+ " "
              +:+ PyStr.of_int (load kv.2) +:+ " " +:+ status kv.2).

Definition list_servers (st : Store) : string :=
  foldr (fun kv acc => server_line kv +:+ acc) (PyStr.line "END")
        (content_servers st).

(** The registry after the refresh that a [GET] triggers. *)
Definition refresh (io : monitor_io) (st : Store) : Store :=
  with_servers (get_server_health_from_monitor io (content_servers st)).1 st.

(** The reply to [GET file_name] once the registry is refreshed. *)
Definition get_reply (file_name : string) (st : Store) : string :=
  match select_best_server file_name st with
  | Some (server, file_size) =>
      server_reply server (server_id_of server (content_servers st)) file_size
  | None => ERROR_FILE_NOT_FOUND
  end.

(** One iteration of the loop of [handle_client] for the received chunk
    [data]; [io] is what the exchange with the Monitor gives if the request
    is a [GET]. *)
Definition client_message (io : monitor_io) (data : string) (st : Store)
  : Store * list string * outcome :=
  let message := PyStr.strip data in
  if decide (message = "HELLO") then (st, [WELCOME], Continues)
  else if PyStr.startswith message "GET" then
    match PyStr.split message with
    | _ :: file_name :: _ =>
        let st' := refresh io st in
        (st', [get_reply file_name st'], Continues)
    | _ => (st, [ERROR_INVALID_FORMAT], Continues)
    end
  else if decide (message = "LIST_FILES") then (st, [list_files st], Continues)
  else if decide (message = "LIST_SERVERS") then
    (st, [list_servers st], Continues)
  else (st, [ERROR_UNKNOWN_COMMAND], Continues).

(** [handle_client]: the chunks received on one connection, in order. An
    empty chunk ends the loop. *)
Fixpoint handle_client (input : list (monitor_io * string)) (st : Store)
  : Store * list string * outcome :=
  match input with
  | [] => (st, [], Continues)
  | (io, data) :: input' =>
      if decide (data = "") then (st, [], Continues)
      else
        match client_message io data st with
        | (st', out, Continues) =>
            let r := handle_client input' st' in
            (r.1.1, out ++ r.1.2, r.2)
        | (st', out, Raises) => (st', out, Raises)
        end
  end.

(** [handle_monitor_notification]: a [SERVER_DOWN] message marks a known
    server dead. *)
Definition handle_monitor_notification (data : string)
    (cs : dict ServerRecord) : dict ServerRecord :=
  let message := PyStr.strip data in
  if PyStr.startswith message "SERVER_DOWN" then
    match PyStr.split message with
    | _ :: server_id :: _ =>
        match get server_id cs with
        | Some r => assign server_id (set_status "dead" r) cs
        | None => cs
        end
    | _ => cs
    end
  else cs.

End Index.

(** ** The monitor ([monitor_server.py]) *)

Module Monitor.

Definition HEARTBEAT_TIMEOUT : Qc := Q2Qc 8.

(** One value of [servers]. *)
Record HeartbeatRecord : Type := {
  ip : string;
  tcp_port : Z;
  last_seen : Qc;
  load : Z;
  num_files : Z;
  status : string
}.

Definition set_status (s : string) (r : HeartbeatRecord) : HeartbeatRecord :=
  {| ip := ip r; tcp_port := tcp_port r; last_seen := last_seen r;
     load := load r; num_files := num_files r; status := s |}.

(** The monitor's globals: [servers] and [index_server_addr]. *)
Record State : Type := {
  servers : dict HeartbeatRecord;
  index_server_addr : option (string * Z)
}.

Definition initial : State := {| servers := []; index_server_addr := None |}.

(** What a step of the monitor does besides changing its state. *)
Inductive event : Type :=
  | LogCameBack (server_id : string)
      (** [Server ... came back online!] *)
  | LogHeartbeat (server_id load_s num_files_s : string)
      (** [Heartbeat from ...] *)
  | LogHeartbeatError
      (** [Error processing heartbeat: ...] *)
  | LogMarkedDead (server_id : string)
      (** [Server ... marked as DEAD ...] *)
  | NotifyCall (server_id : string)
      (** the call [notify_index_server_failure(server_id)] *)
  | Deliver (addr : string * Z) (server_id : string)
      (** connecting to [addr] to send [SERVER_DOWN server_id timestamp] *)
  | LogNotified (server_id : string)
      (** [Notified Index Server about ... failure] *)
  | LogNotifyFailed
      (** [Failed to notify Index Server: ...] *)
  | Reply (text : string)
      (** [conn.sendall(text)] on a TCP connection *).

#[global] Instance event_eq_dec : EqDecision event.
Proof. solve_decision. Defined.

(** The body of the loop of [udp_heartbeat_listener] for one datagram
    received at clock reading [now]. The new record is built before it is
    stored, so a field that [int] rejects leaves [servers] as it was; the
    exception is logged inside the loop. *)
Definition on_datagram (now : Qc) (data : string)
    (srv : dict HeartbeatRecord) : dict HeartbeatRecord * list event :=
  let message := PyStr.strip data in
  if PyStr.startswith message "HEARTBEAT" then
    match PyStr.split message with
    | _ :: server_id :: ip_s :: tcp_port_s :: load_s :: num_files_s :: _ =>
        let was_dead :=
          match get server_id srv with
          | Some r => bool_decide (status r = "dead")
          | None => false
          end in
        match PyStr.int tcp_port_s, PyStr.int load_s, PyStr.int num_files_s with
        | Some tp, Some l, Some nf =>
            (assign server_id
               {| ip := ip_s; tcp_port := tp; last_seen := now; load := l;
                  num_files := nf; status := "alive" |} srv,
             [if was_dead then LogCameBack server_id
              else LogHeartbeat server_id load_s num_files_s])
        | _, _, _ => (srv, [LogHeartbeatError])
        end
    | _ => (srv, [])
    end
  else (srv, []).

(** [udp_heartbeat_listener]: the datagrams received, each with the clock
    reading at its arrival. *)
Fixpoint udp_heartbeat_listener (input : list (Qc * string))
    (srv : dict HeartbeatRecord) : dict HeartbeatRecord * list event :=
  match input with
  | [] => (srv, [])
  | (now, data) :: input' =>
      let r := on_datagram now data srv in
      let r' := udp_heartbeat_listener input' r.1 in
      (r'.1, r.2 ++ r'.2)
  end.

(** [notify_index_server_failure(server_id)]; [delivered] says whether
    connecting and sending went through. A failure is logged and swallowed. *)
Definition notify_index_server_failure (addr : option (string * Z))
    (delivered : bool) (server_id : string) : list event :=
  NotifyCall server_id ::
  match addr with
  | Some a =>
      Deliver a server_id ::
      (if delivered then [LogNotified server_id] else [LogNotifyFailed])
  | None => []
  end.

(** The body of the [for] loop of [check_server_health] for one item. *)
Definition check_one (now : Qc) (addr : option (string * Z))
    (net : string -> bool) (kv : string * HeartbeatRecord)
  : (string * HeartbeatRecord) * list event :=
  if decide (status kv.2 = "alive") then
    if decide (HEARTBEAT_TIMEOUT < now - last_seen kv.2)%Qc then
      ((kv.1, set_status "dead" kv.2),
       LogMarkedDead kv.1 :: notify_index_server_failure addr (net kv.1) kv.1)
    else (kv, [])
  else (kv, []).

(** One sweep of [check_server_health] at clock reading [now]: the items of
    [servers] in order. [net] tells for which server ids delivery works. *)
Fixpoint check_server_health (now : Qc) (addr : option (string * Z))
    (net : string -> bool) (srv : dict HeartbeatRecord)
  : dict HeartbeatRecord * list event :=
  match srv with
  | [] => ([], [])
  | kv :: srv' =>
      let r := check_one now addr net kv in
      let r' := check_server_health now addr net srv' in
      (r.1 :: r'.1, r.2 ++ r'.2)
  end.

Definition PONG : string := PyStr.line "PONG".
Definition OK_INDEX_REGISTERED : string := PyStr.line "OK INDEX_REGISTERED".
Definition ERROR_INVALID_FORMAT : string := PyStr.line "ERROR INVALID_FORMAT".
Definition ERROR_UNKNOWN_COMMAND : string := PyStr.line "ERROR UNKNOWN_COMMAND".

(** The [LIST_SERVERS] reply. *)
Definition server_line (kv : string * HeartbeatRecord) : string :=
  PyStr.line ("SERVER " +:+ kv.1 +:+ " " +:+ ip kv.2 +:+ " "
              +:+ PyStr.of_int (tcp_port kv.2) +:+ " "
              +:+ PyStr.of_int (load kv.2) +:+ " " +:+ status kv.2).

Definition list_servers (srv : dict HeartbeatRecord) : string :=
  foldr (fun kv acc => server_line kv +:+ acc) (PyStr.line "END") srv.

(** One iteration of the loop of [handle_tcp_client] for the chunk [data]. *)
Definition tcp_message (data : string) (m : State)
  : State * list string * outcome :=
  let message := PyStr.strip data in
  if decide (message = "LIST_SERVERS") then
    (m, [list_servers (servers m)], Continues)
  else if PyStr.startswith message "REGISTER_INDEX" then
    match PyStr.split message with
    | _ :: index_ip :: index_port_s :: _ =>
        match PyStr.int index_port_s with
        | Some index_port =>
            ({| servers := servers m;
                index_server_addr := Some (index_ip, index_port) |},
             [OK_INDEX_REGISTERED], Continues)
        | None => (m, [], Raises)
        end
    | _ => (m, [ERROR_INVALID_FORMAT], Continues)
    end
  else if decide (message = "PING") then (m, [PONG], Continues)
  else (m, [ERROR_UNKNOWN_COMMAND], Continues).

(** [handle_tcp_client]: the chunks received on one connection. An empty
    chunk ends the loop. *)
Fixpoint handle_tcp_client (input : list string) (m : State)
  : State * list string * outcome :=
  match input with
  | [] => (m, [], Continues)
  | data :: input' =>
      if decide (data = "") then (m, [], Continues)
      else
        match tcp_message data m with
        | (m', out, Continues) =>
            let r := handle_tcp_client input' m' in
            (r.1.1, out ++ r.1.2, r.2)
        | (m', out, Raises) => (m', out, Raises)
        end
  end.

(** The three threads take their locks for a whole iteration, so a run of
    the monitor is a sequence of such iterations: a datagram handled, a
    sweep, or a chunk handled on some TCP connection. *)
Inductive step : Type :=
  | Datagram (now : Qc) (data : string)
  | Sweep (now : Qc) (net : string -> bool)
  | Request (data : string).

Definition monitor_step (s : step) (m : State) : State * list event :=
  match s with
  | Datagram now data =>
      let r := on_datagram now data (servers m) in
      ({| servers := r.1; index_server_addr := index_server_addr m |}, r.2)
  | Sweep now net =>
      let r := check_server_health now (index_server_addr m) net (servers m) in
      ({| servers := r.1; index_server_addr := index_server_addr m |}, r.2)
  | Request data =>
      let r := handle_tcp_client [data] m in
      (r.1.1, Reply <$> r.1.2)
  end.

Fixpoint run (steps : list step) (m : State) : State * list event :=
  match steps with
  | [] => (m, [])
  | s :: steps' =>
      let r := monitor_step s m in
      let r' := run steps' r.1 in
      (r'.1, r.2 ++ r'.2)
  end.

(** The number of calls of the failure-notification path for a server, and
    of delivery attempts, in a trace. *)
Definition is_notify_call (server_id : string) (e : event) : bool :=
  match e with
  | NotifyCall s => bool_decide (s = server_id)
  | _ => false
  end.

Definition is_delivery (server_id : string) (e : event) : bool :=
  match e with
  | Deliver _ s => bool_decide (s = server_id)
  | _ => false
  end.

Definition notify_calls (server_id : string) (tr : list event) : nat :=
  length (List.filter (is_notify_call server_id) tr).

Definition delivery_attempts (server_id : string) (tr : list event) : nat :=
  length (List.filter (is_delivery server_id) tr).

End Monitor.

(** ** The content server's transfer service ([content_server.py]) *)

Module Content.

(** What [ContentServer.handle_client] writes to the connection. *)
Inductive event : Type :=
  | Send (text : string)
  | SendFile (file_name : string)
      (** the bytes of the file, in chunks of 4096 *).

Definition ERROR_INVALID_FORMAT : string := PyStr.line "ERROR INVALID_FORMAT".
Definition ERROR_FILE_NOT_FOUND : string := PyStr.line "ERROR FILE_NOT_FOUND".
Definition ERROR_UNKNOWN_COMMAND : string := PyStr.line "ERROR UNKNOWN_COMMAND".

(** The body of the loop of [handle_client] for the chunk [data]. [files] is
    [self.files]; [readable] says which files [open] can open. *)
Definition client_message (readable : string -> bool) (files : dict Z)
    (data : string) : list event * outcome :=
  let message := PyStr.strip data in
  if PyStr.startswith message "GET" then
    match PyStr.split message with
    | _ :: filename :: _ =>
        match get filename files with
        | Some file_size =>
            if readable filename
            then ([Send (PyStr.line ("OK " +:+ PyStr.of_int file_size));
                   SendFile filename], Continues)
            else ([Send (PyStr.line ("OK " +:+ PyStr.of_int file_size))],
                  Raises)
        | None => ([Send ERROR_FILE_NOT_FOUND], Continues)
        end
    | _ => ([Send ERROR_INVALID_FORMAT], Continues)
    end
  else ([Send ERROR_UNKNOWN_COMMAND], Continues).

(** [handle_client]: the loop ends with [break] after the first chunk, so
    later chunks are never read. The counter of active clients, which only
    feeds the heartbeats, is left out. *)
Definition handle_client (readable : string -> bool) (files : dict Z)
    (input : list string) : list event * outcome :=
  match input with
  | [] => ([], Continues)
  | data :: _ =>
      if decide (data = "") then ([], Continues)
      else client_message readable files data
  end.

End Content.

(** ** Predicates of the specification and concrete data *)

Definition t0 : Qc := Q2Qc 100.

(** The chunk made of the given lines, and a clock that stands still. *)
Definition chunk (ls : list string) : string :=
  foldr (fun l acc => PyStr.line l +:+ acc) "" ls.

Definition still (t : Qc) (i : nat) : Qc := t.

(** The store after [CS1], [CS2] and [CS3] registered and published
    [a.txt], each on its own connection. *)
Definition demo_store : Index.Store :=
  let publish sid tp up st :=
    (Index.handle_content_server "10.0.0.1"
       [(chunk ["REGISTER " +:+ sid +:+ " " +:+ tp +:+ " " +:+ up], still t0);
        (chunk ["ADD_FILE " +:+ sid +:+ " a.txt 100";
                "ADD_FILE " +:+ sid +:+ " a.txt 100"; "DONE_FILES"], still t0)]
       st).1.1 in
  publish "CS3" "7005" "7006"
    (publish "CS2" "7003" "7004" (publish "CS1" "7001" "7002" Index.empty)).

Definition demo_response : string :=
  PyStr.line "SERVER CS1 localhost 7001 3 alive" +:+
  PyStr.line "SERVER CS2 localhost 7003 1 alive" +:+
  PyStr.line "SERVER CS3 localhost 7005 5 alive" +:+
  PyStr.line "END".

(** The head of a list is of least load in it. *)
Definition head_least (l : list Index.candidate) : Prop :=
  match l with
  | [] => True
  | b :: _ => Forall (fun c => Index.cand_load b <= Index.cand_load c) l
  end.

Definition demo_hosts : list (string * Z) :=
  [("CS1", 100); ("CS2", 100); ("CS3", 100)].

Definition demo_record (tp up l : Z) (s : string) : Index.ServerRecord :=
  {| Index.ip := "10.0.0.1"; Index.tcp_port := tp; Index.udp_port := up;
     Index.load := l; Index.last_update := t0; Index.status := s |}.

(** The store after a [GET] merged the loads 3, 1 and 5 reported by the
    Monitor. *)
Definition demo_loaded : Index.Store :=
  (Index.client_message (Index.Response demo_response) "GET a.txt"
     demo_store).1.1.

(** No host can serve [f]: the file is not indexed, or each of its hosts is
    absent from the registry or has status [dead]. *)
Definition no_alive_host (f : string) (st : Index.Store) : Prop :=
  get f (Index.file_index st) = None ∨
  ∃ hosts, get f (Index.file_index st) = Some hosts ∧
    ∀ sid sz, (sid, sz) ∈ hosts →
      get sid (Index.content_servers st) = None ∨
      ∃ r, get sid (Index.content_servers st) = Some r ∧ Index.status r = "dead".

(** The received chunk is a [GET] request whose file argument is [f]. *)
Definition is_get (data f : string) : Prop :=
  PyStr.startswith (PyStr.strip data) "GET" = true ∧
  ∃ cmd rest, PyStr.split (PyStr.strip data) = cmd :: f :: rest.

(** A registry in which [CS1], the only host of [a.txt], is dead. *)
Definition demo_dead : Index.Store :=
  {| Index.content_servers := [("CS1", demo_record 7001 7002 2 "dead")];
     Index.file_index := [("a.txt", [("CS1", 100); ("CS9", 100)])] |}.

(** A sequence of [add_file] calls (server id, file name, size field), as
    the [ADD_FILE] lines of any connections make them. A call that raises
    keeps what it did before raising. *)
Definition add_files (calls : list (string * string * string))
    (fi : dict (list (string * Z))) : dict (list (string * Z)) :=
  foldl (fun acc c => (Index.add_file c.1.1 c.1.2 c.2 acc).1) fi calls.

(** The entries of the file index for the pair ([f], [s]). *)
Definition entries_of (s f : string) (fi : dict (list (string * Z)))
  : list (string * Z) :=
  filter (fun h : string * Z => h.1 = s) (default [] (get f fi)).

(** At most one entry per (file name, server id) pair. *)
Definition one_entry_per_pair (fi : dict (list (string * Z))) : Prop :=
  wf fi ∧ ∀ f hosts, get f fi = Some hosts → NoDup (hosts.*1).

(** The line is a [REGISTER] request with these three fields. *)
Definition is_register (raw server_id tcp_port_s udp_port_s : string) : Prop :=
  PyStr.startswith (PyStr.strip raw) "REGISTER" = true ∧
  ∃ cmd rest,
    PyStr.split (PyStr.strip raw) =
    cmd :: server_id :: tcp_port_s :: udp_port_s :: rest.

(** The record that [REGISTER] stores. *)
Definition fresh_record (addr_ip : string) (tp up : Z) (now : Qc)
  : Index.ServerRecord :=
  {| Index.ip := addr_ip; Index.tcp_port := tp; Index.udp_port := up;
     Index.load := 0; Index.last_update := now; Index.status := "alive" |}.

(** The datagram is a [HEARTBEAT] with these five fields. *)
Definition is_heartbeat (data server_id ip_s tcp_port_s load_s num_files_s : string)
  : Prop :=
  PyStr.startswith (PyStr.strip data) "HEARTBEAT" = true ∧
  ∃ cmd rest,
    PyStr.split (PyStr.strip data) =
    cmd :: server_id :: ip_s :: tcp_port_s :: load_s :: num_files_s :: rest.



(** A monitor that heard from [CS1] at time 100 and from [CS2] at 107, with
    the index server registered for notifications. *)
Definition demo_monitor : Monitor.State :=
  (Monitor.run
     [Monitor.Request "REGISTER_INDEX localhost 5001";
      Monitor.Datagram (Q2Qc 100) "HEARTBEAT CS1 localhost 7001 0 3";
      Monitor.Datagram (Q2Qc 107) "HEARTBEAT CS2 localhost 7003 2 3"]
     Monitor.initial).1.

Definition net_up (server_id : string) : bool := true.
Definition net_down (server_id : string) : bool := false.

Definition demo_heartbeat_record (tp : Z) (seen : Qc) (l nf : Z) (s : string)
  : Monitor.HeartbeatRecord :=
  {| Monitor.ip := "localhost"; Monitor.tcp_port := tp;
     Monitor.last_seen := seen; Monitor.load := l; Monitor.num_files := nf;
     Monitor.status := s |}.

(** The datagram begins with [HEARTBEAT] and is malformed: it has fewer than
    six tokens, counting [HEARTBEAT], or one of its three numeric fields is
    not an integer. *)
Definition malformed_heartbeat (data : string) : Prop :=
  PyStr.startswith (PyStr.strip data) "HEARTBEAT" = true ∧
  ((length (PyStr.split (PyStr.strip data)) < 6)%nat ∨
   ∃ cmd sid ip_s tp_s l_s nf_s rest,
     PyStr.split (PyStr.strip data) =
     cmd :: sid :: ip_s :: tp_s :: l_s :: nf_s :: rest ∧
     (PyStr.int tp_s = None ∨ PyStr.int l_s = None ∨ PyStr.int nf_s = None)).

(** The first token of a message, if it has one. *)
Definition first_token (message : string) : option string :=
  head (PyStr.split message).

(** The command words of the three endpoints that answer unknown commands:
    the index server's client handler, the monitor's TCP handler and the
    content server's transfer handler. *)
Definition index_commands : list string :=
  ["HELLO"; "GET"; "LIST_FILES"; "LIST_SERVERS"].
Definition monitor_commands : list string :=
  ["LIST_SERVERS"; "REGISTER_INDEX"; "PING"].
Definition content_commands : list string := ["GET"].

(** The first token of the chunk, if any, is none of the words [bare] and
    does not begin with any of the words [prefixed]. *)
Definition unknown_to (bare prefixed : list string) (data : string) : Prop :=
  ∀ tok, first_token (PyStr.strip data) = Some tok →
    (tok ∉ bare) ∧ (∀ p, p ∈ prefixed → PyStr.startswith tok p = false).

(** The stripped line begins with the command word [cmd] and has fewer than
    [n] tokens. *)
Definition too_short (cmd : string) (n : nat) (raw : string) : Prop :=
  PyStr.startswith (PyStr.strip raw) cmd = true ∧
  (length (PyStr.split (PyStr.strip raw)) < n)%nat.

(** Membership in a list that is written out. *)
Ltac in_list :=
  repeat first [apply list_elem_of_here | apply list_elem_of_further].

(** Two records agree on what only [REGISTER] and [UPDATE_LOAD] set. *)
Definition same_address (r r' : Index.ServerRecord) : Prop :=
  Index.ip r = Index.ip r' ∧ Index.tcp_port r = Index.tcp_port r' ∧
  Index.udp_port r = Index.udp_port r' ∧
  Index.last_update r = Index.last_update r'.

(** Two registries hold the same server ids in the same order, with records
    that differ at most in load and status. *)
Definition same_servers (cs cs' : dict Index.ServerRecord) : Prop :=
  Forall2 (fun a b => a.1 = b.1 ∧ same_address a.2 b.2) cs cs'.

(** [st'] holds every server id of [st], and every host list of [st]
    possibly extended at its end. *)
Definition grows (st st' : Index.Store) : Prop :=
  (∀ k, is_Some (get k (Index.content_servers st)) →
        is_Some (get k (Index.content_servers st'))) ∧
  (∀ f hosts, get f (Index.file_index st) = Some hosts →
     ∃ more, get f (Index.file_index st') = Some (hosts ++ more)).

(** A word: not empty and without whitespace, as the tokens that [split]
    yields are. *)
Definition word (s : string) : Prop := s ≠ "" ∧ PyStr.no_space s = true.

(** Words separated by single spaces: the shape of every line that the
    f-strings of the protocol build. *)
Fixpoint unwords (ws : list string) : string :=
  match ws with
  | [] => ""
  | w :: ws' =>
      match ws' with
      | [] => w
      | _ => w +:+ " " +:+ unwords ws'
      end
  end.

(** No character of [s] is a line feed. *)
Fixpoint no_lf (s : string) : bool :=
  match s with
  | String c s' => negb (Ascii.eqb c "010"%char) && no_lf s'
  | EmptyString => true
  end.

(** ** What the daemons and the client send ([content_server.py],
    [monitor_server.py], [index_server.py], [client.py]) *)

Module ContentServer.






End ContentServer.

(** The text that [notify_index_server_failure] sends at a delivery, with
    [timestamp] the clock reading cut to an integer. *)
Definition server_down_message (server_id : string) (timestamp : Z) : string :=
  PyStr.line ("SERVER_DOWN " +:+ server_id +:+ " " +:+ PyStr.of_int timestamp).

(** The text with which [notification_listener] registers the listener on
    [port] with the Monitor; the index server uses [TCP_PORT + 1]. *)
Definition TCP_PORT : Z := 5000.

Definition register_index_message (port : Z) : string :=
  PyStr.line ("REGISTER_INDEX localhost " +:+ PyStr.of_int port).

Module Client.



(** [contact_index_server], from the reply to its [GET] on: [io] is the text
    received, or [None] when a socket operation raised. Every failure,
    also an [int] that raises, gives [None]. *)
Definition contact_index_server (io : option string)
  : option (string * Z * string * Z) :=
  match io with
  | None => None
  | Some reply =>
      let response := PyStr.strip reply in
      if PyStr.startswith response "SERVER" then
        match PyStr.split response with
        | _ :: ip :: port :: server_id :: file_size :: _ =>
            match PyStr.int port, PyStr.int file_size with
            | Some p, Some z => Some (ip, p, server_id, z)
            | _, _ => None
            end
        | _ => None
        end
      else None
  end.



End Client.

(** The received chunk in which the messages [msgs] arrived together. *)
Definition joined (msgs : list string) : string :=
  foldr String.append "" msgs.

(** A monitor record that [LIST_SERVERS] prints as six words. *)
Definition printable (kv : string * Monitor.HeartbeatRecord) : Prop :=
  word kv.1 ∧ word (Monitor.ip kv.2) ∧ word (Monitor.status kv.2).

(** What the refresh makes of a registry record when the Monitor reports
    the record [r] for its id, or nothing. *)
Definition refreshed_by (r : option Monitor.HeartbeatRecord)
    (r0 : Index.ServerRecord) : Index.ServerRecord :=
  match r with
  | Some r => Index.set_status (Monitor.status r) (Index.set_load (Monitor.load r) r0)
  | None => r0
  end.







(** ** Chunks of ASCII bytes, and reading the Monitor's answer *)

(** Every character of [s] satisfies [p]. *)
Fixpoint all_chars (p : ascii → bool) (s : string) : bool :=
  match s with
  | String c s' => p c && all_chars p s'
  | EmptyString => true
  end.

(** Every byte of the received chunk is below 128. On such a chunk
    [decode('utf-8')] succeeds and gives back the same characters, and on
    the decoded text [str.isspace], the decimal digits and [int] of Python
    are [PyStr.is_space], [PyStr.is_digit] and [PyStr.int]. *)
Definition is_ascii (s : string) : bool :=
  all_chars (fun c => (nat_of_ascii c <? 128)%nat) s.

(** The answer of the Monitor, when one was read, is ASCII. *)
Definition ascii_reply (io : Index.monitor_io) : Prop :=
  match io with
  | Index.Unreachable => True
  | Index.Response text => is_ascii text = true
  end.

(** Every chunk that a step of the monitor receives is ASCII. *)
Definition ascii_step (s : Monitor.step) : Prop :=
  match s with
  | Monitor.Datagram _ data => is_ascii data = true
  | Monitor.Sweep _ _ => True
  | Monitor.Request data => is_ascii data = true
  end.

(** [sub in s] *)
Fixpoint contains (s sub : string) : bool :=
  if PyStr.startswith s sub then true
  else match s with
       | String _ s' => contains s' sub
       | EmptyString => false
       end.

(** The reading loop of [get_server_health_from_monitor]: [chunks] are the
    values that the successive calls of [recv(1024)] return, each of them
    ASCII and so decoded to itself, and [response] is what was read before.
    An empty chunk (the peer closed) and a chunk after which [END] occurs
    somewhere in what was read both end the loop; when no further chunk
    arrives [recv] times out and raises, which is [None]. *)
Fixpoint read_response (response : string) (chunks : list string)
  : option string :=
  match chunks with
  | [] => None
  | data :: chunks' =>
      if decide (data = "") then Some response
      else
        let response' := response +:+ data in
        if contains response' "END" then Some response'
        else read_response response' chunks'
  end.

(** The exchange with the Monitor when [connect] and [sendall] succeed and
    [recv] returns [chunks]. *)
Definition monitor_exchange (chunks : list string) : Index.monitor_io :=
  match read_response "" chunks with
  | Some text => Index.Response text
  | None => Index.Unreachable
  end.

(** The [SERVER] lines of the Monitor's [LIST_SERVERS] reply. *)
Definition servers_body (srv : dict Monitor.HeartbeatRecord) : string :=
  foldr (fun kv acc => Monitor.server_line kv +:+ acc) "" srv.

(** A way in which the bytes of [text] arrive at [recv(1024)]: chunks of at
    least one and at most 1024 bytes that make up [text]. *)
Definition arrives_as (text : string) (chunks : list string) : Prop :=
  Forall (fun data => data ≠ "" ∧ (String.length data <=? 1024)%nat = true)
         chunks ∧
  joined chunks = text.


(** A monitor record in whose id, address and status [END] does not
    occur. *)
Definition end_free (kv : string * Monitor.HeartbeatRecord) : Prop :=
  contains kv.1 "END" = false ∧ contains (Monitor.ip kv.2) "END" = false ∧
  contains (Monitor.status kv.2) "END" = false.

(** A monitor in which [FRONTEND] and [CS2] sent heartbeats, in this
    order. *)
Definition demo_frontend : Monitor.State :=
  (Monitor.run
     [Monitor.Datagram (Q2Qc 100) "HEARTBEAT FRONTEND localhost 7001 4 3";
      Monitor.Datagram (Q2Qc 101) "HEARTBEAT CS2 localhost 7003 2 3"]
     Monitor.initial).1.

(** * Properties *)

(** ** Checks on concrete inputs *)

Example split_heartbeat :
  PyStr.split "HEARTBEAT CS1 localhost  7001 0 3" =
  ["HEARTBEAT"; "CS1"; "localhost"; "7001"; "0"; "3"].
Proof. reflexivity. Qed.

Example strip_line : PyStr.strip (PyStr.line "  GET a.txt") = "GET a.txt".
Proof. reflexivity. Qed.

Example split_nl_lines :
  PyStr.split_nl ("a" +:+ PyStr.LF +:+ "b" +:+ PyStr.LF +:+ PyStr.LF +:+ "c")
  = ["a"; "b"; ""; "c"].
Proof. reflexivity. Qed.

Example int_examples :
  PyStr.int "7001" = Some 7001 /\ PyStr.int "-12" = Some (-12) /\
  PyStr.int "+1_000" = Some 1000 /\ PyStr.int "1__0" = None /\
  PyStr.int "12a" = None /\ PyStr.int "" = None /\ PyStr.int "_1" = None /\
  PyStr.int "1_" = None /\ PyStr.int "007" = Some 7.
Proof. repeat split; reflexivity. Qed.

Example demo_index :
  Index.file_index demo_store = [("a.txt", [("CS1", 100); ("CS2", 100); ("CS3", 100)])].
Proof. vm_compute. reflexivity. Qed.

Example demo_get :
  (Index.client_message (Index.Response demo_response) "GET a.txt" demo_store).1.2
  = [PyStr.line "SERVER 10.0.0.1 7003 CS2 100"].
Proof. vm_compute. reflexivity. Qed.

(** ** Dictionary lemmas *)

Section DictFacts.
Context {V : Type}.
Implicit Types (d : dict V) (k : string) (v : V).

Lemma get_assign_eq k v d : get k (assign k v d) = Some v.
Proof.
  induction d as [|[k' v'] d IH]; simpl.
  - by rewrite decide_True.
  - destruct (decide (k' = k)) as [->|Hne]; simpl.
    + by rewrite decide_True.
    + by rewrite decide_False.
Qed.

Lemma get_assign_ne k k' v d : k ≠ k' → get k' (assign k v d) = get k' d.
Proof.
  intros Hne. induction d as [|[k0 v0] d IH]; simpl.
  - by rewrite decide_False.
  - destruct (decide (k0 = k)) as [->|Hk]; simpl.
    + by rewrite !decide_False.
    + destruct (decide (k0 = k')); [done|apply IH].
Qed.

Lemma get_Some_elem k v d : get k d = Some v → (k, v) ∈ d.
Proof.
  induction d as [|[k' v'] d IH]; simpl; [done|].
  destruct (decide (k' = k)) as [->|Hne].
  - intros [= ->]. left.
  - intros H. right. by apply IH.
Qed.

Lemma get_None_keys k d : get k d = None → k ∉ keys d.
Proof.
  induction d as [|[k' v'] d IH]; simpl.
  - intros _. apply not_elem_of_nil.
  - destruct (decide (k' = k)) as [->|Hne]; [done|].
    intros H. apply not_elem_of_cons. split; [done|by apply IH].
Qed.

Lemma elem_wf_get k v d : wf d → (k, v) ∈ d → get k d = Some v.
Proof.
  unfold wf, keys. induction d as [|[k' v'] d IH]; simpl.
  - intros _ H. by apply elem_of_nil in H.
  - intros Hnd Hin. apply NoDup_cons in Hnd as [Hk Hnd].
    apply elem_of_cons in Hin as [[= -> ->]|Hin].
    + by rewrite decide_True.
    + destruct (decide (k' = k)) as [->|Hne]; [|by apply IH].
      exfalso. apply Hk. apply list_elem_of_fmap. by exists (k, v).
Qed.

Lemma keys_assign k v d :
  keys (assign k v d) = if mem k d then keys d else keys d ++ [k].
Proof.
  unfold mem, keys. induction d as [|[k' v'] d IH]; [done|].
  cbn [assign get]. destruct (decide (k' = k)) as [->|Hne]; [done|].
  rewrite !fmap_cons, IH. by destruct (get k d).
Qed.

Lemma wf_assign k v d : wf d → wf (assign k v d).
Proof.
  unfold wf. rewrite keys_assign. unfold mem.
  destruct (get k d) eqn:Hg; [done|].
  intros Hnd. apply NoDup_app. split_and!; [done| |apply NoDup_singleton].
  intros x Hx Hx'. apply list_elem_of_singleton in Hx' as ->.
  by apply get_None_keys in Hg.
Qed.

Lemma wf_nil : wf (@nil (string * V)).
Proof. apply NoDup_nil_2. Qed.

End DictFacts.

(** ** Selection of the least loaded alive host *)

Lemma insert_by_load_perm c l : Index.insert_by_load c l ≡ₚ c :: l.
Proof.
  induction l as [|d l IH]; simpl; [done|].
  destruct (Index.cand_load c <=? Index.cand_load d); [done|].
  rewrite IH. apply Permutation_swap.
Qed.

Lemma sort_by_load_perm l : Index.sort_by_load l ≡ₚ l.
Proof.
  induction l as [|c l IH]; simpl; [done|].
  by rewrite insert_by_load_perm, IH.
Qed.

Lemma insert_by_load_head_least c l :
  head_least l → head_least (Index.insert_by_load c l).
Proof.
  destruct l as [|d l]; simpl.
  - intros _. repeat constructor. lia.
  - intros Hd. destruct (Z.leb_spec (Index.cand_load c) (Index.cand_load d)) as [Hle|Hlt].
    + simpl. constructor; [lia|].
      eapply Forall_impl; [exact Hd|]. simpl. intros x Hx. lia.
    + simpl. apply Forall_cons in Hd as [_ Hd]. constructor; [lia|].
      rewrite insert_by_load_perm. constructor; [lia|done].
Qed.

Lemma sort_by_load_head_least l : head_least (Index.sort_by_load l).
Proof.
  induction l as [|c l IH]; simpl; [done|].
  by apply insert_by_load_head_least.
Qed.

Lemma elem_of_candidates cs hosts c :
  c ∈ Index.candidates cs hosts ↔
  ∃ sz, c.2 = sz ∧ (c.1.1, sz) ∈ hosts ∧ get c.1.1 cs = Some c.1.2 ∧
        Index.status c.1.2 = "alive".
Proof.
  unfold Index.candidates. rewrite list_elem_of_omap. split.
  - intros [[sid sz] [Hin Hc]]. unfold Index.candidate_of in Hc. simpl in Hc.
    destruct (get sid cs) as [r|] eqn:Hg; [|done].
    destruct (decide (Index.status r = "alive")); [|done].
    injection Hc as <-. simpl. by exists sz.
  - intros (sz & <- & Hin & Hg & Halive). exists (c.1.1, c.2). split; [done|].
    unfold Index.candidate_of. simpl. rewrite Hg, decide_True by done.
    by destruct c as [[??]?].
Qed.

(** C1. If file [f] is in the file index and one of its hosts is in the
    registry with status [alive], then [select_best_server f] returns the
    record and the file size of a host of [f] that is in the registry with
    status [alive] and whose load is at most the load of every alive host of
    [f]. *)
Theorem select_best_server_least_loaded
    (f : string) (st : Index.Store) (hosts : list (string * Z))
    (sid : string) (sz : Z) (r : Index.ServerRecord) :
  get f (Index.file_index st) = Some hosts →
  (sid, sz) ∈ hosts →
  get sid (Index.content_servers st) = Some r →
  Index.status r = "alive" →
  ∃ sid' server size,
    Index.select_best_server f st = Some (server, size) ∧
    (sid', size) ∈ hosts ∧
    get sid' (Index.content_servers st) = Some server ∧
    Index.status server = "alive" ∧
    ∀ sid2 sz2 r2,
      (sid2, sz2) ∈ hosts →
      get sid2 (Index.content_servers st) = Some r2 →
      Index.status r2 = "alive" →
      Index.load server <= Index.load r2.
Proof.
  intros Hf Hin Hg Halive. unfold Index.select_best_server. rewrite Hf.
  set (cands := Index.candidates (Index.content_servers st) hosts).
  assert (Hc : (sid, r, sz) ∈ cands).
  { apply elem_of_candidates. by exists sz. }
  pose proof (sort_by_load_perm cands) as Hperm.
  pose proof (sort_by_load_head_least cands) as Hleast.
  destruct (Index.sort_by_load cands) as [|[[bsid bsrv] bsz] sorted].
  - rewrite <- Hperm in Hc. by apply elem_of_nil in Hc.
  - assert (Hb : (bsid, bsrv, bsz) ∈ cands) by (rewrite <- Hperm; left).
    apply elem_of_candidates in Hb as (? & <- & Hbin & Hbg & Hba).
    simpl in *. exists bsid, bsrv, bsz. split_and!; try done.
    intros sid2 sz2 r2 Hin2 Hg2 Ha2.
    assert (H2 : (sid2, r2, sz2) ∈ cands).
    { apply elem_of_candidates. by exists sz2. }
    rewrite <- Hperm in H2.
    rewrite Forall_forall in Hleast. by apply Hleast in H2.
Qed.

Lemma select_best_server_least_loaded_witness :
  ∃ sid' server size,
    Index.select_best_server "a.txt" demo_loaded = Some (server, size) ∧
    (sid', size) ∈ demo_hosts ∧
    get sid' (Index.content_servers demo_loaded) = Some server ∧
    Index.status server = "alive" ∧
    ∀ sid2 sz2 r2,
      (sid2, sz2) ∈ demo_hosts →
      get sid2 (Index.content_servers demo_loaded) = Some r2 →
      Index.status r2 = "alive" →
      Index.load server <= Index.load r2.
Proof.
  apply (select_best_server_least_loaded "a.txt" demo_loaded demo_hosts
           "CS1" 100 (demo_record 7001 7002 3 "alive")).
  - vm_compute. reflexivity.
  - left.
  - vm_compute. reflexivity.
  - reflexivity.
Defined.

Example demo_select_best :
  Index.select_best_server "a.txt" demo_loaded
  = Some (demo_record 7003 7004 1 "alive", 100).
Proof. vm_compute. reflexivity. Qed.

(** ** Lookups that find no alive host *)

Lemma is_get_client_message io data f st :
  is_get data f →
  Index.client_message io data st =
  (Index.refresh io st, [Index.get_reply f (Index.refresh io st)], Continues).
Proof.
  intros [Hpre (cmd & rest & Hsplit)]. unfold Index.client_message.
  destruct (decide (PyStr.strip data = "HELLO")) as [Heq|_].
  { rewrite Heq in Hpre. discriminate. }
  by rewrite Hpre, Hsplit.
Qed.

Lemma no_alive_host_candidates cs hosts :
  (∀ sid sz, (sid, sz) ∈ hosts →
     get sid cs = None ∨ ∃ r, get sid cs = Some r ∧ Index.status r = "dead") →
  Index.candidates cs hosts = [].
Proof.
  intros Hdead. destruct (Index.candidates cs hosts) as [|c l] eqn:Hc; [done|].
  assert (Hin : c ∈ Index.candidates cs hosts) by (rewrite Hc; left).
  apply elem_of_candidates in Hin as (sz & _ & Hin & Hg & Ha).
  destruct (Hdead _ _ Hin) as [Hn|(r & Hr & Hd)]; [congruence|].
  rewrite Hg in Hr. injection Hr as <-. rewrite Ha in Hd. discriminate.
Qed.

(** C3. If [f] is not in the file index, or every host of [f] is absent
    from the registry or has status [dead], then [select_best_server f]
    returns nothing, and a [GET f] request that arrives as ASCII bytes and
    is handled when the registry, refreshed from an ASCII answer of the
    Monitor or from none, is in that state is answered
    [ERROR FILE_NOT_FOUND]. *)
Theorem select_best_server_not_found (f : string) (st : Index.Store) :
  no_alive_host f st →
  Index.select_best_server f st = None ∧
  ∀ io data st0,
    is_ascii data = true → ascii_reply io →
    is_get data f → Index.refresh io st0 = st →
    Index.client_message io data st0 =
    (st, [Index.ERROR_FILE_NOT_FOUND], Continues).
Proof.
  intros Hno.
  assert (Hsel : Index.select_best_server f st = None).
  { unfold Index.select_best_server.
    destruct Hno as [->|(hosts & -> & Hdead)]; [done|].
    by rewrite no_alive_host_candidates. }
  split; [done|]. intros io data st0 _ _ Hget <-.
  rewrite (is_get_client_message _ _ f) by done.
  unfold Index.get_reply. by rewrite Hsel.
Qed.

Lemma select_best_server_not_found_witness :
  Index.select_best_server "a.txt" demo_dead = None ∧
  Index.client_message Index.Unreachable (PyStr.line "GET a.txt") demo_dead =
  (demo_dead, [PyStr.line "ERROR FILE_NOT_FOUND"], Continues).
Proof.
  assert (Hno : no_alive_host "a.txt" demo_dead).
  { right. exists [("CS1", 100); ("CS9", 100)]. split; [reflexivity|].
    intros sid sz Hin. apply elem_of_cons in Hin as [[= -> ->]|Hin].
    - right. eexists. split; reflexivity.
    - apply list_elem_of_singleton in Hin as [= -> ->]. left. reflexivity. }
  destruct (select_best_server_not_found "a.txt" demo_dead Hno) as [Hsel Hget].
  split; [exact Hsel|].
  apply (Hget Index.Unreachable (PyStr.line "GET a.txt") demo_dead).
  - reflexivity.
  - exact I.
  - split; [reflexivity|]. exists "GET", []. reflexivity.
  - reflexivity.
Defined.

Example demo_dead_get :
  Index.client_message Index.Unreachable (PyStr.line "GET a.txt") demo_dead
  = (demo_dead, [PyStr.line "ERROR FILE_NOT_FOUND"], Continues).
Proof. vm_compute. reflexivity. Qed.

(** ** An unreachable Monitor *)

Lemma with_servers_same st :
  Index.with_servers (Index.content_servers st) st = st.
Proof. by destruct st. Qed.

(** The selection among the alive hosts of an indexed file: a record of
    least load among them is returned. *)
Lemma select_best_server_among_alive f st hosts sid sz r :
  get f (Index.file_index st) = Some hosts →
  (sid, sz) ∈ hosts →
  get sid (Index.content_servers st) = Some r →
  Index.status r = "alive" →
  ∃ sid' server size,
    Index.select_best_server f st = Some (server, size) ∧
    (sid', size) ∈ hosts ∧
    get sid' (Index.content_servers st) = Some server ∧
    Index.status server = "alive" ∧
    Index.load server <= Index.load r.
Proof.
  intros Hf Hin Hg Halive. unfold Index.select_best_server. rewrite Hf.
  set (cands := Index.candidates (Index.content_servers st) hosts).
  assert (Hc : (sid, r, sz) ∈ cands).
  { apply elem_of_candidates. by exists sz. }
  pose proof (sort_by_load_perm cands) as Hperm.
  pose proof (sort_by_load_head_least cands) as Hleast.
  destruct (Index.sort_by_load cands) as [|[[bsid bsrv] bsz] sorted].
  - rewrite <- Hperm in Hc. by apply elem_of_nil in Hc.
  - assert (Hb : (bsid, bsrv, bsz) ∈ cands) by (rewrite <- Hperm; left).
    apply elem_of_candidates in Hb as (? & <- & Hbin & Hbg & Hba).
    simpl in *. exists bsid, bsrv, bsz. split_and!; try done.
    rewrite <- Hperm in Hc. rewrite Forall_forall in Hleast.
    by apply Hleast in Hc.
Qed.

(** C5. When the exchange with the Monitor fails, the refresh returns
    [False] and leaves the registry as it was, and a [GET f] request that
    arrives as ASCII bytes is answered, without an exception, with what
    [select_best_server f] finds in that unchanged registry: when a host of
    [f] is registered with status [alive], the [SERVER] line of a host of
    [f] that is alive in the unchanged registry and of load at most that
    host's. *)
Theorem unreachable_monitor_degrades (st : Index.Store) (f : string) :
  Index.get_server_health_from_monitor Index.Unreachable
    (Index.content_servers st) = (Index.content_servers st, false) ∧
  Index.refresh Index.Unreachable st = st ∧
  (∀ data,
    is_ascii data = true → is_get data f →
    Index.client_message Index.Unreachable data st =
    (st,
     [match Index.select_best_server f st with
      | Some (server, file_size) =>
          Index.server_reply server
            (Index.server_id_of server (Index.content_servers st)) file_size
      | None => Index.ERROR_FILE_NOT_FOUND
      end],
     Continues)) ∧
  (∀ data hosts sid sz r,
    is_ascii data = true → is_get data f →
    get f (Index.file_index st) = Some hosts →
    (sid, sz) ∈ hosts →
    get sid (Index.content_servers st) = Some r →
    Index.status r = "alive" →
    ∃ sid' server size,
      Index.client_message Index.Unreachable data st =
      (st,
       [Index.server_reply server
          (Index.server_id_of server (Index.content_servers st)) size],
       Continues) ∧
      (sid', size) ∈ hosts ∧
      get sid' (Index.content_servers st) = Some server ∧
      Index.status server = "alive" ∧
      Index.load server <= Index.load r).
Proof.
  assert (Hr : Index.refresh Index.Unreachable st = st)
    by apply with_servers_same.
  split_and!; [done|done| |].
  - intros data _ Hget.
    by rewrite (is_get_client_message _ _ f), Hr.
  - intros data hosts sid sz r _ Hget Hf Hin Hg Ha.
    destruct (select_best_server_among_alive f st hosts sid sz r Hf Hin Hg Ha)
      as (sid' & server & size & Hsel & Hin' & Hg' & Ha' & Hle).
    exists sid', server, size. split_and!; try done.
    rewrite (is_get_client_message _ _ f), Hr by done.
    unfold Index.get_reply. by rewrite Hsel.
Qed.

Lemma unreachable_monitor_degrades_witness :
  Index.client_message Index.Unreachable (PyStr.line "GET a.txt") demo_loaded
  = (demo_loaded, [PyStr.line "SERVER 10.0.0.1 7003 CS2 100"], Continues).
Proof.
  rewrite (proj1 (proj2 (proj2
             (unreachable_monitor_degrades demo_loaded "a.txt")))
             (PyStr.line "GET a.txt")).
  - vm_compute. reflexivity.
  - reflexivity.
  - split; [reflexivity|]. exists "GET", []. reflexivity.
Defined.

Example demo_unreachable_get :
  Index.client_message Index.Unreachable (PyStr.line "GET a.txt") demo_loaded
  = (demo_loaded, [PyStr.line "SERVER 10.0.0.1 7003 CS2 100"], Continues).
Proof. vm_compute. reflexivity. Qed.

(** ** The file index *)

Lemma add_file_noop s f sz fi :
  entries_of s f fi ≠ [] → Index.add_file s f sz fi = (fi, Continues).
Proof.
  unfold entries_of, Index.add_file, mem. intros Hne.
  destruct (get f fi) as [hosts|] eqn:Hg; simpl in *; [|done].
  rewrite Hg. simpl. by destruct (filter _ hosts).
Qed.

Lemma add_file_get_other s f sz fi f' :
  f ≠ f' → get f' (Index.add_file s f sz fi).1 = get f' fi.
Proof.
  intros Hne. unfold Index.add_file.
  set (fi1 := if mem f fi then fi else assign f [] fi).
  assert (H1 : get f' fi1 = get f' fi).
  { unfold fi1, mem. destruct (get f fi); [done|]. by apply get_assign_ne. }
  destruct (filter _ _); [|exact H1].
  destruct (PyStr.int sz); simpl; [|exact H1].
  by rewrite get_assign_ne.
Qed.

Lemma add_file_get_same s f sz fi :
  get f (Index.add_file s f sz fi).1 =
  Some (let hosts := default [] (get f fi) in
        match entries_of s f fi, PyStr.int sz with
        | [], Some n => hosts ++ [(s, n)]
        | _, _ => hosts
        end).
Proof.
  unfold Index.add_file, entries_of.
  set (fi1 := if mem f fi then fi else assign f [] fi).
  assert (H1 : get f fi1 = Some (default [] (get f fi))).
  { unfold fi1, mem. destruct (get f fi) eqn:Hg; [done|]. apply get_assign_eq. }
  rewrite H1. simpl.
  destruct (filter _ _); [|exact H1].
  destruct (PyStr.int sz); simpl; [|exact H1].
  apply get_assign_eq.
Qed.

Lemma add_file_wf s f sz fi : wf fi → wf (Index.add_file s f sz fi).1.
Proof.
  intros Hwf. unfold Index.add_file.
  set (fi1 := if mem f fi then fi else assign f [] fi).
  assert (H1 : wf fi1).
  { unfold fi1, mem. destruct (get f fi); [done|]. by apply wf_assign. }
  destruct (filter _ _); [|exact H1].
  destruct (PyStr.int sz); simpl; [|exact H1].
  by apply wf_assign.
Qed.

Lemma add_file_one_entry s f sz fi :
  one_entry_per_pair fi → one_entry_per_pair (Index.add_file s f sz fi).1.
Proof.
  intros [Hwf Hnd]. split; [by apply add_file_wf|].
  intros f' hosts'. destruct (decide (f = f')) as [<-|Hne].
  - rewrite add_file_get_same. intros [= <-].
    assert (H0 : NoDup (default [] (get f fi)).*1).
    { destruct (get f fi) eqn:Hg; simpl; [by eapply Hnd|apply NoDup_nil_2]. }
    simpl. destruct (entries_of s f fi) eqn:He; [|done].
    destruct (PyStr.int sz); [|done].
    rewrite fmap_app. apply NoDup_app. split_and!; [done| |apply NoDup_singleton].
    intros x Hx Hx'. apply list_elem_of_singleton in Hx'. simpl in Hx'. subst x.
    apply list_elem_of_fmap in Hx as ([s' sz'] & Hs & Hin). simpl in Hs.
    subst s'. by eapply (filter_nil_not_elem_of _ _ (s, sz')) in He.
  - rewrite add_file_get_other by done. apply Hnd.
Qed.

Lemma add_files_one_entry calls fi :
  one_entry_per_pair fi → one_entry_per_pair (add_files calls fi).
Proof.
  revert fi. induction calls as [|c calls IH]; intros fi Hfi; [done|].
  apply IH. by apply add_file_one_entry.
Qed.

Lemma entries_at_most_one s (hosts : list (string * Z)) :
  NoDup (hosts.*1) →
  (length (filter (fun h : string * Z => h.1 = s) hosts) ≤ 1)%nat.
Proof.
  induction hosts as [|[s' z'] hosts IH]; [simpl; lia|].
  rewrite fmap_cons, NoDup_cons, filter_cons. simpl. intros [Hnin Hnd].
  destruct (decide (s' = s)) as [->|Hne]; [|by apply IH].
  assert (Hnil : filter (fun h : string * Z => h.1 = s) hosts = []).
  { destruct (filter _ hosts) as [|[s1 z1] l] eqn:Hf; [done|].
    assert (Hin : (s1, z1) ∈ filter (fun h : string * Z => h.1 = s) hosts)
      by (rewrite Hf; left).
    apply list_elem_of_filter in Hin as [Hs Hin]. simpl in Hs. subst s1.
    exfalso. apply Hnin. apply list_elem_of_fmap. by exists (s, z1). }
  rewrite Hnil. simpl. lia.
Qed.

Lemma add_file_twice_new s f sz n fi :
  PyStr.int sz = Some n → entries_of s f fi = [] →
  entries_of s f (add_files [(s, f, sz); (s, f, sz)] fi) = [(s, n)].
Proof.
  intros Hint He. unfold add_files. simpl.
  assert (H1 : entries_of s f (Index.add_file s f sz fi).1 = [(s, n)]).
  { unfold entries_of at 1. rewrite add_file_get_same. simpl.
    rewrite He, Hint, filter_app. fold (entries_of s f fi). rewrite He.
    simpl. rewrite filter_cons, decide_True by done. done. }
  rewrite add_file_noop; [done|]. by rewrite H1.
Qed.

(** C6. [add_file] for a (file, server) pair that has an entry changes
    nothing; after any sequence of [add_file] calls from the empty index a
    file name is held once and lists a server id once; two identical calls
    for a pair without an entry leave exactly the one entry [(s, sz)] for
    it; and after any calls, two identical calls leave exactly one entry for
    their pair. *)
Theorem add_file_at_most_one_entry :
  (∀ s f sz fi,
     entries_of s f fi ≠ [] → Index.add_file s f sz fi = (fi, Continues)) ∧
  (∀ calls, one_entry_per_pair (add_files calls [])) ∧
  (∀ s f sz n fi,
     PyStr.int sz = Some n → entries_of s f fi = [] →
     entries_of s f (add_files [(s, f, sz); (s, f, sz)] fi) = [(s, n)]) ∧
  (∀ calls s f sz n,
     PyStr.int sz = Some n →
     length (entries_of s f
               (add_files (calls ++ [(s, f, sz); (s, f, sz)]) [])) = 1%nat).
Proof.
  assert (Hinv : ∀ calls, one_entry_per_pair (add_files calls [])).
  { intros calls. apply add_files_one_entry. split; [apply wf_nil|done]. }
  split_and!.
  - apply add_file_noop.
  - exact Hinv.
  - apply add_file_twice_new.
  - intros calls s f sz n Hint. unfold add_files. rewrite foldl_app.
    fold (add_files calls []). set (fi := add_files calls []).
    fold (add_files [(s, f, sz); (s, f, sz)] fi).
    destruct (entries_of s f fi) as [|e es] eqn:He.
    + by rewrite (add_file_twice_new _ _ _ n).
    + unfold add_files. simpl.
      assert (Hnoop : Index.add_file s f sz fi = (fi, Continues))
        by (apply add_file_noop; by rewrite He).
      rewrite Hnoop. simpl. rewrite Hnoop. simpl.
      destruct (Hinv calls) as [_ Hnd]. fold fi in Hnd.
      assert (Hle : (length (entries_of s f fi) ≤ 1)%nat).
      { unfold entries_of. destruct (get f fi) as [hosts|] eqn:Hg; simpl.
        - apply entries_at_most_one. by eapply Hnd.
        - lia. }
      rewrite He in *. simpl in *. lia.
Qed.

Lemma add_file_at_most_one_entry_witness :
  Index.add_file "CS1" "a.txt" "100" (Index.file_index demo_store) =
    (Index.file_index demo_store, Continues) ∧
  entries_of "CS4" "a.txt"
    (add_files [("CS4", "a.txt", "100"); ("CS4", "a.txt", "100")]
       (Index.file_index demo_store)) = [("CS4", 100)].
Proof.
  destruct add_file_at_most_one_entry as (Hnoop & _ & Htwice & _). split.
  - apply Hnoop. vm_compute. discriminate.
  - apply Htwice; reflexivity.
Defined.

Example demo_add_file_twice :
  add_files [("CS1", "a.txt", "100"); ("CS1", "a.txt", "100")] []
  = [("a.txt", [("CS1", 100)])].
Proof. vm_compute. reflexivity. Qed.

Example demo_add_file_other_size :
  add_files [("CS1", "a.txt", "100"); ("CS1", "a.txt", "200");
             ("CS1", "a.txt", "oops")] []
  = [("a.txt", [("CS1", 100)])].
Proof. vm_compute. reflexivity. Qed.

(** ** Registration *)

Lemma register_ok sid addr_ip tp_s up_s tp up now cs :
  PyStr.int tp_s = Some tp → PyStr.int up_s = Some up →
  Index.register sid addr_ip tp_s up_s now cs =
  (assign sid (fresh_record addr_ip tp up now) cs, Continues).
Proof. intros Ht Hu. unfold Index.register. by rewrite Ht, Hu. Qed.

(** C7. A [REGISTER] line of ASCII bytes with an id and two integer ports
    stores, under that id, the record with the peer's address, the two ports, load 0,
    status [alive] and [last_update] the current clock reading, whatever
    record the id had before (none, a loaded one or a dead one); the other
    records and the file index are untouched and the reply is
    [OK REGISTERED]. *)
Theorem register_overwrites_record
    (addr_ip : string) (now : Qc) (raw : string) (st : Index.Store)
    (sid tp_s up_s : string) (tp up : Z) :
  is_ascii raw = true →
  is_register raw sid tp_s up_s →
  PyStr.int tp_s = Some tp → PyStr.int up_s = Some up →
  let res := Index.content_server_line addr_ip now raw st in
  res.1.2 = [Index.OK_REGISTERED] ∧ res.2 = Continues ∧
  get sid (Index.content_servers res.1.1) =
    Some {| Index.ip := addr_ip; Index.tcp_port := tp; Index.udp_port := up;
            Index.load := 0; Index.last_update := now;
            Index.status := "alive" |} ∧
  (∀ k, k ≠ sid →
     get k (Index.content_servers res.1.1) = get k (Index.content_servers st)) ∧
  Index.file_index res.1.1 = Index.file_index st.
Proof.
  intros _ [Hpre (cmd & rest & Hsplit)] Ht Hu.
  unfold Index.content_server_line.
  destruct (decide (PyStr.strip raw = "")) as [He|_].
  { rewrite He in Hpre. discriminate. }
  rewrite Hpre, Hsplit, (register_ok _ _ _ _ tp up) by done. simpl.
  split_and!; try done.
  - apply get_assign_eq.
  - intros k Hk. by apply get_assign_ne.
Qed.

Lemma register_overwrites_record_witness :
  let res := Index.content_server_line "10.0.0.7" t0
               (PyStr.line "REGISTER CS1 8001 8002") demo_dead in
  res.1.2 = [Index.OK_REGISTERED] ∧ res.2 = Continues ∧
  get "CS1" (Index.content_servers res.1.1) =
    Some {| Index.ip := "10.0.0.7"; Index.tcp_port := 8001;
            Index.udp_port := 8002; Index.load := 0;
            Index.last_update := t0; Index.status := "alive" |} ∧
  (∀ k, k ≠ "CS1" →
     get k (Index.content_servers res.1.1) =
     get k (Index.content_servers demo_dead)) ∧
  Index.file_index res.1.1 = Index.file_index demo_dead.
Proof.
  apply (register_overwrites_record "10.0.0.7" t0
           (PyStr.line "REGISTER CS1 8001 8002") demo_dead
           "CS1" "8001" "8002" 8001 8002).
  - reflexivity.
  - split; [reflexivity|]. exists "REGISTER", []. reflexivity.
  - reflexivity.
  - reflexivity.
Defined.

(** ** The monitor: traces *)

Lemma notify_calls_app sid tr1 tr2 :
  Monitor.notify_calls sid (tr1 ++ tr2) =
  (Monitor.notify_calls sid tr1 + Monitor.notify_calls sid tr2)%nat.
Proof. unfold Monitor.notify_calls. by rewrite List.filter_app, length_app. Qed.

Lemma delivery_attempts_app sid tr1 tr2 :
  Monitor.delivery_attempts sid (tr1 ++ tr2) =
  (Monitor.delivery_attempts sid tr1 + Monitor.delivery_attempts sid tr2)%nat.
Proof.
  unfold Monitor.delivery_attempts. by rewrite List.filter_app, length_app.
Qed.

Lemma notify_calls_pos sid tr :
  Monitor.NotifyCall sid ∈ tr ↔ (0 < Monitor.notify_calls sid tr)%nat.
Proof.
  unfold Monitor.notify_calls. induction tr as [|e tr IH]; simpl.
  - split; [intros H; by apply elem_of_nil in H|lia].
  - rewrite elem_of_cons, IH.
    destruct e; simpl; try (split; [intros [?|?]; [done|done]|by right]).
    case_bool_decide as Hs; simpl.
    + subst. split; [lia|by left].
    + split; [intros [[= ->]|?]; done|by right].
Qed.

Lemma on_datagram_trace now data srv :
  ∀ e, e ∈ (Monitor.on_datagram now data srv).2 →
       (∃ s, e = Monitor.LogCameBack s) ∨
       (∃ s l n, e = Monitor.LogHeartbeat s l n) ∨
       e = Monitor.LogHeartbeatError.
Proof.
  intros e. unfold Monitor.on_datagram.
  destruct (PyStr.startswith _ _); [|by intros ?%elem_of_nil].
  destruct (PyStr.split _) as [|? [|sid [|? [|tp [|l [|nf ?]]]]]];
    try by intros ?%elem_of_nil.
  destruct (PyStr.int tp), (PyStr.int l), (PyStr.int nf); simpl;
    intros ->%list_elem_of_singleton; eauto.
  destruct (match get sid srv with Some _ => _ | None => _ end); eauto 6.
Qed.

Lemma on_datagram_wf now data srv :
  wf srv → wf (Monitor.on_datagram now data srv).1.
Proof.
  intros Hwf. unfold Monitor.on_datagram.
  destruct (PyStr.startswith _ _); [|done].
  destruct (PyStr.split _) as [|? [|sid [|? [|tp [|l [|nf ?]]]]]]; try done.
  destruct (PyStr.int tp), (PyStr.int l), (PyStr.int nf); simpl; try done.
  by apply wf_assign.
Qed.

(** ** The monitor: one sweep *)

Section Sweep.
Context (now : Qc) (addr : option (string * Z)) (net : string → bool).

Lemma check_one_key kv : (Monitor.check_one now addr net kv).1.1 = kv.1.
Proof.
  unfold Monitor.check_one. by repeat (case_decide; simpl).
Qed.

Lemma check_one_other sid kv :
  kv.1 ≠ sid →
  Monitor.notify_calls sid (Monitor.check_one now addr net kv).2 = 0%nat ∧
  Monitor.delivery_attempts sid (Monitor.check_one now addr net kv).2 = 0%nat.
Proof.
  intros Hne. unfold Monitor.check_one, Monitor.notify_index_server_failure.
  repeat (case_decide; simpl); try done.
  unfold Monitor.notify_calls, Monitor.delivery_attempts. simpl.
  rewrite bool_decide_eq_false_2 by done.
  destruct addr; simpl; [|done].
  rewrite bool_decide_eq_false_2 by done. by destruct (net kv.1).
Qed.

Lemma check_server_health_keys srv :
  keys (Monitor.check_server_health now addr net srv).1 = keys srv.
Proof.
  unfold keys. induction srv as [|kv srv IH]; [done|].
  cbn [Monitor.check_server_health fst]. rewrite !fmap_cons, IH.
  by rewrite check_one_key.
Qed.

Lemma check_server_health_absent sid srv :
  sid ∉ keys srv →
  Monitor.notify_calls sid (Monitor.check_server_health now addr net srv).2 = 0%nat ∧
  Monitor.delivery_attempts sid (Monitor.check_server_health now addr net srv).2 = 0%nat.
Proof.
  unfold keys. induction srv as [|kv srv IH]; [done|].
  rewrite fmap_cons, not_elem_of_cons. intros [Hne Hnin].
  cbn [Monitor.check_server_health snd].
  rewrite notify_calls_app, delivery_attempts_app.
  destruct (check_one_other sid kv) as [-> ->]; [done|].
  destruct (IH Hnin) as [-> ->]. done.
Qed.

Lemma check_server_health_get sid srv :
  get sid (Monitor.check_server_health now addr net srv).1 =
  (fun r => (Monitor.check_one now addr net (sid, r)).1.2) <$> get sid srv.
Proof.
  induction srv as [|[k v] srv IH]; [done|].
  cbn [Monitor.check_server_health fst get].
  pose proof (check_one_key (k, v)) as Hk. simpl in Hk.
  destruct (Monitor.check_one now addr net (k, v)) as [[k' v'] ev] eqn:Hc.
  simpl in *. subst k'. destruct (decide (k = sid)) as [->|Hne]; [|done].
  simpl. by rewrite Hc.
Qed.

Lemma check_server_health_present sid r srv :
  wf srv → get sid srv = Some r →
  Monitor.notify_calls sid (Monitor.check_server_health now addr net srv).2 =
    Monitor.notify_calls sid (Monitor.check_one now addr net (sid, r)).2 ∧
  Monitor.delivery_attempts sid (Monitor.check_server_health now addr net srv).2 =
    Monitor.delivery_attempts sid (Monitor.check_one now addr net (sid, r)).2.
Proof.
  unfold wf, keys. induction srv as [|[k v] srv IH]; [done|].
  rewrite fmap_cons, NoDup_cons. intros [Hnin Hnd].
  cbn [Monitor.check_server_health snd get].
  rewrite notify_calls_app, delivery_attempts_app.
  destruct (decide (k = sid)) as [->|Hne].
  - intros [= ->]. simpl in Hnin.
    destruct (check_server_health_absent sid srv) as [-> ->]; [done|]. lia.
  - intros Hg. destruct (check_one_other sid (k, v)) as [-> ->]; [done|].
    by apply IH.
Qed.

End Sweep.

(** ** The monitor: steps that never notify *)

Lemma on_datagram_silent now data srv sid :
  Monitor.notify_calls sid (Monitor.on_datagram now data srv).2 = 0%nat ∧
  Monitor.delivery_attempts sid (Monitor.on_datagram now data srv).2 = 0%nat.
Proof.
  unfold Monitor.on_datagram.
  destruct (PyStr.startswith _ _); [|done].
  destruct (PyStr.split _) as [|? [|s [|? [|tp [|l [|nf ?]]]]]]; try done.
  destruct (PyStr.int tp), (PyStr.int l), (PyStr.int nf); simpl; try done.
  by destruct (match get s srv with Some _ => _ | None => _ end).
Qed.


Lemma tcp_message_servers data m :
  Monitor.servers (Monitor.tcp_message data m).1.1 = Monitor.servers m.
Proof.
  unfold Monitor.tcp_message. case_decide; [done|].
  destruct (PyStr.startswith _ _).
  - destruct (PyStr.split _) as [|? [|? [|p ?]]]; try done.
    by destruct (PyStr.int p).
  - by case_decide.
Qed.

Lemma request_servers data m :
  Monitor.servers (Monitor.handle_tcp_client [data] m).1.1 = Monitor.servers m.
Proof.
  cbn [Monitor.handle_tcp_client]. case_decide; [done|].
  pose proof (tcp_message_servers data m) as H1.
  by destruct (Monitor.tcp_message data m) as [[m' out] []].
Qed.

Lemma monitor_step_wf s m :
  wf (Monitor.servers m) → wf (Monitor.servers (Monitor.monitor_step s m).1).
Proof.
  intros Hwf.
  destruct s as [now data|now net|data];
    unfold Monitor.monitor_step; cbn [fst Monitor.servers].
  - by apply on_datagram_wf.
  - unfold wf. by rewrite check_server_health_keys.
  - by rewrite request_servers.
Qed.

Lemma check_one_not_alive now addr net kv :
  Monitor.status kv.2 ≠ "alive" → Monitor.check_one now addr net kv = (kv, []).
Proof. intros Hs. unfold Monitor.check_one. by rewrite decide_False. Qed.



Lemma check_server_health_notifies now addr net srv sid :
  Monitor.NotifyCall sid ∈ (Monitor.check_server_health now addr net srv).2 →
  ∃ r, (sid, r) ∈ srv ∧ Monitor.status r = "alive" ∧
       (Monitor.HEARTBEAT_TIMEOUT < now - Monitor.last_seen r)%Qc ∧
       (sid, Monitor.set_status "dead" r) ∈
         (Monitor.check_server_health now addr net srv).1.
Proof.
  induction srv as [|[k v] srv IH]; [by intros ?%elem_of_nil|].
  cbn [Monitor.check_server_health fst snd]. rewrite elem_of_app.
  intros [Hin|Hin].
  - unfold Monitor.check_one in *. simpl in *.
    destruct (decide (Monitor.status v = "alive")) as [Ha|];
      [|by apply elem_of_nil in Hin].
    destruct (decide (Monitor.HEARTBEAT_TIMEOUT < now - Monitor.last_seen v)%Qc)
      as [Ht|]; [|by apply elem_of_nil in Hin].
    simpl in Hin. apply elem_of_cons in Hin as [?|Hin]; [done|].
    unfold Monitor.notify_index_server_failure in Hin.
    apply elem_of_cons in Hin as [[= ->]|Hin].
    + exists v. split_and!; [left|done|done|left].
    + destruct addr; [|by apply elem_of_nil in Hin].
      apply elem_of_cons in Hin as [?|Hin]; [done|].
      destruct (net k); by apply list_elem_of_singleton in Hin.
  - destruct (IH Hin) as (r & ? & ? & ? & ?). exists r.
    split_and!; [by right|done|done|by right].
Qed.

(** ** The monitor: timeout and recovery *)



Example demo_sweep_trace :
  (Monitor.run [Monitor.Sweep (Q2Qc 110) net_up;
                Monitor.Sweep (Q2Qc 112) net_up;
                Monitor.Sweep (Q2Qc 114) net_down] demo_monitor).2
  = [Monitor.LogMarkedDead "CS1"; Monitor.NotifyCall "CS1";
     Monitor.Deliver ("localhost", 5001) "CS1"; Monitor.LogNotified "CS1"].
Proof. vm_compute. reflexivity. Qed.

Example demo_sweep_all_dead :
  (Monitor.run [Monitor.Sweep (Q2Qc 110) net_up;
                Monitor.Sweep (Q2Qc 120) net_down] demo_monitor).2
  = [Monitor.LogMarkedDead "CS1"; Monitor.NotifyCall "CS1";
     Monitor.Deliver ("localhost", 5001) "CS1"; Monitor.LogNotified "CS1";
     Monitor.LogMarkedDead "CS2"; Monitor.NotifyCall "CS2";
     Monitor.Deliver ("localhost", 5001) "CS2"; Monitor.LogNotifyFailed].
Proof. vm_compute. reflexivity. Qed.

(** C4. A well-formed heartbeat, received as ASCII bytes, for a server
    whose record is [dead] stores a record with status [alive] and
    [last_seen] the arrival time, logs that the server came back, and calls
    neither the failure-notification path nor a delivery; and a step of the
    monitor on ASCII input calls the notification path for a server only
    when it is a sweep that finds the server's record [alive] and timed out
    and turns it [dead]. *)
Theorem heartbeat_revives_without_notification
    (now : Qc) (data : string) (srv : dict Monitor.HeartbeatRecord)
    (sid ip_s tp_s l_s nf_s : string) (tp l nf : Z)
    (r : Monitor.HeartbeatRecord) :
  is_ascii data = true →
  is_heartbeat data sid ip_s tp_s l_s nf_s →
  PyStr.int tp_s = Some tp → PyStr.int l_s = Some l → PyStr.int nf_s = Some nf →
  get sid srv = Some r → Monitor.status r = "dead" →
  let res := Monitor.on_datagram now data srv in
  get sid res.1 =
    Some {| Monitor.ip := ip_s; Monitor.tcp_port := tp;
            Monitor.last_seen := now; Monitor.load := l;
            Monitor.num_files := nf; Monitor.status := "alive" |} ∧
  res.2 = [Monitor.LogCameBack sid] ∧
  (∀ s, Monitor.notify_calls s res.2 = 0%nat ∧
        Monitor.delivery_attempts s res.2 = 0%nat) ∧
  (∀ st m s,
     ascii_step st →
     Monitor.NotifyCall s ∈ (Monitor.monitor_step st m).2 →
     ∃ t net r0,
       st = Monitor.Sweep t net ∧
       (s, r0) ∈ Monitor.servers m ∧ Monitor.status r0 = "alive" ∧
       (Monitor.HEARTBEAT_TIMEOUT < t - Monitor.last_seen r0)%Qc ∧
       (s, Monitor.set_status "dead" r0) ∈
         Monitor.servers (Monitor.monitor_step st m).1).
Proof.
  intros _ [Hpre (cmd & rest & Hsplit)] Ht Hl Hn Hg Hdead res.
  assert (Hres : res = (assign sid
                          {| Monitor.ip := ip_s; Monitor.tcp_port := tp;
                             Monitor.last_seen := now; Monitor.load := l;
                             Monitor.num_files := nf;
                             Monitor.status := "alive" |} srv,
                        [Monitor.LogCameBack sid])).
  { unfold res, Monitor.on_datagram.
    rewrite Hpre, Hsplit, Ht, Hl, Hn, Hg.
    by rewrite bool_decide_eq_true_2. }
  split_and!.
  - rewrite Hres. apply get_assign_eq.
  - by rewrite Hres.
  - intros s. apply on_datagram_silent.
  - intros st m s _ Hin. destruct st as [t d|t net|d]; simpl in Hin.
    + apply on_datagram_trace in Hin as [[? ?]|[(? & ? & ? & ?)|?]]; done.
    + apply check_server_health_notifies in Hin as (r0 & ? & ? & ? & ?).
      by exists t, net, r0.
    + by apply list_elem_of_fmap in Hin as (? & ? & ?).
Qed.

Lemma heartbeat_revives_without_notification_witness :
  let res := Monitor.on_datagram (Q2Qc 130) "HEARTBEAT CS1 localhost 7001 4 3"
               (Monitor.servers
                  (Monitor.monitor_step (Monitor.Sweep (Q2Qc 110) net_up)
                     demo_monitor).1) in
  get "CS1" res.1 = Some (demo_heartbeat_record 7001 (Q2Qc 130) 4 3 "alive") ∧
  res.2 = [Monitor.LogCameBack "CS1"] ∧
  (∀ s, Monitor.notify_calls s res.2 = 0%nat ∧
        Monitor.delivery_attempts s res.2 = 0%nat) ∧
  (∀ st m s,
     ascii_step st →
     Monitor.NotifyCall s ∈ (Monitor.monitor_step st m).2 →
     ∃ t net r0,
       st = Monitor.Sweep t net ∧
       (s, r0) ∈ Monitor.servers m ∧ Monitor.status r0 = "alive" ∧
       (Monitor.HEARTBEAT_TIMEOUT < t - Monitor.last_seen r0)%Qc ∧
       (s, Monitor.set_status "dead" r0) ∈
         Monitor.servers (Monitor.monitor_step st m).1).
Proof.
  apply (heartbeat_revives_without_notification (Q2Qc 130)
           "HEARTBEAT CS1 localhost 7001 4 3" _
           "CS1" "localhost" "7001" "4" "3" 7001 4 3
           (demo_heartbeat_record 7001 (Q2Qc 100) 0 3 "dead")).
  - reflexivity.
  - split; [reflexivity|]. exists "HEARTBEAT", []. reflexivity.
  - reflexivity.
  - reflexivity.
  - reflexivity.
  - vm_compute. reflexivity.
  - reflexivity.
Defined.

(** ** Malformed heartbeats *)

Lemma udp_heartbeat_listener_cons now data input srv :
  Monitor.udp_heartbeat_listener ((now, data) :: input) srv =
  ((Monitor.udp_heartbeat_listener input (Monitor.on_datagram now data srv).1).1,
   (Monitor.on_datagram now data srv).2 ++
   (Monitor.udp_heartbeat_listener input (Monitor.on_datagram now data srv).1).2).
Proof. reflexivity. Qed.

(** C10, as the code has it. A datagram of ASCII bytes that begins with
    [HEARTBEAT] but has fewer than six tokens counting [HEARTBEAT] itself
    (fewer than five after it), or whose port, load or file-count field is
    not an integer, leaves the server map as it was, and the listener goes
    on to handle the ASCII datagrams that follow exactly as if it had
    started with them. *)
Theorem malformed_heartbeat_ignored
    (now : Qc) (data : string) (srv : dict Monitor.HeartbeatRecord) :
  is_ascii data = true →
  malformed_heartbeat data →
  (Monitor.on_datagram now data srv).1 = srv ∧
  ((Monitor.on_datagram now data srv).2 = [] ∨
   (Monitor.on_datagram now data srv).2 = [Monitor.LogHeartbeatError]) ∧
  ∀ input,
    Forall (fun d : Qc * string => is_ascii d.2 = true) input →
    (Monitor.udp_heartbeat_listener ((now, data) :: input) srv).1 =
      (Monitor.udp_heartbeat_listener input srv).1 ∧
    (Monitor.udp_heartbeat_listener ((now, data) :: input) srv).2 =
      (Monitor.on_datagram now data srv).2 ++
      (Monitor.udp_heartbeat_listener input srv).2.
Proof.
  intros _ [Hpre Hbad].
  assert (Hsame : (Monitor.on_datagram now data srv).1 = srv ∧
                  ((Monitor.on_datagram now data srv).2 = [] ∨
                   (Monitor.on_datagram now data srv).2
                   = [Monitor.LogHeartbeatError])).
  { unfold Monitor.on_datagram. rewrite Hpre.
    destruct Hbad as [Hlen|(cmd & sid & ip_s & tp_s & l_s & nf_s & rest & -> & Hint)].
    - destruct (PyStr.split _) as [|? [|? [|? [|? [|? [|? ?]]]]]];
        simpl in Hlen; try lia; auto.
    - destruct (PyStr.int tp_s), (PyStr.int l_s), (PyStr.int nf_s);
        simpl; auto; by destruct Hint as [?|[?|?]]. }
  destruct Hsame as [H1 H2]. split_and!; [done|done|].
  intros input _. rewrite udp_heartbeat_listener_cons, H1. done.
Qed.

Lemma malformed_heartbeat_ignored_witness :
  let data := "HEARTBEAT CS9 localhost 70x1 0 3" in
  let srv := Monitor.servers demo_monitor in
  (Monitor.on_datagram t0 data srv).1 = srv ∧
  ((Monitor.on_datagram t0 data srv).2 = [] ∨
   (Monitor.on_datagram t0 data srv).2 = [Monitor.LogHeartbeatError]) ∧
  ∀ input,
    Forall (fun d : Qc * string => is_ascii d.2 = true) input →
    (Monitor.udp_heartbeat_listener ((t0, data) :: input) srv).1 =
      (Monitor.udp_heartbeat_listener input srv).1 ∧
    (Monitor.udp_heartbeat_listener ((t0, data) :: input) srv).2 =
      (Monitor.on_datagram t0 data srv).2 ++
      (Monitor.udp_heartbeat_listener input srv).2.
Proof.
  apply (malformed_heartbeat_ignored t0 "HEARTBEAT CS9 localhost 70x1 0 3"
           (Monitor.servers demo_monitor)).
  - reflexivity.
  - split; [reflexivity|]. right.
    exists "HEARTBEAT", "CS9", "localhost", "70x1", "0", "3", [].
    split; [reflexivity|]. left. reflexivity.
Defined.

(** C10 as stated fails: counted after [HEARTBEAT], the datagram
    [HEARTBEAT CS9 localhost 7001 0 3] has five tokens, fewer than six. It
    is the heartbeat that a content server sends, and the listener stores
    its record. *)
Lemma heartbeat_of_five_fields_stored :
  ¬ (∀ (now : Qc) (data : string) (srv : dict Monitor.HeartbeatRecord),
       is_ascii data = true →
       PyStr.startswith (PyStr.strip data) "HEARTBEAT" = true →
       (length (tail (PyStr.split (PyStr.strip data))) < 6)%nat →
       (Monitor.on_datagram now data srv).1 = srv).
Proof.
  intros H.
  specialize (H t0 "HEARTBEAT CS9 localhost 7001 0 3"
                (Monitor.servers demo_monitor)).
  assert (Hlen : length (Monitor.on_datagram t0
                           "HEARTBEAT CS9 localhost 7001 0 3"
                           (Monitor.servers demo_monitor)).1 = 3%nat)
    by (vm_compute; reflexivity).
  rewrite H in Hlen.
  - vm_compute in Hlen. discriminate.
  - reflexivity.
  - reflexivity.
  - vm_compute. lia.
Qed.

Example demo_short_heartbeat :
  Monitor.on_datagram t0 "HEARTBEAT CS9 localhost 7001 0"
    (Monitor.servers demo_monitor)
  = (Monitor.servers demo_monitor, []).
Proof. vm_compute. reflexivity. Qed.

Example demo_full_heartbeat :
  get "CS9" (Monitor.on_datagram t0 "HEARTBEAT CS9 localhost 7001 0 3"
               (Monitor.servers demo_monitor)).1
  = Some (demo_heartbeat_record 7001 t0 0 3 "alive").
Proof. vm_compute. reflexivity. Qed.

(** ** Strings: prefixes and first tokens *)

Lemma append_cons (x : ascii) (a b : string) :
  String x a +:+ b = String x (a +:+ b).
Proof. reflexivity. Qed.

Lemma append_assoc (a b c : string) : (a +:+ b) +:+ c = a +:+ (b +:+ c).
Proof.
  induction a as [|x a IH]; [done|]. by rewrite !append_cons, IH.
Qed.

Lemma append_empty_r (a : string) : a +:+ "" = a.
Proof. induction a as [|x a IH]; [done|]. by rewrite append_cons, IH. Qed.

Lemma prefix_split (p s : string) :
  String.prefix p s = true → ∃ rest, s = p +:+ rest.
Proof.
  revert s. induction p as [|x p IH]; intros s.
  - intros _. by exists s.
  - destruct s as [|y s]; simpl; [done|].
    destruct (ascii_dec x y) as [->|]; [|done].
    intros [rest ->]%IH. exists rest. reflexivity.
Qed.

Lemma prefix_refl (s : string) : String.prefix s s = true.
Proof.
  induction s as [|x s IH]; simpl; [done|].
  by destruct (ascii_dec x x).
Qed.

Lemma prefix_append_l (a b t : string) :
  String.prefix (a +:+ b) t = true → String.prefix a t = true.
Proof.
  revert t. induction a as [|x a IH]; intros t; [intros _; by destruct t|].
  rewrite append_cons. destruct t as [|y t]; simpl; [done|].
  destruct (ascii_dec x y); [apply IH|done].
Qed.

Lemma split_from_first (cur s : string) :
  cur ≠ "" →
  ∃ tok tl, PyStr.split_from cur s = tok :: tl ∧ String.prefix cur tok = true.
Proof.
  revert cur. induction s as [|c s IH]; intros cur Hne; simpl.
  - destruct cur; [done|]. eexists _, _. split; [done|apply prefix_refl].
  - destruct (PyStr.is_space c).
    + destruct cur; [done|]. eexists _, _. split; [done|apply prefix_refl].
    + destruct (IH (cur +:+ String c "")) as (tok & tl & -> & Hp).
      { by destruct cur. }
      exists tok, tl. split; [done|]. by eapply prefix_append_l.
Qed.

Lemma split_from_append (cur p rest : string) :
  PyStr.no_space p = true →
  PyStr.split_from cur (p +:+ rest) = PyStr.split_from (cur +:+ p) rest.
Proof.
  revert cur. induction p as [|c p IH]; intros cur.
  - intros _. by rewrite append_empty_r.
  - rewrite append_cons. simpl. destruct (PyStr.is_space c); [done|].
    simpl. intros Hp. rewrite IH by done. by rewrite append_assoc.
Qed.

(** A stripped message that starts with a command word has a first token
    that starts with it. *)
Lemma startswith_first_token (s p : string) :
  p ≠ "" → PyStr.no_space p = true → PyStr.startswith s p = true →
  ∃ tok tl, PyStr.split s = tok :: tl ∧ PyStr.startswith tok p = true.
Proof.
  intros Hne Hns [rest ->]%prefix_split. unfold PyStr.split.
  rewrite split_from_append by done. simpl. by apply split_from_first.
Qed.

Lemma startswith_head_ne (l : string) (a b : ascii) (p q : string) :
  a ≠ b → PyStr.startswith l (String a p) = true →
  PyStr.startswith l (String b q) = false.
Proof.
  intros Hne. unfold PyStr.startswith. destruct l as [|c l]; simpl; [done|].
  destruct (ascii_dec a c) as [->|]; [|done].
  by destruct (ascii_dec b c) as [->|].
Qed.

Lemma startswith_nonempty (l : string) (a : ascii) (p : string) :
  PyStr.startswith l (String a p) = true → l ≠ "".
Proof. by intros H ->. Qed.

(** ** Malformed requests *)

Lemma register_too_short addr_ip now raw st :
  too_short "REGISTER" 4 raw →
  Index.content_server_line addr_ip now raw st =
  (st, [Index.ERROR_INVALID_FORMAT], Continues).
Proof.
  intros [Hpre Hlen]. unfold Index.content_server_line.
  rewrite decide_False by by eapply startswith_nonempty.
  rewrite Hpre.
  destruct (PyStr.split _) as [|? [|? [|? [|? ?]]]]; simpl in Hlen; try done; lia.
Qed.

Lemma add_file_too_short addr_ip now raw st :
  too_short "ADD_FILE" 4 raw →
  Index.content_server_line addr_ip now raw st = (st, [], Continues).
Proof.
  intros [Hpre Hlen]. unfold Index.content_server_line.
  rewrite decide_False by by eapply startswith_nonempty.
  rewrite (startswith_head_ne _ "A" "R" "DD_FILE" "EGISTER") by done.
  rewrite Hpre.
  destruct (PyStr.split _) as [|? [|? [|? [|? ?]]]]; simpl in Hlen; try done; lia.
Qed.

Lemma index_get_too_short io data st :
  too_short "GET" 2 data →
  Index.client_message io data st =
  (st, [Index.ERROR_INVALID_FORMAT], Continues).
Proof.
  intros [Hpre Hlen]. unfold Index.client_message.
  destruct (decide (PyStr.strip data = "HELLO")) as [He|_].
  { rewrite He in Hpre. discriminate. }
  rewrite Hpre.
  destruct (PyStr.split _) as [|? [|? ?]]; simpl in Hlen; try done; lia.
Qed.

Lemma content_get_too_short readable files data :
  too_short "GET" 2 data →
  Content.client_message readable files data =
  ([Content.Send Content.ERROR_INVALID_FORMAT], Continues).
Proof.
  intros [Hpre Hlen]. unfold Content.client_message. rewrite Hpre.
  destruct (PyStr.split _) as [|? [|? ?]]; simpl in Hlen; try done; lia.
Qed.

Lemma register_index_too_short data m :
  too_short "REGISTER_INDEX" 3 data →
  Monitor.tcp_message data m = (m, [Monitor.ERROR_INVALID_FORMAT], Continues).
Proof.
  intros [Hpre Hlen]. unfold Monitor.tcp_message.
  destruct (decide (PyStr.strip data = "LIST_SERVERS")) as [He|_].
  { rewrite He in Hpre. discriminate. }
  rewrite Hpre.
  destruct (PyStr.split _) as [|? [|? [|? ?]]]; simpl in Hlen; try done; lia.
Qed.

Lemma register_bad_port addr_ip now raw st sid tp_s up_s :
  is_register raw sid tp_s up_s →
  PyStr.int tp_s = None ∨ PyStr.int up_s = None →
  Index.content_server_line addr_ip now raw st = (st, [], Raises).
Proof.
  intros [Hpre (cmd & rest & Hsplit)] Hbad. unfold Index.content_server_line.
  rewrite decide_False by by eapply startswith_nonempty.
  rewrite Hpre, Hsplit. unfold Index.register.
  destruct (PyStr.int tp_s), (PyStr.int up_s), Hbad; try done;
    by rewrite with_servers_same.
Qed.

Lemma register_index_bad_port data m cmd index_ip port_s rest :
  PyStr.startswith (PyStr.strip data) "REGISTER_INDEX" = true →
  PyStr.split (PyStr.strip data) = cmd :: index_ip :: port_s :: rest →
  PyStr.int port_s = None →
  Monitor.tcp_message data m = (m, [], Raises).
Proof.
  intros Hpre Hsplit Hbad. unfold Monitor.tcp_message.
  destruct (decide (PyStr.strip data = "LIST_SERVERS")) as [He|_].
  { rewrite He in Hpre. discriminate. }
  by rewrite Hpre, Hsplit, Hbad.
Qed.

(** C8, as the code has it, for requests received as ASCII bytes. A
    [REGISTER] line with fewer than four tokens, a [GET] with no file
    argument (at the index server and at the content server) and a
    [REGISTER_INDEX] with fewer than three tokens are answered
    [ERROR INVALID_FORMAT] and change nothing. A [REGISTER] or
    [REGISTER_INDEX] whose port field is not an integer raises: nothing is
    stored, nothing is replied and the handler leaves its loop. *)
Theorem malformed_request_replies :
  (∀ addr_ip now raw st,
     is_ascii raw = true →
     too_short "REGISTER" 4 raw →
     Index.content_server_line addr_ip now raw st =
     (st, [Index.ERROR_INVALID_FORMAT], Continues)) ∧
  (∀ io data st,
     is_ascii data = true →
     too_short "GET" 2 data →
     Index.client_message io data st =
     (st, [Index.ERROR_INVALID_FORMAT], Continues)) ∧
  (∀ readable files data,
     is_ascii data = true →
     too_short "GET" 2 data →
     Content.client_message readable files data =
     ([Content.Send Content.ERROR_INVALID_FORMAT], Continues)) ∧
  (∀ data m,
     is_ascii data = true →
     too_short "REGISTER_INDEX" 3 data →
     Monitor.tcp_message data m =
     (m, [Monitor.ERROR_INVALID_FORMAT], Continues)) ∧
  (∀ addr_ip now raw st sid tp_s up_s,
     is_ascii raw = true →
     is_register raw sid tp_s up_s →
     PyStr.int tp_s = None ∨ PyStr.int up_s = None →
     Index.content_server_line addr_ip now raw st = (st, [], Raises)) ∧
  (∀ data m cmd index_ip port_s rest,
     is_ascii data = true →
     PyStr.startswith (PyStr.strip data) "REGISTER_INDEX" = true →
     PyStr.split (PyStr.strip data) = cmd :: index_ip :: port_s :: rest →
     PyStr.int port_s = None →
     Monitor.tcp_message data m = (m, [], Raises)).
Proof.
  split_and!.
  - intros ???? _. apply register_too_short.
  - intros ??? _. apply index_get_too_short.
  - intros ??? _. apply content_get_too_short.
  - intros ?? _. apply register_index_too_short.
  - intros ??????? _. apply register_bad_port.
  - intros ?????? _. apply register_index_bad_port.
Qed.

Lemma malformed_request_replies_witness :
  Index.content_server_line "10.0.0.1" t0 "REGISTER CS1 7001" demo_store =
    (demo_store, [Index.ERROR_INVALID_FORMAT], Continues) ∧
  Index.client_message Index.Unreachable (PyStr.line "GET") demo_store =
    (demo_store, [Index.ERROR_INVALID_FORMAT], Continues) ∧
  Content.client_message (fun _ => true) [("a.txt", 100)] (PyStr.line "GET") =
    ([Content.Send Content.ERROR_INVALID_FORMAT], Continues) ∧
  Monitor.tcp_message (PyStr.line "REGISTER_INDEX localhost") demo_monitor =
    (demo_monitor, [Monitor.ERROR_INVALID_FORMAT], Continues) ∧
  Index.content_server_line "10.0.0.1" t0 "REGISTER CS1 70x1 7002" demo_store =
    (demo_store, [], Raises) ∧
  Monitor.tcp_message (PyStr.line "REGISTER_INDEX localhost port") demo_monitor =
    (demo_monitor, [], Raises).
Proof.
  destruct malformed_request_replies as (H1 & H2 & H3 & H4 & H5 & H6).
  split_and!.
  - apply H1; [reflexivity|]. split; [reflexivity|]. vm_compute. lia.
  - apply H2; [reflexivity|]. split; [reflexivity|]. vm_compute. lia.
  - apply H3; [reflexivity|]. split; [reflexivity|]. vm_compute. lia.
  - apply H4; [reflexivity|]. split; [reflexivity|]. vm_compute. lia.
  - apply (H5 _ _ _ _ "CS1" "70x1" "7002").
    + reflexivity.
    + split; [reflexivity|]. exists "REGISTER", []. reflexivity.
    + left. reflexivity.
  - apply (H6 _ _ "REGISTER_INDEX" "localhost" "port" []); reflexivity.
Defined.

(** C8 as stated fails: a [REGISTER] line whose port is not an integer gets
    no reply at all, and the handler leaves its loop. *)
Lemma malformed_request_not_answered :
  ¬ (∀ addr_ip now raw st,
       (too_short "REGISTER" 4 raw ∨ too_short "ADD_FILE" 4 raw ∨
        ∃ sid tp_s up_s,
          is_register raw sid tp_s up_s ∧
          (PyStr.int tp_s = None ∨ PyStr.int up_s = None)) →
       (Index.content_server_line addr_ip now raw st).1.2 =
       [Index.ERROR_INVALID_FORMAT]).
Proof.
  intros H.
  specialize (H "10.0.0.1" t0 "REGISTER CS1 70x1 7002" Index.empty).
  assert (Hc : (Index.content_server_line "10.0.0.1" t0
                  "REGISTER CS1 70x1 7002" Index.empty).1.2
               = [Index.ERROR_INVALID_FORMAT]).
  { apply H. right. right. exists "CS1", "70x1", "7002". split.
    - split; [reflexivity|]. exists "REGISTER", []. reflexivity.
    - left. reflexivity. }
  vm_compute in Hc. discriminate.
Qed.

Example demo_add_file_short :
  Index.content_server_line "10.0.0.1" t0 "ADD_FILE CS1 a.txt" Index.empty
  = (Index.empty, [], Continues).
Proof. vm_compute. reflexivity. Qed.

Example demo_register_bad_port :
  Index.handle_content_server "10.0.0.1"
    [(chunk ["REGISTER CS1 70x1 7002"; "ADD_FILE CS1 a.txt 100"], still t0)]
    Index.empty
  = (Index.empty, [], Raises).
Proof. vm_compute. reflexivity. Qed.

Example demo_register_short :
  Index.handle_content_server "10.0.0.1"
    [(chunk ["REGISTER CS1 7001"], still t0);
     (chunk ["REGISTER CS1 7001 7002"], still t0)] Index.empty
  = ({| Index.content_servers := [("CS1", fresh_record "10.0.0.1" 7001 7002 t0)];
        Index.file_index := [] |},
     [PyStr.line "ERROR INVALID_FORMAT"; PyStr.line "OK REGISTERED"],
     Continues).
Proof. vm_compute. reflexivity. Qed.

(** ** Unknown commands *)

Lemma unknown_not_bare bare prefixed data w :
  unknown_to bare prefixed data → w ∈ bare →
  first_token w = Some w → PyStr.strip data ≠ w.
Proof.
  intros Hun Hw Hfirst Heq. rewrite <- Heq in Hfirst at 1.
  by destruct (Hun _ Hfirst).
Qed.

Lemma unknown_not_prefixed bare prefixed data p :
  unknown_to bare prefixed data → p ∈ prefixed →
  p ≠ "" → PyStr.no_space p = true →
  PyStr.startswith (PyStr.strip data) p = false.
Proof.
  intros Hun Hp Hne Hns.
  destruct (PyStr.startswith (PyStr.strip data) p) eqn:Hpre; [|done].
  apply startswith_first_token in Hpre as (tok & tl & Hsplit & Htok); try done.
  destruct (Hun tok) as [_ Hno].
  { unfold first_token. by rewrite Hsplit. }
  by rewrite (Hno p Hp) in Htok.
Qed.

Lemma index_unknown_command io data st :
  unknown_to ["HELLO"; "LIST_FILES"; "LIST_SERVERS"] ["GET"] data →
  Index.client_message io data st =
  (st, [Index.ERROR_UNKNOWN_COMMAND], Continues).
Proof.
  intros Hun. unfold Index.client_message.
  rewrite decide_False
    by (eapply unknown_not_bare; [done|in_list|reflexivity]).
  rewrite (unknown_not_prefixed _ _ _ "GET" Hun) by (done || in_list).
  rewrite decide_False
    by (eapply unknown_not_bare; [done|in_list|reflexivity]).
  by rewrite decide_False
    by (eapply unknown_not_bare; [done|in_list|reflexivity]).
Qed.

Lemma monitor_unknown_command data m :
  unknown_to ["LIST_SERVERS"; "PING"] ["REGISTER_INDEX"] data →
  Monitor.tcp_message data m = (m, [Monitor.ERROR_UNKNOWN_COMMAND], Continues).
Proof.
  intros Hun. unfold Monitor.tcp_message.
  rewrite decide_False
    by (eapply unknown_not_bare; [done|in_list|reflexivity]).
  rewrite (unknown_not_prefixed _ _ _ "REGISTER_INDEX" Hun)
    by (done || in_list).
  by rewrite decide_False
    by (eapply unknown_not_bare; [done|in_list|reflexivity]).
Qed.

Lemma content_unknown_command readable files data :
  unknown_to [] ["GET"] data →
  Content.client_message readable files data =
  ([Content.Send Content.ERROR_UNKNOWN_COMMAND], Continues).
Proof.
  intros Hun. unfold Content.client_message.
  by rewrite (unknown_not_prefixed _ _ _ "GET" Hun) by (done || in_list).
Qed.

(** C9, as the code has it. A chunk of ASCII bytes (not empty, which would
    mean that the peer closed) whose first token is none of the
    argument-less commands of the endpoint and does not begin with the word
    of a command that takes arguments is answered [ERROR UNKNOWN_COMMAND];
    the state is unchanged, and the index server's client handler and the
    monitor's TCP handler go on to handle the ASCII chunks that follow on
    the same connection. The content server's handler answers and ends,
    whatever follows. *)
Theorem unknown_command_replies :
  (∀ io data st input,
     is_ascii data = true →
     Forall (fun x : Index.monitor_io * string =>
               ascii_reply x.1 ∧ is_ascii x.2 = true) input →
     data ≠ "" →
     unknown_to ["HELLO"; "LIST_FILES"; "LIST_SERVERS"] ["GET"] data →
     Index.client_message io data st =
       (st, [Index.ERROR_UNKNOWN_COMMAND], Continues) ∧
     Index.handle_client ((io, data) :: input) st =
       ((Index.handle_client input st).1.1,
        Index.ERROR_UNKNOWN_COMMAND :: (Index.handle_client input st).1.2,
        (Index.handle_client input st).2)) ∧
  (∀ data m input,
     is_ascii data = true →
     Forall (fun d => is_ascii d = true) input →
     data ≠ "" →
     unknown_to ["LIST_SERVERS"; "PING"] ["REGISTER_INDEX"] data →
     Monitor.tcp_message data m =
       (m, [Monitor.ERROR_UNKNOWN_COMMAND], Continues) ∧
     Monitor.handle_tcp_client (data :: input) m =
       ((Monitor.handle_tcp_client input m).1.1,
        Monitor.ERROR_UNKNOWN_COMMAND :: (Monitor.handle_tcp_client input m).1.2,
        (Monitor.handle_tcp_client input m).2)) ∧
  (∀ readable files data input,
     is_ascii data = true →
     data ≠ "" →
     unknown_to [] ["GET"] data →
     Content.handle_client readable files (data :: input) =
     ([Content.Send Content.ERROR_UNKNOWN_COMMAND], Continues)).
Proof.
  split_and!.
  - intros io data st input _ _ Hne Hun.
    split; [by apply index_unknown_command|].
    cbn [Index.handle_client].
    by rewrite decide_False, index_unknown_command.
  - intros data m input _ _ Hne Hun.
    split; [by apply monitor_unknown_command|].
    cbn [Monitor.handle_tcp_client].
    by rewrite decide_False, monitor_unknown_command.
  - intros readable files data input _ Hne Hun. unfold Content.handle_client.
    rewrite decide_False by done. by apply content_unknown_command.
Qed.

Lemma unknown_command_replies_witness :
  Index.handle_client
    [(Index.Unreachable, PyStr.line "FETCH a.txt");
     (Index.Unreachable, PyStr.line "HELLO")] demo_store =
  ((Index.handle_client [(Index.Unreachable, PyStr.line "HELLO")]
      demo_store).1.1,
   Index.ERROR_UNKNOWN_COMMAND ::
   (Index.handle_client [(Index.Unreachable, PyStr.line "HELLO")]
      demo_store).1.2,
   (Index.handle_client [(Index.Unreachable, PyStr.line "HELLO")]
      demo_store).2) ∧
  Monitor.tcp_message (PyStr.line "STATUS") demo_monitor =
    (demo_monitor, [Monitor.ERROR_UNKNOWN_COMMAND], Continues) ∧
  Content.handle_client (fun _ => true) [("a.txt", 100)]
    [PyStr.line "PUT a.txt"; PyStr.line "GET a.txt"] =
  ([Content.Send Content.ERROR_UNKNOWN_COMMAND], Continues).
Proof.
  destruct unknown_command_replies as (Hindex & Hmonitor & Hcontent).
  split_and!.
  - apply (Hindex Index.Unreachable (PyStr.line "FETCH a.txt") demo_store
             [(Index.Unreachable, PyStr.line "HELLO")]);
      [reflexivity|by repeat constructor|done|].
    intros tok [= <-]. split.
    + rewrite !not_elem_of_cons. split_and!; try done. apply not_elem_of_nil.
    + intros p ->%list_elem_of_singleton. reflexivity.
  - apply (Hmonitor (PyStr.line "STATUS") demo_monitor []);
      [reflexivity|constructor|done|].
    intros tok [= <-]. split.
    + rewrite !not_elem_of_cons. split_and!; try done. apply not_elem_of_nil.
    + intros p ->%list_elem_of_singleton. reflexivity.
  - apply (Hcontent (fun _ => true) [("a.txt", 100)] (PyStr.line "PUT a.txt")
             [PyStr.line "GET a.txt"]); [reflexivity|done|].
    intros tok [= <-]. split; [apply not_elem_of_nil|].
    intros p ->%list_elem_of_singleton. reflexivity.
Defined.

(** C9 as stated fails: [GETX] is not a command of the index server's client
    handler, and it is answered [ERROR INVALID_FORMAT]. *)
Lemma unknown_first_token_not_rejected :
  ¬ (∀ io data st tok,
       first_token (PyStr.strip data) = Some tok → tok ∉ index_commands →
       (Index.client_message io data st).1.2 = [Index.ERROR_UNKNOWN_COMMAND]).
Proof.
  intros H.
  specialize (H Index.Unreachable "GETX" Index.empty "GETX" eq_refl).
  assert (Hnot : "GETX" ∉ index_commands).
  { unfold index_commands. rewrite !not_elem_of_cons. split_and!; try done.
    apply not_elem_of_nil. }
  apply H in Hnot. vm_compute in Hnot. discriminate.
Qed.

Example demo_unknown_then_hello :
  Index.handle_client
    [(Index.Unreachable, PyStr.line "FETCH a.txt");
     (Index.Unreachable, PyStr.line "HELLO")] demo_store
  = (demo_store,
     [PyStr.line "ERROR UNKNOWN_COMMAND"; PyStr.line "WELCOME MICRO-CDN"],
     Continues).
Proof. vm_compute. reflexivity. Qed.

Example demo_prefix_commands :
  (Index.client_message Index.Unreachable "GETX" demo_store).1.2
    = [PyStr.line "ERROR INVALID_FORMAT"] ∧
  (Index.client_message Index.Unreachable "GETX a.txt" demo_store).1.2
    = [PyStr.line "SERVER 10.0.0.1 7001 CS1 100"] ∧
  (Monitor.tcp_message "REGISTER_INDEXES h 5001" Monitor.initial).1.2
    = [PyStr.line "OK INDEX_REGISTERED"] ∧
  (Content.client_message (fun _ => true) [("a.txt", 100)] "GETTING a.txt").1
    = [Content.Send (PyStr.line "OK 100"); Content.SendFile "a.txt"].
Proof. vm_compute. repeat split; reflexivity. Qed.

(** * Further properties of the code *)

(** ** Selection: when a server is found, and which one among equals *)

(** X1. [select_best_server f] returns nothing exactly when no host of [f]
    is in the registry with status [alive]; any other status string counts
    as not alive. *)
Theorem select_best_server_none_iff (f : string) (st : Index.Store) :
  Index.select_best_server f st = None ↔
  ∀ hosts sid sz r,
    get f (Index.file_index st) = Some hosts → (sid, sz) ∈ hosts →
    get sid (Index.content_servers st) = Some r → Index.status r ≠ "alive".
Proof.
  unfold Index.select_best_server. split.
  - intros Hnone hosts sid sz r Hf Hin Hg Ha. rewrite Hf in Hnone.
    assert (Hc : (sid, r, sz) ∈ Index.candidates (Index.content_servers st) hosts).
    { apply elem_of_candidates. by exists sz. }
    rewrite <- sort_by_load_perm in Hc.
    destruct (Index.sort_by_load _); [by apply elem_of_nil in Hc|done].
  - intros Hno. destruct (get f (Index.file_index st)) as [hosts|] eqn:Hf; [|done].
    destruct (Index.candidates (Index.content_servers st) hosts)
      as [|c l] eqn:Hc; [done|].
    assert (Hin : c ∈ Index.candidates (Index.content_servers st) hosts)
      by (rewrite Hc; left).
    apply elem_of_candidates in Hin as (sz & _ & Hin & Hg & Ha).
    by destruct (Hno hosts _ _ _ eq_refl Hin Hg).
Qed.

Lemma sort_by_load_first_least (l1 l2 : list Index.candidate) c :
  Forall (fun x => Index.cand_load c < Index.cand_load x) l1 →
  Forall (fun x => Index.cand_load c <= Index.cand_load x) l2 →
  ∃ tl, Index.sort_by_load (l1 ++ c :: l2) = c :: tl.
Proof.
  intros H1 H2. induction H1 as [|x l1 Hx H1 IH]; simpl.
  - assert (Hs : Forall (fun x => Index.cand_load c <= Index.cand_load x)
                   (Index.sort_by_load l2)) by by rewrite sort_by_load_perm.
    destruct (Index.sort_by_load l2) as [|d l]; simpl; [by eexists|].
    apply Forall_cons in Hs as [Hd _].
    destruct (Z.leb_spec (Index.cand_load c) (Index.cand_load d)); [|lia].
    by eexists.
  - destruct IH as [tl ->]. simpl.
    destruct (Z.leb_spec (Index.cand_load x) (Index.cand_load c)); [lia|].
    by eexists.
Qed.

(** X2. Among the alive hosts of least load, [select_best_server] returns
    the one that comes first in the file's host list: the sort is stable.
    [l1] are the candidates before the chosen one, all of greater load, and
    [l2] those after it, none of smaller load. *)
Theorem select_best_server_first_of_least
    (f : string) (st : Index.Store) (hosts : list (string * Z))
    (l1 l2 : list Index.candidate) (c : Index.candidate) :
  get f (Index.file_index st) = Some hosts →
  Index.candidates (Index.content_servers st) hosts = l1 ++ c :: l2 →
  Forall (fun x => Index.cand_load c < Index.cand_load x) l1 →
  Forall (fun x => Index.cand_load c <= Index.cand_load x) l2 →
  Index.select_best_server f st = Some (c.1.2, c.2).
Proof.
  intros Hf Hc H1 H2. unfold Index.select_best_server. rewrite Hf, Hc.
  by destruct (sort_by_load_first_least l1 l2 c H1 H2) as [tl ->].
Qed.

Lemma select_best_server_first_of_least_witness :
  Index.select_best_server "a.txt" demo_store
  = Some (fresh_record "10.0.0.1" 7001 7002 t0, 100).
Proof.
  apply (select_best_server_first_of_least "a.txt" demo_store demo_hosts []
           [("CS2", fresh_record "10.0.0.1" 7003 7004 t0, 100);
            ("CS3", fresh_record "10.0.0.1" 7005 7006 t0, 100)]
           ("CS1", fresh_record "10.0.0.1" 7001 7002 t0, 100)).
  - vm_compute. reflexivity.
  - vm_compute. reflexivity.
  - constructor.
  - repeat constructor; vm_compute; discriminate.
Defined.

(** X3. The server id written into a [SERVER] reply is the first key of the
    registry whose record equals the selected one: that key holds the
    selected record, and it is the selected server's own id whenever no
    other server has an identical record. *)
Theorem server_id_of_names_record_holder
    (cs : dict Index.ServerRecord) (sid : string) (server : Index.ServerRecord) :
  wf cs → get sid cs = Some server →
  get (Index.server_id_of server cs) cs = Some server ∧
  ((∀ k, k ≠ sid → get k cs ≠ Some server) →
   Index.server_id_of server cs = sid).
Proof.
  intros Hwf Hg. unfold Index.server_id_of.
  destruct (List.find _ cs) as [[k r]|] eqn:Hfind.
  - apply List.find_some in Hfind as [Hin Heq]. simpl in Heq.
    apply bool_decide_eq_true in Heq as ->. apply list_elem_of_In in Hin.
    pose proof (elem_wf_get _ _ _ Hwf Hin) as Hk. simpl. split; [done|].
    intros Hother. destruct (decide (k = sid)) as [|Hne]; [done|].
    by destruct (Hother k Hne).
  - apply get_Some_elem, list_elem_of_In in Hg.
    eapply List.find_none in Hfind; [|exact Hg]. simpl in Hfind.
    by apply bool_decide_eq_false in Hfind.
Qed.

Lemma server_id_of_names_record_holder_witness :
  get (Index.server_id_of (demo_record 7003 7004 1 "alive")
         (Index.content_servers demo_loaded))
      (Index.content_servers demo_loaded)
    = Some (demo_record 7003 7004 1 "alive") ∧
  ((∀ k, k ≠ "CS2" →
      get k (Index.content_servers demo_loaded)
      ≠ Some (demo_record 7003 7004 1 "alive")) →
   Index.server_id_of (demo_record 7003 7004 1 "alive")
     (Index.content_servers demo_loaded) = "CS2").
Proof.
  apply (server_id_of_names_record_holder (Index.content_servers demo_loaded)
           "CS2" (demo_record 7003 7004 1 "alive")).
  - apply (bool_decide_unpack _). vm_compute. exact I.
  - vm_compute. reflexivity.
Defined.

Example demo_identical_records :
  Index.server_id_of (fresh_record "10.0.0.1" 7001 7002 t0)
    [("CS0", fresh_record "10.0.0.1" 7001 7002 t0);
     ("CS1", fresh_record "10.0.0.1" 7001 7002 t0)]
  = "CS0".
Proof. vm_compute. reflexivity. Qed.

(** ** What the refresh and the client handler never touch *)

Lemma same_address_refl r : same_address r r.
Proof. by repeat split. Qed.

Lemma same_servers_refl cs : same_servers cs cs.
Proof. apply Forall2_same_length_lookup_2; [done|]. intros i a b Ha Hb.
  rewrite Ha in Hb. injection Hb as <-. split; [done|apply same_address_refl].
Qed.

Lemma same_servers_trans cs1 cs2 cs3 :
  same_servers cs1 cs2 → same_servers cs2 cs3 → same_servers cs1 cs3.
Proof.
  unfold same_servers. intros H12. revert cs3.
  induction H12 as [|a b l1 l2 [Hk Ha] _ IH]; intros cs3 H23.
  - by apply Forall2_nil_inv_l in H23 as ->.
  - apply Forall2_cons_inv_l in H23 as (c & l3 & [Hk' Hb] & H23 & ->).
    constructor; [|by apply IH]. split; [congruence|].
    destruct Ha as (?&?&?&?), Hb as (?&?&?&?).
    unfold same_address. split_and!; congruence.
Qed.

Lemma same_servers_assign k r r' cs :
  get k cs = Some r → same_address r r' → same_servers cs (assign k r' cs).
Proof.
  unfold same_servers. induction cs as [|[k0 r0] cs IH]; simpl; [done|].
  destruct (decide (k0 = k)) as [->|Hne].
  - intros [= ->] Hs. constructor; [done|]. apply same_servers_refl.
  - intros Hg Hs. constructor; [|by apply IH].
    split; [done|apply same_address_refl].
Qed.

Lemma same_servers_keys cs cs' : same_servers cs cs' → keys cs' = keys cs.
Proof.
  unfold keys. induction 1 as [|a b l1 l2 [Hk _] _ IH]; [done|].
  rewrite !fmap_cons. congruence.
Qed.

Lemma merge_line_same l cs : same_servers cs (Index.merge_line l cs).1.
Proof.
  unfold Index.merge_line.
  destruct (PyStr.startswith l "SERVER"); [|apply same_servers_refl].
  destruct (PyStr.split l) as [|? [|sid [|? [|? [|load_s [|status_s ?]]]]]];
    try apply same_servers_refl.
  destruct (get sid cs) as [r|] eqn:Hg; [|apply same_servers_refl].
  destruct (PyStr.int load_s); [|apply same_servers_refl].
  simpl. by apply (same_servers_assign _ r).
Qed.

Lemma merge_lines_same ls cs : same_servers cs (Index.merge_lines ls cs).1.
Proof.
  revert cs. induction ls as [|l ls IH]; intros cs; simpl.
  - apply same_servers_refl.
  - pose proof (merge_line_same l cs) as Hl.
    destruct (Index.merge_line l cs) as [cs' []]; simpl in *; [|done].
    eapply same_servers_trans; [exact Hl|apply IH].
Qed.

Lemma refresh_same io cs :
  same_servers cs (Index.get_server_health_from_monitor io cs).1.
Proof.
  destruct io as [|text]; simpl; [apply same_servers_refl|].
  pose proof (merge_lines_same (PyStr.split_nl (PyStr.strip text)) cs) as H.
  by destruct (Index.merge_lines _ cs) as [cs' []].
Qed.

(** X4. Whatever the exchange with the Monitor gives - no answer, a
    well-formed list, or text that makes the parser raise half way - the
    refresh keeps the registry's server ids and their order, and changes no
    ip, port or [last_update] of any record: only loads and statuses can
    differ. *)
Theorem refresh_keeps_servers
    (io : Index.monitor_io) (cs : dict Index.ServerRecord) :
  same_servers cs (Index.get_server_health_from_monitor io cs).1 ∧
  keys (Index.get_server_health_from_monitor io cs).1 = keys cs.
Proof.
  split; [apply refresh_same|apply same_servers_keys, refresh_same].
Qed.

Lemma client_message_keeps io data st :
  let res := Index.client_message io data st in
  Index.file_index res.1.1 = Index.file_index st ∧
  same_servers (Index.content_servers st) (Index.content_servers res.1.1) ∧
  res.2 = Continues.
Proof.
  unfold Index.client_message.
  assert (Hrefl : same_servers (Index.content_servers st) (Index.content_servers st))
    by apply same_servers_refl.
  case_decide; [done|].
  destruct (PyStr.startswith _ "GET").
  - destruct (PyStr.split _) as [|? [|? ?]]; try done. simpl.
    split_and!; [done| |done]. apply refresh_same.
  - by repeat case_decide.
Qed.

(** X5. A client connection, whatever it sends, leaves the file index as it
    was, adds or removes no server and changes no address of a server:
    through the refresh it can only bring loads and statuses up to date.
    When every chunk it sends is ASCII, no exception escapes either. *)
Theorem handle_client_keeps_catalog
    (input : list (Index.monitor_io * string)) (st : Index.Store) :
  let res := Index.handle_client input st in
  Index.file_index res.1.1 = Index.file_index st ∧
  same_servers (Index.content_servers st) (Index.content_servers res.1.1) ∧
  (Forall (fun x : Index.monitor_io * string => is_ascii x.2 = true) input →
   res.2 = Continues).
Proof.
  revert st. induction input as [|[io data] input IH]; intros st.
  - simpl. split_and!; [done|apply same_servers_refl|done].
  - cbn [Index.handle_client]. case_decide.
    { simpl. split_and!; [done|apply same_servers_refl|done]. }
    destruct (client_message_keeps io data st) as (Hf & Hs & Ho).
    destruct (Index.client_message io data st) as [[st' out] o].
    simpl in Hf, Hs, Ho. subst o.
    destruct (IH st') as (Hf' & Hs' & Ho'). cbn [fst snd].
    split_and!; [congruence| |].
    + eapply same_servers_trans; [exact Hs|exact Hs'].
    + intros Hascii. apply Ho'. by apply Forall_cons in Hascii as [_ ?].
Qed.

Lemma handle_client_keeps_catalog_witness :
  let res := Index.handle_client
               [(Index.Unreachable, PyStr.line "HELLO");
                (Index.Response demo_response, PyStr.line "GET a.txt");
                (Index.Unreachable, PyStr.line "LIST_FILES")] demo_store in
  res.2 = Continues ∧ Index.file_index res.1.1 = Index.file_index demo_store.
Proof.
  destruct (handle_client_keeps_catalog
              [(Index.Unreachable, PyStr.line "HELLO");
               (Index.Response demo_response, PyStr.line "GET a.txt");
               (Index.Unreachable, PyStr.line "LIST_FILES")] demo_store)
    as (Hf & _ & Ho).
  split; [|exact Hf]. apply Ho. by repeat constructor.
Defined.

(** ** What a content-server connection never removes *)

Lemma grows_refl st : grows st st.
Proof.
  split; [done|]. intros f hosts Hf. exists []. by rewrite app_nil_r.
Qed.

Lemma grows_trans st1 st2 st3 : grows st1 st2 → grows st2 st3 → grows st1 st3.
Proof.
  intros [Hk1 Hf1] [Hk2 Hf2]. split; [by auto|].
  intros f hosts Hf. destruct (Hf1 _ _ Hf) as [m1 H1].
  destruct (Hf2 _ _ H1) as [m2 H2]. exists (m1 ++ m2). by rewrite app_assoc.
Qed.

Lemma assign_keeps_keys {V} k (v : V) d k' :
  is_Some (get k' d) → is_Some (get k' (assign k v d)).
Proof.
  intros Hs. destruct (decide (k = k')) as [<-|Hne].
  - by rewrite get_assign_eq.
  - by rewrite get_assign_ne.
Qed.

Lemma add_file_extends s f sz fi f' hosts :
  get f' fi = Some hosts →
  ∃ more, get f' (Index.add_file s f sz fi).1 = Some (hosts ++ more).
Proof.
  intros Hf. destruct (decide (f = f')) as [<-|Hne].
  - rewrite add_file_get_same, Hf. simpl.
    destruct (entries_of s f fi); [|exists []; by rewrite app_nil_r].
    destruct (PyStr.int sz); [by eexists|exists []; by rewrite app_nil_r].
  - rewrite add_file_get_other by done. exists []. by rewrite app_nil_r.
Qed.

Lemma content_server_line_grows addr_ip now raw st :
  grows st (Index.content_server_line addr_ip now raw st).1.1.
Proof.
  unfold Index.content_server_line. case_decide; [apply grows_refl|].
  destruct (PyStr.startswith _ "REGISTER").
  { destruct (PyStr.split _) as [|? [|sid [|tp [|up ?]]]]; try apply grows_refl.
    unfold Index.register.
    destruct (PyStr.int tp); [|rewrite with_servers_same; apply grows_refl].
    destruct (PyStr.int up); [|rewrite with_servers_same; apply grows_refl].
    split; simpl; [intros k; apply assign_keeps_keys|].
    intros f hosts Hf. exists []. by rewrite app_nil_r. }
  destruct (PyStr.startswith _ "ADD_FILE").
  { destruct (PyStr.split _) as [|? [|sid [|f [|sz ?]]]]; try apply grows_refl.
    split; simpl; [done|]. intros f' hosts. apply add_file_extends. }
  case_decide; [apply grows_refl|].
  destruct (PyStr.startswith _ "UPDATE_LOAD"); [|apply grows_refl].
  destruct (PyStr.split _) as [|? [|sid [|l ?]]]; try apply grows_refl.
  unfold Index.update_load.
  destruct (get sid (Index.content_servers st));
    [|rewrite with_servers_same; apply grows_refl].
  destruct (PyStr.int l); [|rewrite with_servers_same; apply grows_refl].
  split; simpl; [intros k; apply assign_keeps_keys|].
  intros f hosts Hf. exists []. by rewrite app_nil_r.
Qed.

Lemma handle_lines_grows addr_ip clock i ls st :
  grows st (Index.handle_lines addr_ip clock i ls st).1.1.
Proof.
  revert i st. induction ls as [|raw ls IH]; intros i st; simpl.
  - apply grows_refl.
  - pose proof (content_server_line_grows addr_ip (clock i) raw st) as Hl.
    destruct (Index.content_server_line addr_ip (clock i) raw st)
      as [[st' out] []]; simpl in *; [|done].
    eapply grows_trans; [exact Hl|apply IH].
Qed.

(** X6. A content-server connection, whatever lines it sends and even when
    a line makes the handler raise, removes nothing: every server id of the
    registry is still there afterwards, and every host list of the file
    index is still there, at most extended at its end. *)
Theorem handle_content_server_grows
    (addr_ip : string) (input : list (string * (nat → Qc))) (st : Index.Store) :
  grows st (Index.handle_content_server addr_ip input st).1.1.
Proof.
  revert st. induction input as [|[data clock] input IH]; intros st.
  - apply grows_refl.
  - cbn [Index.handle_content_server]. case_decide; [apply grows_refl|].
    pose proof (handle_lines_grows addr_ip clock 0 (Index.lines_of data) st) as Hl.
    destruct (Index.handle_lines addr_ip clock 0 (Index.lines_of data) st)
      as [[st' out] []]; simpl in *; [|done].
    eapply grows_trans; [exact Hl|apply IH].
Qed.

(** The line is an [ADD_FILE] request with these three fields. *)
Lemma add_file_line addr_ip now raw st sid f sz cmd rest :
  PyStr.startswith (PyStr.strip raw) "ADD_FILE" = true →
  PyStr.split (PyStr.strip raw) = cmd :: sid :: f :: sz :: rest →
  Index.content_server_line addr_ip now raw st =
  (Index.with_files (Index.add_file sid f sz (Index.file_index st)).1 st, [],
   (Index.add_file sid f sz (Index.file_index st)).2).
Proof.
  intros Hpre Hsplit. unfold Index.content_server_line.
  rewrite decide_False by by eapply startswith_nonempty.
  rewrite (startswith_head_ne _ "A" "R" "DD_FILE" "EGISTER") by done.
  by rewrite Hpre, Hsplit.
Qed.

(** X7. An [ADD_FILE] line of ASCII bytes whose size field is not an
    integer, for a server that has no entry for the file yet, raises: the handler sends nothing,
    handles none of the lines that follow and leaves its loops. The file
    name, if it was new, stays in the index with an empty host list, and
    every other file is untouched. *)
Theorem add_file_bad_size_aborts
    (addr_ip : string) (clock : nat → Qc) (i : nat) (raw : string)
    (later : list string) (st : Index.Store) (sid f sz cmd : string)
    (rest : list string) :
  is_ascii raw = true →
  PyStr.startswith (PyStr.strip raw) "ADD_FILE" = true →
  PyStr.split (PyStr.strip raw) = cmd :: sid :: f :: sz :: rest →
  PyStr.int sz = None →
  entries_of sid f (Index.file_index st) = [] →
  let res := Index.handle_lines addr_ip clock i (raw :: later) st in
  res.1.2 = [] ∧ res.2 = Raises ∧
  Index.content_servers res.1.1 = Index.content_servers st ∧
  get f (Index.file_index res.1.1) =
    Some (default [] (get f (Index.file_index st))) ∧
  ∀ f', f ≠ f' →
    get f' (Index.file_index res.1.1) = get f' (Index.file_index st).
Proof.
  intros _ Hpre Hsplit Hint He. cbn [Index.handle_lines].
  rewrite (add_file_line _ _ _ _ sid f sz cmd rest) by done.
  assert (Ho : (Index.add_file sid f sz (Index.file_index st)).2 = Raises).
  { unfold Index.add_file. unfold entries_of in He.
    assert (Hh : default [] (get f (if mem f (Index.file_index st)
                                    then Index.file_index st
                                    else assign f [] (Index.file_index st)))
                 = default [] (get f (Index.file_index st))).
    { unfold mem. destruct (get f (Index.file_index st)) eqn:Hg.
      - by rewrite Hg.
      - by rewrite get_assign_eq. }
    rewrite Hh, He, Hint. done. }
  rewrite Ho. simpl. split_and!; try done.
  - rewrite add_file_get_same, He, Hint. done.
  - intros f' Hne. by apply add_file_get_other.
Qed.

Lemma add_file_bad_size_aborts_witness :
  let res := Index.handle_lines "10.0.0.1" (still t0) 0
               ["ADD_FILE CS1 my file.txt 12"; "ADD_FILE CS1 b.txt 7";
                "DONE_FILES"] demo_store in
  res.1.2 = [] ∧ res.2 = Raises ∧
  Index.content_servers res.1.1 = Index.content_servers demo_store ∧
  get "my" (Index.file_index res.1.1) =
    Some (default [] (get "my" (Index.file_index demo_store))) ∧
  ∀ f', "my" ≠ f' →
    get f' (Index.file_index res.1.1) = get f' (Index.file_index demo_store).
Proof.
  apply (add_file_bad_size_aborts "10.0.0.1" (still t0) 0
           "ADD_FILE CS1 my file.txt 12" ["ADD_FILE CS1 b.txt 7"; "DONE_FILES"]
           demo_store "CS1" "my" "file.txt" "ADD_FILE" ["12"]).
  - reflexivity.
  - reflexivity.
  - reflexivity.
  - reflexivity.
  - vm_compute. reflexivity.
Defined.

(** ** The file listing agrees with the selection *)




(** ** The monitor: what a sweep spares and what it repeats *)

Lemma not_log_marked_dead now addr net srv sid :
  Monitor.LogMarkedDead sid ∈ (Monitor.check_server_health now addr net srv).2 →
  ∃ r, (sid, r) ∈ srv ∧ Monitor.status r = "alive" ∧
       (Monitor.HEARTBEAT_TIMEOUT < now - Monitor.last_seen r)%Qc.
Proof.
  induction srv as [|[k v] srv IH]; [by intros ?%elem_of_nil|].
  cbn [Monitor.check_server_health snd]. rewrite elem_of_app.
  intros [Hin|Hin].
  - unfold Monitor.check_one in Hin. simpl in Hin.
    destruct (decide (Monitor.status v = "alive")) as [Ha|];
      [|by apply elem_of_nil in Hin].
    destruct (decide (Monitor.HEARTBEAT_TIMEOUT < now - Monitor.last_seen v)%Qc)
      as [Ht|]; [|by apply elem_of_nil in Hin].
    simpl in Hin. apply elem_of_cons in Hin as [[= ->]|Hin].
    + exists v. split_and!; [left|done|done].
    + unfold Monitor.notify_index_server_failure in Hin.
      apply elem_of_cons in Hin as [?|Hin]; [done|].
      destruct addr; [|by apply elem_of_nil in Hin].
      apply elem_of_cons in Hin as [?|Hin]; [done|].
      destruct (net k); by apply list_elem_of_singleton in Hin.
  - destruct (IH Hin) as (r & ? & ? & ?). exists r. split_and!; [by right|done|done].
Qed.

(** X9. The timeout is strict: a record whose last heartbeat is at most
    [HEARTBEAT_TIMEOUT] old at the time of a sweep - exactly 8 seconds
    included - is left as it is, whatever its status, and the sweep logs no
    failure and calls no notification for it. *)
Theorem sweep_spares_fresh_record
    (now : Qc) (addr : option (string * Z)) (net : string → bool)
    (srv : dict Monitor.HeartbeatRecord) (sid : string)
    (r : Monitor.HeartbeatRecord) :
  wf srv → get sid srv = Some r →
  (now - Monitor.last_seen r <= Monitor.HEARTBEAT_TIMEOUT)%Qc →
  let res := Monitor.check_server_health now addr net srv in
  get sid res.1 = Some r ∧
  (Monitor.LogMarkedDead sid ∉ res.2) ∧
  Monitor.notify_calls sid res.2 = 0%nat ∧
  Monitor.delivery_attempts sid res.2 = 0%nat.
Proof.
  intros Hwf Hg Hfresh res.
  assert (Hone : Monitor.check_one now addr net (sid, r) = ((sid, r), [])).
  { unfold Monitor.check_one. simpl. case_decide; [|done].
    rewrite decide_False; [done|]. by apply Qcle_not_lt. }
  split_and!.
  - unfold res. rewrite check_server_health_get, Hg.
    cbv beta iota delta [fmap option_fmap option_map]. by rewrite Hone.
  - intros (r0 & Hin & _ & Ht)%not_log_marked_dead.
    apply (elem_wf_get _ _ _ Hwf) in Hin. rewrite Hg in Hin.
    injection Hin as <-. by apply Qcle_not_lt in Hfresh.
  - unfold res.
    destruct (check_server_health_present now addr net sid r srv Hwf Hg) as [-> _].
    by rewrite Hone.
  - unfold res.
    destruct (check_server_health_present now addr net sid r srv Hwf Hg) as [_ ->].
    by rewrite Hone.
Qed.

Lemma sweep_spares_fresh_record_witness :
  let res := Monitor.check_server_health (Q2Qc 108) None net_up
               (Monitor.servers demo_monitor) in
  get "CS1" res.1 = Some (demo_heartbeat_record 7001 (Q2Qc 100) 0 3 "alive") ∧
  (Monitor.LogMarkedDead "CS1" ∉ res.2) ∧
  Monitor.notify_calls "CS1" res.2 = 0%nat ∧
  Monitor.delivery_attempts "CS1" res.2 = 0%nat.
Proof.
  apply (sweep_spares_fresh_record (Q2Qc 108) None net_up
           (Monitor.servers demo_monitor) "CS1"
           (demo_heartbeat_record 7001 (Q2Qc 100) 0 3 "alive")).
  - apply (bool_decide_unpack _). vm_compute. exact I.
  - vm_compute. reflexivity.
  - vm_compute. discriminate.
Defined.

Lemma check_one_cases now addr net kv :
  (Monitor.check_one now addr net kv).1 = kv ∨
  (Monitor.status kv.2 = "alive" ∧
   (Monitor.HEARTBEAT_TIMEOUT < now - Monitor.last_seen kv.2)%Qc ∧
   (Monitor.check_one now addr net kv).1 = (kv.1, Monitor.set_status "dead" kv.2)).
Proof.
  unfold Monitor.check_one. repeat case_decide; simpl; auto.
Qed.

Lemma check_one_again now addr addr' net net' kv :
  Monitor.check_one now addr' net' (Monitor.check_one now addr net kv).1
  = ((Monitor.check_one now addr net kv).1, []).
Proof.
  destruct (decide (Monitor.status kv.2 = "alive")) as [Ha|Hn].
  - destruct (decide (Monitor.HEARTBEAT_TIMEOUT < now - Monitor.last_seen kv.2)%Qc)
      as [Ht|Hf].
    + assert (H1 : (Monitor.check_one now addr net kv).1
                   = (kv.1, Monitor.set_status "dead" kv.2)).
      { unfold Monitor.check_one. by rewrite !decide_True. }
      rewrite H1. by apply check_one_not_alive.
    + assert (H1 : ∀ a n, Monitor.check_one now a n kv = (kv, [])).
      { intros a n. unfold Monitor.check_one.
        by rewrite decide_True, decide_False. }
      by rewrite !H1.
  - by rewrite !(check_one_not_alive _ _ _ kv) by done.
Qed.

(** X10. A sweep only ever turns an [alive], timed-out record [dead]: every
    other record, and every other field, is returned as it was. Sweeping
    again at the same clock reading changes nothing and is silent: no log
    line, no notification. *)
Theorem sweep_only_marks_dead
    (now : Qc) (addr addr' : option (string * Z)) (net net' : string → bool)
    (srv : dict Monitor.HeartbeatRecord) :
  let res := Monitor.check_server_health now addr net srv in
  (∀ sid r', get sid res.1 = Some r' →
     ∃ r, get sid srv = Some r ∧
          (r' = r ∨
           (Monitor.status r = "alive" ∧
            (Monitor.HEARTBEAT_TIMEOUT < now - Monitor.last_seen r)%Qc ∧
            r' = Monitor.set_status "dead" r))) ∧
  Monitor.check_server_health now addr' net' res.1 = (res.1, []).
Proof.
  split.
  - intros sid r'. rewrite check_server_health_get.
    destruct (get sid srv) as [r|]; [|done]. simpl. intros [= <-].
    exists r. split; [done|].
    destruct (check_one_cases now addr net (sid, r)) as [->|(Ha & Ht & ->)];
      simpl; auto.
  - induction srv as [|kv srv IH]; [done|].
    cbn [Monitor.check_server_health fst]. rewrite check_one_again.
    cbn [fst snd]. by rewrite IH.
Qed.

(** ** The monitor: records are never lost *)

Lemma get_is_Some_keys {V} k (d : dict V) : is_Some (get k d) ↔ k ∈ keys d.
Proof.
  unfold keys. induction d as [|[k' v] d IH]; simpl.
  - split; [by intros [? ?]|by intros ?%elem_of_nil].
  - rewrite elem_of_cons. destruct (decide (k' = k)) as [->|Hne].
    + split; [by left|by eexists].
    + rewrite IH. split; [by right|]. by intros [?|?].
Qed.

Lemma monitor_step_keeps_ids s m k :
  is_Some (get k (Monitor.servers m)) →
  is_Some (get k (Monitor.servers (Monitor.monitor_step s m).1)).
Proof.
  destruct s as [now data|now net|data];
    unfold Monitor.monitor_step; cbn [fst Monitor.servers].
  - unfold Monitor.on_datagram.
    destruct (PyStr.startswith _ _); [|done].
    destruct (PyStr.split _) as [|? [|s [|? [|tp [|l [|nf ?]]]]]]; try done.
    destruct (PyStr.int tp), (PyStr.int l), (PyStr.int nf); simpl; try done.
    apply assign_keeps_keys.
  - by rewrite !get_is_Some_keys, check_server_health_keys.
  - by rewrite request_servers.
Qed.

(** X11. However datagrams, sweeps and TCP requests interleave, the
    monitor never forgets a server - an id that has a record keeps one,
    dead or alive - and never holds an id twice. *)
Theorem monitor_run_keeps_records (steps : list Monitor.step) (m : Monitor.State) :
  (∀ k, is_Some (get k (Monitor.servers m)) →
        is_Some (get k (Monitor.servers (Monitor.run steps m).1))) ∧
  (wf (Monitor.servers m) → wf (Monitor.servers (Monitor.run steps m).1)).
Proof.
  revert m. induction steps as [|s steps IH]; intros m; [done|].
  cbn [Monitor.run fst]. destruct (IH (Monitor.monitor_step s m).1) as [Hk Hw].
  split.
  - intros k Hs. by apply Hk, monitor_step_keeps_ids.
  - intros Hwf. by apply Hw, monitor_step_wf.
Qed.

(** ** Strings: lines made of words *)

Lemma word_inv w :
  word w → ∃ c w', w = String c w' ∧ PyStr.is_space c = false ∧
                   PyStr.no_space w' = true.
Proof.
  intros [Hne Hns]. destruct w as [|c w']; [done|]. simpl in Hns.
  apply andb_true_iff in Hns as [Hc Hw]. apply negb_true_iff in Hc.
  by exists c, w'.
Qed.

Lemma unwords_cons w ws :
  ws ≠ [] → unwords (w :: ws) = w +:+ String " " (unwords ws).
Proof. by destruct ws. Qed.

Lemma unwords_nonempty ws : ws ≠ [] → Forall word ws → unwords ws ≠ "".
Proof.
  intros Hne Hws. destruct ws as [|w ws]; [done|].
  apply Forall_cons in Hws as [(c & w' & -> & _)%word_inv _].
  by destruct ws.
Qed.

Lemma unwords_head ws :
  ws ≠ [] → Forall word ws →
  ∃ c t, unwords ws = String c t ∧ PyStr.is_space c = false.
Proof.
  intros Hne Hws. destruct ws as [|w ws]; [done|].
  apply Forall_cons in Hws as [(c & w' & -> & Hc & _)%word_inv _].
  destruct ws; [by exists c, w'|]. rewrite unwords_cons by done.
  rewrite append_cons. by eexists _, _.
Qed.

Lemma rstrip_no_space w : PyStr.no_space w = true → PyStr.rstrip w = w.
Proof.
  induction w as [|c w IH]; [done|]. simpl.
  intros [Hc Hw]%andb_true_iff. apply negb_true_iff in Hc.
  rewrite IH by done. destruct w; [by rewrite Hc|done].
Qed.

Lemma rstrip_append a b :
  PyStr.rstrip b ≠ "" → PyStr.rstrip (a +:+ b) = a +:+ PyStr.rstrip b.
Proof.
  intros Hb. induction a as [|c a IH]; [done|].
  rewrite !append_cons. simpl. rewrite IH.
  destruct (a +:+ PyStr.rstrip b) eqn:He; [|done].
  destruct a; [|done]. by destruct Hb.
Qed.

Lemma rstrip_append_lf s : PyStr.rstrip (s +:+ PyStr.LF) = PyStr.rstrip s.
Proof.
  induction s as [|c s IH]; [done|]. rewrite append_cons. simpl.
  by rewrite IH.
Qed.

Lemma rstrip_unwords ws : Forall word ws → PyStr.rstrip (unwords ws) = unwords ws.
Proof.
  induction 1 as [|w ws Hw Hws IH]; [done|].
  destruct ws as [|w2 ws]; [apply rstrip_no_space, Hw|].
  rewrite unwords_cons by done.
  change (w +:+ String " " (unwords (w2 :: ws)))
    with (w +:+ (" " +:+ unwords (w2 :: ws))).
  rewrite <- append_assoc, rstrip_append; rewrite IH; [done|].
  by apply unwords_nonempty.
Qed.

Lemma lstrip_unwords ws :
  ws ≠ [] → Forall word ws → ∀ t, PyStr.lstrip (unwords ws +:+ t) = unwords ws +:+ t.
Proof.
  intros Hne Hws t. destruct (unwords_head ws Hne Hws) as (c & r & -> & Hc).
  rewrite append_cons. simpl. by rewrite Hc.
Qed.

(** Stripping a line sent with its line feed gives the line back. *)
Lemma strip_line_unwords ws :
  ws ≠ [] → Forall word ws → PyStr.strip (PyStr.line (unwords ws)) = unwords ws.
Proof.
  intros Hne Hws. unfold PyStr.strip, PyStr.line.
  rewrite lstrip_unwords by done. by rewrite rstrip_append_lf, rstrip_unwords.
Qed.

Lemma strip_unwords ws :
  ws ≠ [] → Forall word ws → PyStr.strip (unwords ws) = unwords ws.
Proof.
  intros Hne Hws. unfold PyStr.strip.
  rewrite <- (append_empty_r (unwords ws)) at 1.
  rewrite lstrip_unwords by done. by rewrite append_empty_r, rstrip_unwords.
Qed.

Lemma split_from_space cur c rest :
  PyStr.is_space c = true → cur ≠ "" →
  PyStr.split_from cur (String c rest) = cur :: PyStr.split_from "" rest.
Proof. intros Hc Hne. simpl. rewrite Hc. by destruct cur. Qed.

Lemma split_from_end cur : cur ≠ "" → PyStr.split_from cur "" = [cur].
Proof. by destruct cur. Qed.

(** Splitting a line of words gives the words back. *)
Lemma split_unwords ws : Forall word ws → PyStr.split (unwords ws) = ws.
Proof.
  unfold PyStr.split. induction 1 as [|w ws Hw Hws IH]; [done|].
  destruct ws as [|w2 ws].
  - cbn [unwords]. rewrite <- (append_empty_r w) at 1.
    rewrite split_from_append by apply Hw.
    change ("" +:+ w) with w. apply split_from_end, Hw.
  - rewrite unwords_cons by done. rewrite split_from_append by apply Hw.
    change ("" +:+ w) with w.
    rewrite split_from_space; [by rewrite IH|done|apply Hw].
Qed.

Lemma prefix_append a b : String.prefix a (a +:+ b) = true.
Proof.
  induction a as [|c a IH]; [by destruct b|].
  rewrite append_cons. simpl. by destruct (ascii_dec c c).
Qed.

Lemma startswith_unwords w ws : PyStr.startswith (unwords (w :: ws)) w = true.
Proof.
  unfold PyStr.startswith. destruct ws; [apply prefix_refl|].
  rewrite unwords_cons by done. apply prefix_append.
Qed.

Lemma no_space_no_lf s : PyStr.no_space s = true → no_lf s = true.
Proof.
  induction s as [|c s IH]; [done|]. simpl.
  intros [Hc Hs]%andb_true_iff. rewrite IH by done.
  destruct (Ascii.eqb_spec c "010"%char) as [->|]; [done|done].
Qed.

Lemma no_lf_append a b : no_lf (a +:+ b) = no_lf a && no_lf b.
Proof.
  induction a as [|c a IH]; [done|]. rewrite append_cons. simpl.
  by rewrite IH, andb_assoc.
Qed.

Lemma no_lf_unwords ws : Forall word ws → no_lf (unwords ws) = true.
Proof.
  induction 1 as [|w ws Hw Hws IH]; [done|].
  destruct ws as [|w2 ws]; [apply no_space_no_lf, Hw|].
  rewrite unwords_cons by done. rewrite no_lf_append. cbn [no_lf].
  rewrite IH. by rewrite no_space_no_lf by apply Hw.
Qed.


Lemma split_nl_from_line cur s rest :
  no_lf s = true →
  PyStr.split_nl_from cur (s +:+ PyStr.LF +:+ rest)
  = (cur +:+ s) :: PyStr.split_nl_from "" rest.
Proof.
  revert cur. induction s as [|c s IH]; intros cur.
  - intros _. simpl. by rewrite append_empty_r.
  - rewrite append_cons. simpl. intros [Hc Hs]%andb_true_iff.
    apply negb_true_iff in Hc. rewrite Hc, IH by done.
    by rewrite append_assoc.
Qed.

(** ** Strings: integers printed and read back *)

Lemma pretty_N_char_digit (d : N) :
  (d < 10)%N →
  PyStr.is_digit (pretty_N_char d) = true ∧
  PyStr.digit_val (pretty_N_char d) = Z.of_N d ∧
  PyStr.is_space (pretty_N_char d) = false.
Proof.
  intros Hd.
  assert (H : (d = 0 ∨ d = 1 ∨ d = 2 ∨ d = 3 ∨ d = 4 ∨ d = 5 ∨ d = 6 ∨
               d = 7 ∨ d = 8 ∨ d = 9)%N) by lia.
  repeat destruct H as [H|H]; subst; by repeat split.
Qed.

Lemma pretty_N_go_read (x : N) :
  (0 < x)%N →
  ∀ s, ∃ k, 0 <= k ∧
    ∀ acc seen,
      PyStr.int_digits acc seen (pretty_N_go x s)
      = PyStr.int_digits (acc * 10 ^ k + Z.of_N x) true s.
Proof.
  induction (N.lt_wf_0 x) as [x _ IH]. intros Hx s.
  rewrite pretty_N_go_step by done.
  destruct (pretty_N_char_digit (x `mod` 10)%N) as (Hd & Hv & _);
    [by apply N.mod_lt|].
  assert (Hx10 : Z.of_N x = 10 * Z.of_N (x `div` 10)%N + Z.of_N (x `mod` 10)%N).
  { rewrite <- N2Z.inj_mul with (n := 10%N), <- N2Z.inj_add. f_equal.
    apply N.div_mod. done. }
  destruct (N.eq_0_gt_0_cases (x `div` 10)) as [Hz|Hq].
  - rewrite Hz, pretty_N_go_0.
    exists 1. split; [done|]. intros acc seen. simpl.
    rewrite Hd, Hv, Hx10, Hz. f_equal. ring.
  - destruct (IH (x `div` 10)%N) with (s := String (pretty_N_char (x `mod` 10)) s)
      as (k & Hk & Hread); [by apply N.div_lt|done|].
    exists (Z.succ k). split; [by apply Z.le_le_succ_r|].
    intros acc seen. rewrite Hread. simpl.
    rewrite Hd, Hv, Z.pow_succ_r, Hx10 by done. f_equal. ring.
Qed.

Lemma pretty_N_go_no_space (x : N) s :
  PyStr.no_space s = true → PyStr.no_space (pretty_N_go x s) = true.
Proof.
  revert s. induction (N.lt_wf_0 x) as [x _ IH]. intros s Hs.
  destruct (N.eq_0_gt_0_cases x) as [->|Hx].
  - by rewrite pretty_N_go_0.
  - rewrite pretty_N_go_step by done. apply IH; [by apply N.div_lt|].
    simpl. rewrite Hs.
    destruct (pretty_N_char_digit (x `mod` 10)%N) as (_ & _ & ->);
      [by apply N.mod_lt|done].
Qed.

Lemma pretty_N_go_head (x : N) s :
  (0 < x)%N →
  ∃ c r, pretty_N_go x s = String c r ∧ PyStr.is_digit c = true.
Proof.
  revert s. induction (N.lt_wf_0 x) as [x _ IH]. intros s Hx.
  rewrite pretty_N_go_step by done.
  destruct (N.eq_0_gt_0_cases (x `div` 10)) as [Hz|Hq].
  - rewrite Hz, pretty_N_go_0. eexists _, _. split; [done|].
    by destruct (pretty_N_char_digit (x `mod` 10)%N) as (-> & _ & _);
      [apply N.mod_lt|].
  - apply IH; [by apply N.div_lt|done].
Qed.

Lemma strip_word w : word w → PyStr.strip w = w.
Proof. intros Hw. apply (strip_unwords [w]); [done|by constructor]. Qed.

Lemma digit_no_space c : PyStr.is_digit c = true → PyStr.is_space c = false.
Proof.
  destruct c as [[] [] [] [] [] [] [] []]; try discriminate; reflexivity.
Qed.

Lemma int_unsigned c r :
  PyStr.is_digit c = true → PyStr.no_space r = true →
  PyStr.int (String c r) = PyStr.int_digits 0 false (String c r).
Proof.
  intros Hc Hr. unfold PyStr.int. rewrite strip_word.
  - destruct c as [[] [] [] [] [] [] [] []]; try discriminate; reflexivity.
  - split; [done|]. simpl. by rewrite digit_no_space, Hr.
Qed.

Lemma of_int_pos_word (p : positive) :
  ∃ c r, pretty (N.pos p) = String c r ∧ PyStr.is_digit c = true ∧
         PyStr.no_space r = true ∧
         PyStr.int_digits 0 false (String c r) = Some (Z.pos p).
Proof.
  unfold pretty, pretty_N. rewrite decide_False by done.
  destruct (pretty_N_go_head (N.pos p) "") as (c & r & Heq & Hc); [done|].
  exists c, r. split_and!; [done|done| |].
  - pose proof (pretty_N_go_no_space (N.pos p) "" eq_refl) as Hns.
    rewrite Heq in Hns. simpl in Hns. by apply andb_true_iff in Hns as [_ ?].
  - destruct (pretty_N_go_read (N.pos p)) with (s := "") as (k & _ & Hread);
      [done|].
    rewrite <- Heq, Hread. simpl. done.
Qed.

(** What [str] prints for an integer, [int] reads back; and it is one
    word. *)
Lemma int_of_int (n : Z) : PyStr.int (PyStr.of_int n) = Some n.
Proof.
  unfold PyStr.of_int, pretty, pretty_Z. destruct n as [|p|p].
  - reflexivity.
  - change (pretty p) with (pretty (N.pos p)).
    destruct (of_int_pos_word p) as (c & r & -> & Hc & Hr & Hread).
    by rewrite int_unsigned.
  - change (pretty p) with (pretty (N.pos p)).
    destruct (of_int_pos_word p) as (c & r & -> & Hc & Hr & Hread).
    unfold PyStr.int. rewrite strip_word.
    + change ("-" +:+ String c r) with (String "-" (String c r)).
      cbv beta iota. rewrite Hread. done.
    + split; [done|]. change ("-" +:+ String c r) with (String "-" (String c r)).
      simpl. by rewrite digit_no_space, Hr.
Qed.

Lemma of_int_word (n : Z) : word (PyStr.of_int n).
Proof.
  unfold PyStr.of_int, pretty, pretty_Z. destruct n as [|p|p].
  - by split.
  - change (pretty p) with (pretty (N.pos p)).
    destruct (of_int_pos_word p) as (c & r & -> & Hc & Hr & _).
    split; [done|]. simpl. by rewrite digit_no_space, Hr.
  - change (pretty p) with (pretty (N.pos p)).
    destruct (of_int_pos_word p) as (c & r & -> & Hc & Hr & _).
    split; [done|]. change ("-" +:+ String c r) with (String "-" (String c r)).
    simpl. by rewrite digit_no_space, Hr.
Qed.

(** The words of a line that is written out. *)
Ltac words :=
  repeat first
    [ apply Forall_nil_2
    | apply Forall_cons_2
    | apply of_int_word
    | assumption
    | (split; [discriminate | reflexivity]) ].

(** ** Heartbeats, as sent and as received *)



(** ** Failure notifications, as sent and as received *)

Lemma select_best_server_alive f st server size :
  Index.select_best_server f st = Some (server, size) →
  Index.status server = "alive".
Proof.
  unfold Index.select_best_server.
  destruct (get f (Index.file_index st)) as [hosts|]; [|done].
  pose proof (sort_by_load_perm
                (Index.candidates (Index.content_servers st) hosts)) as Hp.
  destruct (Index.sort_by_load _) as [|[[bsid bsrv] bsz] l]; [done|].
  intros [= <- <-].
  assert (Hb : (bsid, bsrv, bsz) ∈
               Index.candidates (Index.content_servers st) hosts)
    by (rewrite <- Hp; left).
  by apply elem_of_candidates in Hb as (? & _ & _ & _ & ?).
Qed.

(** X13. The [SERVER_DOWN] text that the monitor sends for a server id of
    one word marks exactly that server dead in the index: its record keeps
    every other field, every other record is untouched, an id the registry
    does not know changes nothing, and from then on [select_best_server]
    does not return that server's record for any file. *)
Theorem server_down_round_trip
    (sid : string) (timestamp : Z) (cs : dict Index.ServerRecord) :
  word sid →
  let cs' := Index.handle_monitor_notification
               (server_down_message sid timestamp) cs in
  cs' = match get sid cs with
        | Some r => assign sid (Index.set_status "dead" r) cs
        | None => cs
        end ∧
  same_servers cs cs' ∧
  (∀ k, k ≠ sid → get k cs' = get k cs) ∧
  (∀ f fi server size,
     Index.select_best_server f
       {| Index.content_servers := cs'; Index.file_index := fi |}
     = Some (server, size) →
     get sid cs' ≠ Some server).
Proof.
  intros Hsid cs'.
  assert (Heq : cs' = match get sid cs with
                      | Some r => assign sid (Index.set_status "dead" r) cs
                      | None => cs
                      end).
  { unfold cs', Index.handle_monitor_notification.
    change (server_down_message sid timestamp)
      with (PyStr.line (unwords ["SERVER_DOWN"; sid; PyStr.of_int timestamp])).
    rewrite strip_line_unwords by (done || words).
    by rewrite startswith_unwords, split_unwords by words. }
  split_and!; [done| | |].
  - rewrite Heq. destruct (get sid cs) as [r|] eqn:Hg; [|apply same_servers_refl].
    by apply (same_servers_assign _ r).
  - intros k Hk. rewrite Heq. destruct (get sid cs); [|done].
    by apply get_assign_ne.
  - intros f fi server size Hsel%select_best_server_alive. rewrite Heq.
    destruct (get sid cs) as [r|] eqn:Hg.
    + rewrite get_assign_eq. intros [= <-]. discriminate.
    + rewrite Hg. discriminate.
Qed.

Lemma server_down_round_trip_witness :
  let cs' := Index.handle_monitor_notification
               (server_down_message "CS2" 1700000000)
               (Index.content_servers demo_loaded) in
  cs' = match get "CS2" (Index.content_servers demo_loaded) with
        | Some r => assign "CS2" (Index.set_status "dead" r)
                      (Index.content_servers demo_loaded)
        | None => Index.content_servers demo_loaded
        end ∧
  same_servers (Index.content_servers demo_loaded) cs' ∧
  (∀ k, k ≠ "CS2" → get k cs' = get k (Index.content_servers demo_loaded)) ∧
  (∀ f fi server size,
     Index.select_best_server f
       {| Index.content_servers := cs'; Index.file_index := fi |}
     = Some (server, size) →
     get "CS2" cs' ≠ Some server).
Proof.
  apply (server_down_round_trip "CS2" 1700000000
           (Index.content_servers demo_loaded)).
  split; [discriminate|reflexivity].
Defined.

Example demo_server_down_then_get :
  Index.get_reply "a.txt"
    (Index.with_servers
       (Index.handle_monitor_notification (server_down_message "CS2" 1700000000)
          (Index.content_servers demo_loaded)) demo_loaded)
  = PyStr.line "SERVER 10.0.0.1 7001 CS1 100".
Proof. vm_compute. reflexivity. Qed.

(** ** Registration of the notification target *)

Lemma check_server_health_delivers now a net srv sid r :
  (sid, r) ∈ srv → Monitor.status r = "alive" →
  (Monitor.HEARTBEAT_TIMEOUT < now - Monitor.last_seen r)%Qc →
  Monitor.Deliver a sid ∈ (Monitor.check_server_health now (Some a) net srv).2.
Proof.
  intros Hin Ha Ht. induction srv as [|kv srv IH]; [by apply elem_of_nil in Hin|].
  cbn [Monitor.check_server_health snd]. rewrite elem_of_app.
  apply elem_of_cons in Hin as [<-|Hin]; [left|right; by apply IH].
  unfold Monitor.check_one. simpl. rewrite !decide_True by done. simpl.
  right. right. left.
Qed.

(** X14. The registration text of the index server's notification listener
    for a port [p] is accepted by the monitor whatever target was registered
    before: the target becomes [("localhost", p)], the server map is
    untouched and the reply is [OK INDEX_REGISTERED]; and a sweep that then
    finds a server timed out attempts its delivery at that address. *)
Theorem register_index_round_trip (p : Z) (m : Monitor.State) :
  let res := Monitor.tcp_message (register_index_message p) m in
  res = ({| Monitor.servers := Monitor.servers m;
            Monitor.index_server_addr := Some ("localhost", p) |},
         [Monitor.OK_INDEX_REGISTERED], Continues) ∧
  ∀ now net sid r,
    (sid, r) ∈ Monitor.servers m → Monitor.status r = "alive" →
    (Monitor.HEARTBEAT_TIMEOUT < now - Monitor.last_seen r)%Qc →
    Monitor.Deliver ("localhost", p) sid ∈
      (Monitor.monitor_step (Monitor.Sweep now net) res.1.1).2.
Proof.
  intros res.
  assert (Hres : res = ({| Monitor.servers := Monitor.servers m;
                           Monitor.index_server_addr := Some ("localhost", p) |},
                        [Monitor.OK_INDEX_REGISTERED], Continues)).
  { unfold res, Monitor.tcp_message.
    change (register_index_message p)
      with (PyStr.line (unwords ["REGISTER_INDEX"; "localhost"; PyStr.of_int p])).
    rewrite strip_line_unwords by (done || words).
    rewrite decide_False.
    - rewrite startswith_unwords, split_unwords by words.
      by rewrite int_of_int.
    - intros Heq. apply (f_equal PyStr.split) in Heq.
      rewrite split_unwords in Heq by words. discriminate. }
  split; [done|]. rewrite Hres. intros now net sid r Hin Ha Ht. simpl.
  by apply (check_server_health_delivers _ _ _ _ _ r).
Qed.

Lemma register_index_round_trip_witness :
  Monitor.Deliver ("localhost", TCP_PORT + 1) "CS1" ∈
    (Monitor.monitor_step (Monitor.Sweep (Q2Qc 110) net_up)
       (Monitor.tcp_message (register_index_message (TCP_PORT + 1))
          demo_monitor).1.1).2.
Proof.
  apply (proj2 (register_index_round_trip (TCP_PORT + 1) demo_monitor)
           (Q2Qc 110) net_up "CS1"
           (demo_heartbeat_record 7001 (Q2Qc 100) 0 3 "alive")).
  - left.
  - reflexivity.
  - vm_compute. reflexivity.
Defined.

(** ** The monitor's server list, as printed and as merged by the index *)

Lemma server_line_unwords kv :
  Monitor.server_line kv =
  PyStr.line (unwords ["SERVER"; kv.1; Monitor.ip kv.2;
                       PyStr.of_int (Monitor.tcp_port kv.2);
                       PyStr.of_int (Monitor.load kv.2); Monitor.status kv.2]).
Proof. reflexivity. Qed.

Lemma server_line_words kv :
  printable kv →
  Forall word ["SERVER"; kv.1; Monitor.ip kv.2;
               PyStr.of_int (Monitor.tcp_port kv.2);
               PyStr.of_int (Monitor.load kv.2); Monitor.status kv.2].
Proof. intros (? & ? & ?). words. Qed.

(** The lines of the reply, without their line feeds. *)
Lemma list_servers_lines srv :
  Forall printable srv →
  PyStr.split_nl (PyStr.strip (Monitor.list_servers srv)) =
  ((fun kv => unwords ["SERVER"; kv.1; Monitor.ip kv.2;
                       PyStr.of_int (Monitor.tcp_port kv.2);
                       PyStr.of_int (Monitor.load kv.2); Monitor.status kv.2])
     <$> srv) ++ ["END"].
Proof.
  intros Hp.
  assert (Hbody : ∀ l, Monitor.list_servers l
                       = foldr (fun kv acc => Monitor.server_line kv +:+ acc) "" l
                         +:+ "END" +:+ PyStr.LF).
  { induction l as [|kv l IH]; [done|]. unfold Monitor.list_servers in *.
    cbn [foldr]. by rewrite IH, append_assoc. }
  assert (Hstrip : PyStr.strip (Monitor.list_servers srv)
                   = foldr (fun kv acc => Monitor.server_line kv +:+ acc) "" srv
                     +:+ "END").
  { unfold PyStr.strip.
    assert (Hl : PyStr.lstrip (Monitor.list_servers srv) = Monitor.list_servers srv).
    { destruct srv as [|kv srv]; [done|]. unfold Monitor.list_servers.
      cbn [foldr]. rewrite server_line_unwords. unfold PyStr.line.
      rewrite !append_assoc. apply lstrip_unwords; [done|].
      apply server_line_words. by apply Forall_cons in Hp as [? _]. }
    rewrite Hl, Hbody, <- append_assoc, rstrip_append_lf.
    by rewrite rstrip_append. }
  rewrite Hstrip. unfold PyStr.split_nl. clear Hstrip Hbody.
  induction Hp as [|kv srv Hkv Hp IH]; [done|].
  cbn [foldr]. rewrite server_line_unwords. unfold PyStr.line.
  rewrite !append_assoc, split_nl_from_line
    by (apply no_lf_unwords, server_line_words, Hkv).
  rewrite fmap_cons. cbn [app]. f_equal. exact IH.
Qed.

Lemma merge_line_server kv cs :
  printable kv →
  Index.merge_line
    (unwords ["SERVER"; kv.1; Monitor.ip kv.2;
              PyStr.of_int (Monitor.tcp_port kv.2);
              PyStr.of_int (Monitor.load kv.2); Monitor.status kv.2]) cs =
  (match get kv.1 cs with
   | Some r0 => assign kv.1 (refreshed_by (Some kv.2) r0) cs
   | None => cs
   end, Continues).
Proof.
  intros Hkv. unfold Index.merge_line.
  rewrite startswith_unwords, split_unwords by by apply server_line_words.
  destruct (get kv.1 cs); [|done]. by rewrite int_of_int.
Qed.

Lemma merge_lines_servers srv cs :
  wf srv → Forall printable srv →
  ∃ cs',
    Index.merge_lines
      (((fun kv => unwords ["SERVER"; kv.1; Monitor.ip kv.2;
                            PyStr.of_int (Monitor.tcp_port kv.2);
                            PyStr.of_int (Monitor.load kv.2);
                            Monitor.status kv.2]) <$> srv) ++ ["END"]) cs
    = (cs', Continues) ∧
    ∀ sid r0, get sid cs = Some r0 →
      get sid cs' = Some (refreshed_by (get sid srv) r0).
Proof.
  intros Hwf Hp. revert cs.
  induction Hp as [|[k r] srv Hkv Hp IH]; intros cs.
  - exists cs. split; [done|]. by intros sid r0 ->.
  - unfold wf, keys in Hwf. rewrite fmap_cons, NoDup_cons in Hwf.
    destruct Hwf as [Hk Hnd]. simpl in Hk. rewrite fmap_cons.
    cbn [app Index.merge_lines].
    rewrite (merge_line_server (k, r)) by done. cbn [fst snd].
    set (cs1 := match get k cs with
                | Some r0 => assign k (refreshed_by (Some r) r0) cs
                | None => cs
                end).
    destruct (IH Hnd cs1) as (cs' & -> & Hget). exists cs'. split; [done|].
    intros sid r0 Hg. cbn [get]. destruct (decide (k = sid)) as [<-|Hne].
    + assert (Hnone : get k srv = None).
      { destruct (get k srv) eqn:Hs; [|done].
        destruct Hk. apply get_is_Some_keys. by rewrite Hs. }
      rewrite (Hget k (refreshed_by (Some r) r0)).
      * by rewrite Hnone.
      * unfold cs1. rewrite Hg. apply get_assign_eq.
    + apply Hget. unfold cs1. destruct (get k cs); [|done].
      by rewrite get_assign_ne.
Qed.

(** ** Reading the monitor's reply chunk by chunk *)

Lemma contains_cons c s sub :
  contains (String c s) sub =
  PyStr.startswith (String c s) sub || contains s sub.
Proof. cbn [contains]. by destruct (PyStr.startswith _ _). Qed.

Lemma contains_empty sub : sub ≠ "" → contains "" sub = false.
Proof. by destruct sub. Qed.

Lemma contains_startswith s sub :
  PyStr.startswith s sub = true → contains s sub = true.
Proof. intros H. destruct s; cbn [contains]; by rewrite H. Qed.

Lemma prefix_append_r (p s b : string) :
  String.prefix p s = true → String.prefix p (s +:+ b) = true.
Proof.
  intros [rest ->]%prefix_split. rewrite append_assoc. apply prefix_append.
Qed.

Lemma contains_append_l a b sub :
  contains a sub = true → contains (a +:+ b) sub = true.
Proof.
  induction a as [|c a IH].
  - destruct sub; [|done]. intros _. by destruct b.
  - rewrite append_cons, !contains_cons. intros [Hp|Hc]%orb_true_iff.
    + apply orb_true_iff. left. unfold PyStr.startswith in *.
      rewrite <- append_cons. by apply prefix_append_r.
    + apply orb_true_iff. right. by apply IH.
Qed.

Lemma contains_middle x sub y : contains (x +:+ sub +:+ y) sub = true.
Proof.
  induction x as [|c x IH].
  - change ("" +:+ sub +:+ y) with (sub +:+ y).
    apply contains_startswith, prefix_append.
  - rewrite append_cons, contains_cons, IH. apply orb_true_r.
Qed.

(** A pattern free of the character [sp] starts at a position of
    [w sp rest] only if all of it lies within [w]. *)
Lemma prefix_separator pat w sp rest :
  all_chars (fun c => negb (Ascii.eqb c sp)) pat = true →
  String.prefix pat (w +:+ String sp rest) = String.prefix pat w.
Proof.
  revert w. induction pat as [|p pat IH]; intros w Hpat.
  - by destruct w.
  - cbn [all_chars] in Hpat. apply andb_true_iff in Hpat as [Hp Hpat].
    apply negb_true_iff, Ascii.eqb_neq in Hp.
    destruct w as [|c w].
    + simpl. by destruct (ascii_dec p sp).
    + rewrite append_cons. simpl. destruct (ascii_dec p c); [by apply IH|done].
Qed.

Lemma contains_separator pat w sp rest :
  pat ≠ "" → all_chars (fun c => negb (Ascii.eqb c sp)) pat = true →
  contains (w +:+ String sp rest) pat = contains w pat || contains rest pat.
Proof.
  intros Hne Hpat. induction w as [|c w IH].
  - change ("" +:+ String sp rest) with (String sp rest).
    rewrite contains_cons, contains_empty by done.
    unfold PyStr.startswith.
    change (String sp rest) with ("" +:+ String sp rest).
    rewrite prefix_separator by done. by destruct pat.
  - rewrite append_cons, !contains_cons, IH, orb_assoc. f_equal. f_equal.
    unfold PyStr.startswith. rewrite <- append_cons.
    by apply prefix_separator.
Qed.

Lemma contains_unwords ws sp rest :
  ws ≠ [] → sp = " "%char ∨ sp = "010"%char →
  Forall (fun w => contains w "END" = false) ws →
  contains rest "END" = false →
  contains (unwords ws +:+ String sp rest) "END" = false.
Proof.
  intros Hne Hsp Hws Hrest. induction Hws as [|w ws Hw Hws IH]; [done|].
  destruct (decide (ws = [])) as [->|Hws'].
  - cbn [unwords]. rewrite contains_separator, Hw, Hrest; [done|done|].
    by destruct Hsp as [->| ->].
  - rewrite unwords_cons by done.
    rewrite append_assoc.
    change (" " +:+ unwords ws) with (String " " (unwords ws)).
    rewrite append_cons, contains_separator, Hw, IH by done. done.
Qed.

Lemma contains_END_no_E w :
  all_chars (fun c => negb (Ascii.eqb c "E")) w = true →
  contains w "END" = false.
Proof.
  induction w as [|c w IH]; [done|]. cbn [all_chars].
  intros [Hc Hw]%andb_true_iff. rewrite contains_cons, IH by done.
  apply negb_true_iff, Ascii.eqb_neq in Hc. unfold PyStr.startswith.
  cbn [String.prefix]. destruct (ascii_dec "E" c) as [<-|]; done.
Qed.

Lemma pretty_N_go_all_chars (p : ascii → bool) (x : N) s :
  (∀ d, (d < 10)%N → p (pretty_N_char d) = true) →
  all_chars p s = true → all_chars p (pretty_N_go x s) = true.
Proof.
  intros Hp. revert s. induction (N.lt_wf_0 x) as [x _ IH]. intros s Hs.
  destruct (N.eq_0_gt_0_cases x) as [->|Hx].
  - by rewrite pretty_N_go_0.
  - rewrite pretty_N_go_step by done. apply IH; [by apply N.div_lt|].
    cbn [all_chars]. rewrite Hs, Hp; [done|by apply N.mod_lt].
Qed.

Lemma of_int_all_chars (p : ascii → bool) (n : Z) :
  (∀ d, (d < 10)%N → p (pretty_N_char d) = true) → p "-"%char = true →
  all_chars p (PyStr.of_int n) = true.
Proof.
  intros Hp Hminus.
  assert (Hpos : ∀ q : positive, all_chars p (pretty (N.pos q)) = true).
  { intros q. unfold pretty, pretty_N. rewrite decide_False by done.
    by apply pretty_N_go_all_chars. }
  unfold PyStr.of_int, pretty, pretty_Z. destruct n as [|q|q].
  - cbn [all_chars]. change (p "0"%char) with (p (pretty_N_char 0)).
    by rewrite Hp.
  - apply Hpos.
  - change ("-" +:+ pretty q) with (String "-" (pretty (N.pos q))).
    cbn [all_chars]. by rewrite Hminus, Hpos.
Qed.

Lemma pretty_N_char_cases (p : ascii → bool) :
  p "0"%char = true → p "1"%char = true → p "2"%char = true →
  p "3"%char = true → p "4"%char = true → p "5"%char = true →
  p "6"%char = true → p "7"%char = true → p "8"%char = true →
  p "9"%char = true →
  ∀ d, (d < 10)%N → p (pretty_N_char d) = true.
Proof.
  intros ?????????? d Hd.
  assert (Hcases : (d = 0 ∨ d = 1 ∨ d = 2 ∨ d = 3 ∨ d = 4 ∨ d = 5 ∨ d = 6 ∨
                    d = 7 ∨ d = 8 ∨ d = 9)%N) by lia.
  repeat destruct Hcases as [Hcases|Hcases]; by subst.
Qed.

Lemma of_int_END (n : Z) : contains (PyStr.of_int n) "END" = false.
Proof.
  apply contains_END_no_E, of_int_all_chars; [|done].
  by apply (pretty_N_char_cases (fun c => negb (Ascii.eqb c "E"))).
Qed.


Lemma servers_body_END srv rest :
  Forall end_free srv → contains rest "END" = false →
  contains (servers_body srv +:+ rest) "END" = false.
Proof.
  intros Hfree Hrest. induction Hfree as [|kv srv (Hk & Hi & Hs) Hfree IH];
    [done|].
  unfold servers_body in *. cbn [foldr].
  rewrite server_line_unwords. unfold PyStr.line.
  rewrite !append_assoc.
  change (PyStr.LF +:+ ?t) with (String "010" t).
  apply contains_unwords; [done|by right| |exact IH].
  repeat apply Forall_cons_2; try done; try apply of_int_END.
Qed.

Lemma append_eq_append (p q a b : string) :
  p +:+ q = a +:+ b →
  (∃ t, a = p +:+ t ∧ q = t +:+ b) ∨ (∃ t, p = a +:+ t ∧ b = t +:+ q).
Proof.
  revert a. induction p as [|c p IH]; intros a Heq.
  - left. by exists a.
  - destruct a as [|d a].
    + right. by exists (String c p).
    + rewrite !append_cons in Heq. injection Heq as -> Heq.
      destruct (IH _ Heq) as [(t & -> & ->)|(t & -> & ->)].
      * left. by exists t.
      * right. by exists t.
Qed.

(** The reading loop on a text whose only [END] is its last line: it stops
    once that line is there, with or without its line feed. *)
Lemma read_response_whole body acc chunks :
  contains (body +:+ "EN") "END" = false →
  Forall (fun data => data ≠ "") chunks →
  acc +:+ joined chunks = body +:+ "END" +:+ PyStr.LF →
  contains acc "END" = false →
  ∃ text, read_response acc chunks = Some text ∧
          (text = body +:+ "END" ∨ text = body +:+ "END" +:+ PyStr.LF).
Proof.
  intros Hfree Hne. revert acc.
  induction Hne as [|d chunks Hd Hne IH]; intros acc Heq Hacc.
  - cbn [joined foldr] in Heq. rewrite append_empty_r in Heq. subst acc.
    by rewrite contains_middle in Hacc.
  - cbn [read_response]. rewrite decide_False by done.
    cbn [joined foldr] in Heq. fold (joined chunks) in Heq.
    rewrite <- append_assoc in Heq.
    destruct (contains (acc +:+ d) "END") eqn:Hc; [|by apply IH].
    exists (acc +:+ d). split; [done|].
    assert (Hr : body +:+ "END" +:+ PyStr.LF
                 = (body +:+ "EN") +:+ String "D" (String "010" ""))
      by (by rewrite append_assoc).
    rewrite Hr in Heq.
    apply append_eq_append in Heq as [(t & Ht & _)|(t & Ht & Hq)].
    + rewrite Ht in Hfree.
      apply contains_append_l with (b := t) in Hc. congruence.
    + rewrite Ht. destruct t as [|c1 [|c2 [|c3 t]]].
      * rewrite append_empty_r in Ht. congruence.
      * rewrite append_cons in Hq. injection Hq as <- _.
        left. by rewrite append_assoc.
      * rewrite !append_cons in Hq. injection Hq as <- <- _.
        right. by rewrite append_assoc.
      * rewrite !append_cons in Hq. discriminate.
Qed.

Lemma list_servers_body srv :
  Monitor.list_servers srv = servers_body srv +:+ "END" +:+ PyStr.LF.
Proof.
  induction srv as [|kv srv IH]; [done|].
  unfold Monitor.list_servers, servers_body in *.
  cbn [foldr]. by rewrite IH, append_assoc.
Qed.

Lemma lstrip_servers_body srv t :
  Forall printable srv →
  PyStr.lstrip (servers_body srv +:+ "END" +:+ t)
  = servers_body srv +:+ "END" +:+ t.
Proof.
  intros Hp. destruct Hp as [|kv srv Hkv Hp]; [done|].
  unfold servers_body. cbn [foldr]. rewrite server_line_unwords.
  unfold PyStr.line. rewrite !append_assoc.
  apply lstrip_unwords; [done|]. by apply server_line_words.
Qed.

Lemma strip_servers_body srv :
  Forall printable srv →
  PyStr.strip (servers_body srv +:+ "END") = servers_body srv +:+ "END" ∧
  PyStr.strip (servers_body srv +:+ "END" +:+ PyStr.LF)
  = servers_body srv +:+ "END".
Proof.
  intros Hp. unfold PyStr.strip. split.
  - rewrite <- (append_empty_r "END") at 1.
    rewrite lstrip_servers_body by done.
    rewrite append_empty_r. by rewrite rstrip_append.
  - rewrite lstrip_servers_body by done.
    rewrite <- append_assoc, rstrip_append_lf. by rewrite rstrip_append.
Qed.

(** Whenever the loop reads the reply up to its last line, the refresh is
    the one from the whole reply. That is so when the reply comes in one
    chunk, and when [END] occurs in no id, address or status, in however
    many chunks the reply comes. *)
Lemma read_list_servers srv chunks :
  Forall printable srv →
  arrives_as (Monitor.list_servers srv) chunks →
  length chunks = 1%nat ∨ Forall end_free srv →
  ∃ text, read_response "" chunks = Some text ∧
          PyStr.strip text = PyStr.strip (Monitor.list_servers srv).
Proof.
  intros Hp [Hne Hjoin] Hhow.
  apply (Forall_impl _ (fun data => data ≠ "")) in Hne; [|by intros ? [? _]].
  destruct Hhow as [Hone|Hfree].
  - destruct chunks as [|d [|??]]; try done.
    cbn [joined foldr] in Hjoin. rewrite append_empty_r in Hjoin. subst d.
    exists (Monitor.list_servers srv). split; [|done].
    cbn [read_response]. apply Forall_cons in Hne as [Hd _].
    rewrite decide_False by done.
    change ("" +:+ Monitor.list_servers srv) with (Monitor.list_servers srv).
    by rewrite list_servers_body, contains_middle.
  - rewrite list_servers_body in Hjoin.
    destruct (read_response_whole (servers_body srv) "" chunks)
      as (text & Hread & Htext); [|done|done|done|].
    { by apply servers_body_END. }
    exists text. split; [done|]. rewrite list_servers_body.
    destruct (strip_servers_body srv Hp) as [H1 H2].
    destruct Htext as [-> | ->]; by rewrite ?H1, ?H2.
Qed.

Lemma refresh_reads_list_servers srv chunks cs :
  Forall printable srv →
  arrives_as (Monitor.list_servers srv) chunks →
  length chunks = 1%nat ∨ Forall end_free srv →
  Index.get_server_health_from_monitor (monitor_exchange chunks) cs =
  Index.get_server_health_from_monitor
    (Index.Response (Monitor.list_servers srv)) cs.
Proof.
  intros Hp Harr Hhow.
  destruct (read_list_servers srv chunks Hp Harr Hhow) as (text & Hread & Hs).
  unfold monitor_exchange. rewrite Hread.
  cbn [Index.get_server_health_from_monitor]. by rewrite Hs.
Qed.



(** A reply cut short: the id [FRONTEND] holds [END], so when the reply
    comes in two chunks the loop stops after the first, and the refresh
    returns [True] without having merged the dead status of [CS2]. In one
    chunk the same reply is merged. *)
Example demo_frontend_reply :
  let srv := Monitor.servers
               (Monitor.monitor_step (Monitor.Sweep (Q2Qc 120) net_up)
                  demo_frontend).1 in
  Monitor.list_servers srv =
    PyStr.line "SERVER FRONTEND localhost 7001 4 dead" +:+
    PyStr.line "SERVER CS2 localhost 7003 2 dead" +:+ PyStr.line "END" ∧
  read_response ""
    [PyStr.line "SERVER FRONTEND localhost 7001 4 dead";
     PyStr.line "SERVER CS2 localhost 7003 2 dead" +:+ PyStr.line "END"]
  = Some (PyStr.line "SERVER FRONTEND localhost 7001 4 dead") ∧
  Index.get_server_health_from_monitor
    (monitor_exchange
       [PyStr.line "SERVER FRONTEND localhost 7001 4 dead";
        PyStr.line "SERVER CS2 localhost 7003 2 dead" +:+ PyStr.line "END"])
    (Index.content_servers demo_store)
  = (Index.content_servers demo_store, true) ∧
  Index.status <$>
    get "CS2" (Index.get_server_health_from_monitor
                 (monitor_exchange [Monitor.list_servers srv])
                 (Index.content_servers demo_store)).1
  = Some "dead".
Proof. vm_compute. repeat split; reflexivity. Qed.

Example demo_refresh_from_monitor :
  (Index.get_server_health_from_monitor
     (Index.Response
        (Monitor.list_servers
           (Monitor.servers
              (Monitor.monitor_step (Monitor.Sweep (Q2Qc 110) net_up)
                 demo_monitor).1)))
     (Index.content_servers demo_store)).1
  = [("CS1", demo_record 7001 7002 0 "dead");
     ("CS2", demo_record 7003 7004 2 "alive");
     ("CS3", demo_record 7005 7006 0 "alive")].
Proof. vm_compute. reflexivity. Qed.

(** ** The monitor only ever holds records that print as words *)

Lemma no_space_append a b :
  PyStr.no_space (a +:+ b) = PyStr.no_space a && PyStr.no_space b.
Proof.
  induction a as [|c a IH]; [done|]. rewrite append_cons. simpl.
  by rewrite IH, andb_assoc.
Qed.

Lemma split_from_words cur s :
  PyStr.no_space cur = true → Forall word (PyStr.split_from cur s).
Proof.
  revert cur. induction s as [|c s IH]; intros cur Hcur; simpl.
  - destruct cur; [constructor|]. by repeat constructor.
  - destruct (PyStr.is_space c) eqn:Hc.
    + destruct cur; [by apply IH|]. constructor; [done|by apply IH].
    + apply IH. rewrite no_space_append, Hcur. simpl. by rewrite Hc.
Qed.

Lemma split_words s : Forall word (PyStr.split s).
Proof. by apply split_from_words. Qed.

Lemma Forall_assign {V} (P : string * V → Prop) k v (d : dict V) :
  Forall P d → P (k, v) → Forall P (assign k v d).
Proof.
  intros Hd Hkv. induction Hd as [|[k' v'] d Hx Hd IH]; simpl.
  - by repeat constructor.
  - destruct (decide (k' = k)); by constructor.
Qed.

Lemma on_datagram_printable now data srv :
  Forall printable srv → Forall printable (Monitor.on_datagram now data srv).1.
Proof.
  intros Hp. unfold Monitor.on_datagram.
  destruct (PyStr.startswith _ _); [|done].
  pose proof (split_words (PyStr.strip data)) as Hw.
  destruct (PyStr.split _) as [|? [|sid [|ip_s [|tp [|l [|nf ?]]]]]]; try done.
  destruct (PyStr.int tp), (PyStr.int l), (PyStr.int nf); simpl; try done.
  apply Forall_cons in Hw as [_ Hw]. apply Forall_cons in Hw as [Hsid Hw].
  apply Forall_cons in Hw as [Hip _].
  apply Forall_assign; [done|]. unfold printable. simpl.
  split_and!; [exact Hsid|exact Hip|by split].
Qed.

Lemma check_server_health_printable now addr net srv :
  Forall printable srv →
  Forall printable (Monitor.check_server_health now addr net srv).1.
Proof.
  induction 1 as [|kv srv Hkv Hp IH]; [done|].
  cbn [Monitor.check_server_health fst]. constructor; [|done].
  destruct (check_one_cases now addr net kv) as [->|(_ & _ & ->)]; [done|].
  destruct Hkv as (Hk & Hi & _). unfold printable. simpl.
  split_and!; [exact Hk|exact Hi|by split].
Qed.

Lemma monitor_step_printable s m :
  Forall printable (Monitor.servers m) →
  Forall printable (Monitor.servers (Monitor.monitor_step s m).1).
Proof.
  intros Hp.
  destruct s as [now data|now net|data];
    unfold Monitor.monitor_step; cbn [fst Monitor.servers].
  - by apply on_datagram_printable.
  - by apply check_server_health_printable.
  - by rewrite request_servers.
Qed.

Lemma monitor_run_reachable steps m :
  wf (Monitor.servers m) → Forall printable (Monitor.servers m) →
  wf (Monitor.servers (Monitor.run steps m).1) ∧
  Forall printable (Monitor.servers (Monitor.run steps m).1).
Proof.
  revert m. induction steps as [|s steps IH]; intros m Hwf Hp; [done|].
  cbn [Monitor.run fst].
  apply IH; [by apply monitor_step_wf|by apply monitor_step_printable].
Qed.

(** ** The monitor only ever holds ASCII records when its input is ASCII *)













(** ** Chunks made of whole lines *)








(** ** Registration, as sent and as received *)



Lemma done_files_line addr_ip now st :
  Index.content_server_line addr_ip now "DONE_FILES" st =
  (st, [Index.OK_FILES_ADDED], Continues).
Proof. reflexivity. Qed.


Section Chunks.
Context (addr_ip : string).




End Chunks.













(** ** A lookup, from the client's request to what the client returns *)








Example demo_lookup :
  Client.contact_index_server
    (Some (Index.get_reply "a.txt"
             (Index.refresh (Index.Response demo_response) demo_store)))
  = Some ("10.0.0.1", 7003, "CS2", 100).
Proof. vm_compute. reflexivity. Qed.

(** ** A download request, from the client's request to the header it reads *)



(** ** A failure seen by the monitor reaches the selection *)

(** X20. Failure propagation by the pull path. Whatever the history of the
    monitor on ASCII input, once the index has refreshed its registry from
    the monitor's [LIST_SERVERS] reply, read up to its last line (the reply
    comes in one chunk, or [END] occurs in no id, address or status), a
    server whose monitor record is [dead] is not returned by
    [select_best_server] for any file, whatever the registry said about it
    before. *)
Theorem dead_in_monitor_not_selected
    (steps : list Monitor.step) (cs : dict Index.ServerRecord)
    (fi : dict (list (string * Z))) (sid : string)
    (r : Monitor.HeartbeatRecord) (chunks : list string) :
  Forall ascii_step steps →
  let srv := Monitor.servers (Monitor.run steps Monitor.initial).1 in
  get sid srv = Some r → Monitor.status r = "dead" →
  arrives_as (Monitor.list_servers srv) chunks →
  length chunks = 1%nat ∨ Forall end_free srv →
  let cs' := (Index.get_server_health_from_monitor
                (monitor_exchange chunks) cs).1 in
  ∀ f server size,
    Index.select_best_server f
      {| Index.content_servers := cs'; Index.file_index := fi |}
    = Some (server, size) →
    get sid cs' ≠ Some server.
Proof.
  intros _ srv Hg Hdead Harr Hhow cs' f server size
    Hsel%select_best_server_alive.
  destruct (monitor_run_reachable steps Monitor.initial) as [Hwf Hp];
    [apply wf_nil|constructor|]. fold srv in Hwf, Hp.
  assert (Hcs' : cs' = (Index.get_server_health_from_monitor
                          (Index.Response (Monitor.list_servers srv)) cs).1).
  { unfold cs'. by rewrite (refresh_reads_list_servers srv). }
  destruct (get sid cs) as [r0|] eqn:Hcs.
  - assert (Hget : get sid cs' = Some (refreshed_by (get sid srv) r0)).
    { rewrite Hcs'. cbn [Index.get_server_health_from_monitor].
      rewrite list_servers_lines by done.
      destruct (merge_lines_servers srv cs Hwf Hp) as (cs1 & -> & Hget).
      by apply Hget. }
    rewrite Hget, Hg. simpl. intros [= <-]. simpl in Hsel. congruence.
  - assert (Hnone : get sid cs' = None).
    { pose proof (refresh_same (Index.Response (Monitor.list_servers srv)) cs)
        as Hsame. apply same_servers_keys in Hsame. rewrite <- Hcs' in Hsame.
      destruct (get sid cs') eqn:Hs; [|done].
      assert (Hin : sid ∈ keys cs') by (apply get_is_Some_keys; by rewrite Hs).
      rewrite Hsame in Hin. apply get_is_Some_keys in Hin.
      rewrite Hcs in Hin. by destruct Hin. }
    by rewrite Hnone.
Qed.

Lemma dead_in_monitor_not_selected_witness :
  let steps := [Monitor.Datagram (Q2Qc 100) "HEARTBEAT CS1 localhost 7001 0 3";
                Monitor.Datagram (Q2Qc 107) "HEARTBEAT CS2 localhost 7003 2 3";
                Monitor.Sweep (Q2Qc 110) net_up] in
  let chunks := ["SERVER CS1 localhost 7001 0 dead" +:+ PyStr.LF;
                 "SERVER CS2 localhost 7003 2 alive" +:+ PyStr.LF +:+ "END"
                 +:+ PyStr.LF] in
  let cs' := (Index.get_server_health_from_monitor
                (monitor_exchange chunks)
                (Index.content_servers demo_store)).1 in
  Index.select_best_server "a.txt"
    {| Index.content_servers := cs';
       Index.file_index := Index.file_index demo_store |}
  = Some (fresh_record "10.0.0.1" 7005 7006 t0, 100) ∧
  get "CS1" cs' ≠ Some (fresh_record "10.0.0.1" 7005 7006 t0).
Proof.
  split; [vm_compute; reflexivity|].
  apply (dead_in_monitor_not_selected
           [Monitor.Datagram (Q2Qc 100) "HEARTBEAT CS1 localhost 7001 0 3";
            Monitor.Datagram (Q2Qc 107) "HEARTBEAT CS2 localhost 7003 2 3";
            Monitor.Sweep (Q2Qc 110) net_up]
           (Index.content_servers demo_store) (Index.file_index demo_store)
           "CS1" (demo_heartbeat_record 7001 (Q2Qc 100) 0 3 "dead")
           ["SERVER CS1 localhost 7001 0 dead" +:+ PyStr.LF;
            "SERVER CS2 localhost 7003 2 alive" +:+ PyStr.LF +:+ "END"
            +:+ PyStr.LF])
    with (f := "a.txt") (size := 100).
  - repeat constructor.
  - reflexivity.
  - reflexivity.
  - split; [|reflexivity].
    repeat constructor; discriminate.
  - right. repeat constructor.
  - vm_compute. reflexivity.
Defined.
